(** * Simple Notes: the shared-notes API and its client cache

    A shallow embedding of the note service of this repository:
    - the token-based serverless function (GET / POST / PUT / DELETE on one
      URL, notes kept in a key-value blob store under ["note:" + id], with a
      recency index under ["notes:index"]);
    - the id-in-path variant of the function (all notes in one array);
    - the client's [apiRequest] / [getAllNotes] with its localStorage cache.

    JavaScript values that travel through the code are JSON data.  Strings
    are sequences of code units; this development covers the code units
    below 256, written as Rocq characters.  Numbers are integers, each
    given by the digits JavaScript prints for it (every integer up to 2^53
    in magnitude is one; timestamps are millisecond counts): in plain
    decimal below 10^21, in exponent notation from there on. *)

From Stdlib Require Import ZArith Lia Ascii.
From stdpp Require Import base option list strings pretty gmap fin_maps.

Local Open Scope string_scope.
Local Open Scope Z_scope.

(** ** JSON data *)

#[local] Set Warnings "-register-all".

Inductive jvalue : Type :=
| JNull
| JBool (b : bool)
| JNum (n : Z)
| JStr (s : string)
| JArr (items : list jvalue)
| JObj (fields : list (string * jvalue)).

(** ** Completion of a JavaScript computation: a value, or a thrown error *)

Inductive outcome (A : Type) : Type :=
| Return (a : A)
| Throw (msg : string).
Arguments Return {A} a.
Arguments Throw {A} msg.

Definition outcome_bind {A B : Type} (m : outcome A) (k : A -> outcome B) : outcome B :=
  match m with
  | Return a => k a
  | Throw msg => Throw msg
  end.

(** ** JavaScript primitives used by the handlers *)

Module JS.

(** [Boolean(v)]: null, false, 0 and the empty string are falsy. *)
Definition truthy (v : jvalue) : bool :=
  match v with
  | JNull => false
  | JBool b => b
  | JNum n => negb (n =? 0)
  | JStr s => negb (bool_decide (s = ""))
  | JArr _ | JObj _ => true
  end.

(** [typeof v === "object"]: null, arrays and objects. *)
Definition typeof_object (v : jvalue) : bool :=
  match v with
  | JNull | JArr _ | JObj _ => true
  | JBool _ | JNum _ | JStr _ => false
  end.

(** [Array.isArray(v)]. *)
Definition isArray (v : jvalue) : bool :=
  match v with JArr _ => true | _ => false end.

(** The elements of an array value (none for any other value). *)
Definition elements (v : jvalue) : list jvalue :=
  match v with JArr items => items | _ => [] end.

(** Own property lookup in an object literal / parsed object. *)
Fixpoint lookup_field (k : string) (fs : list (string * jvalue)) : option jvalue :=
  match fs with
  | [] => None
  | (k', v) :: rest => if bool_decide (k' = k) then Some v else lookup_field k rest
  end.

(** [v?.k] (and [v.k] on a non-nullish [v]) for a key that no prototype
    defines: [None] is [undefined].  Only objects carry such keys. *)
Definition prop (v : jvalue) (k : string) : option jvalue :=
  match v with
  | JObj fs => lookup_field k fs
  | _ => None
  end.

(** [x ?? d]: [d] replaces undefined and null only. *)
Definition nullish_or (x : option jvalue) (d : jvalue) : jvalue :=
  match x with
  | None | Some JNull => d
  | Some v => v
  end.

(** [x || d]. *)
Definition or_else (x d : jvalue) : jvalue := if truthy x then x else d.

(** Truthiness of a possibly undefined value. *)
Definition truthy_opt (x : option jvalue) : bool :=
  match x with Some v => truthy v | None => false end.

(** [x !== s] for a string [s]: strict inequality never converts. *)
Definition strict_ne_str (x : option jvalue) (s : string) : bool :=
  match x with
  | Some (JStr t) => negb (bool_decide (t = s))
  | _ => true
  end.

Definition has_key (k : string) (fs : list (string * jvalue)) : bool :=
  bool_decide (is_Some (lookup_field k fs)).

(** [String(n)] for a number: its digits below 10^21; from there on the
    digits before the trailing zeros, with a point after the first when
    there are several, and the exponent. *)
Fixpoint strip_zeros (fuel : nat) (n : Z) : Z :=
  match fuel with
  | O => n
  | S fuel' => if (n mod 10 =? 0) && negb (n =? 0) then strip_zeros fuel' (n / 10) else n
  end.

Definition Number_toString (n : Z) : string :=
  if Z.abs n <? 10 ^ 21 then pretty n
  else
    let digits := pretty (Z.abs n) in
    let significand := pretty (strip_zeros (String.length digits) (Z.abs n)) in
    (if n <? 0 then "-" else "")
    +:+ match significand with
        | String d (String d' rest) => String d ("." +:+ String d' rest)
        | _ => significand
        end
    +:+ "e+" +:+ pretty (Z.of_nat (String.length digits) - 1).

(** [String(v)] / template-literal conversion.  Arrays join their elements
    with commas (null elements print as nothing).  A plain object prints as
    "[object Object]" through [Object.prototype.toString]; an object with an
    own "toString" entry (never callable in JSON data) has no primitive
    value and the conversion throws a TypeError. *)
Fixpoint String_ (v : jvalue) : outcome string :=
  match v with
  | JNull => Return "null"
  | JBool b => Return (if b then "true" else "false")
  | JNum n => Return (Number_toString n)
  | JStr s => Return s
  | JArr items =>
      (fix join (l : list jvalue) : outcome string :=
         match l with
         | [] => Return ""
         | x :: rest =>
             outcome_bind (match x with JNull => Return "" | _ => String_ x end)
               (fun s => match rest with
                         | [] => Return s
                         | _ => outcome_bind (join rest)
                                  (fun r => Return (s +:+ "," +:+ r))
                         end)
         end) items
  | JObj fs =>
      if has_key "toString" fs
      then Throw "Cannot convert object to primitive value"
      else Return "[object Object]"
  end.

(** White space and line terminators removed by [String.prototype.trim],
    among the code units below 256: TAB, LF, VT, FF, CR, SPACE, NBSP. *)
Definition is_space (a : Ascii.ascii) : bool :=
  let n := Ascii.N_of_ascii a in
  ((9 <=? n) && (n <=? 13) || (n =? 32) || (n =? 160))%N.

Fixpoint trimStart (s : string) : string :=
  match s with
  | String a rest => if is_space a then trimStart rest else s
  | EmptyString => EmptyString
  end.

Definition trim (s : string) : string :=
  String.rev (trimStart (String.rev (trimStart s))).

(** [s.length]. *)
Definition length (s : string) : Z := Z.of_nat (String.length s).

(** The own enumerable entries of an object-typed value, in order: the
    fields of an object, the index/element pairs of an array. *)
Definition entries (v : jvalue) : list (string * jvalue) :=
  match v with
  | JObj fs => fs
  | JArr items => imap (fun i x => (pretty i, x)) items
  | _ => []
  end.

(** [{ ...o, k: v }]: an existing key keeps its place and takes the new
    value, a new key is appended. *)
Fixpoint set_field (k : string) (v : jvalue) (fs : list (string * jvalue))
  : list (string * jvalue) :=
  match fs with
  | [] => [(k, v)]
  | (k', v') :: rest =>
      if bool_decide (k' = k) then (k, v) :: rest
      else (k', v') :: set_field k v rest
  end.

End JS.


(** ** The blob store and the handler's effects *)

(** The key-value store: [get] with [type: "json"] answers null for a key
    that holds nothing; [setJSON] keeps the JSON value. *)
Abbreviation store := (gmap string jvalue).

(** A computation over a state [S] that may throw; a throw keeps the
    writes made before it. *)
Definition Eff (S A : Type) : Type := S -> outcome A * S.

Definition ret {S A : Type} (a : A) : Eff S A := fun st => (Return a, st).

Definition bind {S A B : Type} (m : Eff S A) (k : A -> Eff S B) : Eff S B :=
  fun st =>
    match m st with
    | (Return a, st') => k a st'
    | (Throw msg, st') => (Throw msg, st')
    end.

Definition lift {S A : Type} (o : outcome A) : Eff S A := fun st => (o, st).

(** [try { m } catch (error) { h error.message }] *)
Definition try_catch {S A : Type} (m : Eff S A) (h : string -> Eff S A) : Eff S A :=
  fun st =>
    match m st with
    | (Return a, st') => (Return a, st')
    | (Throw msg, st') => h msg st'
    end.

#[global] Instance Eff_ret {S : Type} : MRet (Eff S) := @ret S.
#[global] Instance Eff_bind {S : Type} : MBind (Eff S) := fun A B k m => bind m k.

(** A handler step reads and writes the store. *)
Abbreviation M := (Eff store).

Definition store_get (key : string) : M jvalue :=
  fun st => (Return (default JNull (st !! key)), st).

Definition store_setJSON (key : string) (v : jvalue) : M unit :=
  fun st => (Return tt, <[key := v]> st).

Definition store_delete (key : string) : M unit :=
  fun st => (Return tt, delete key st).

(** The store offers [get], [set], [setJSON] and [delete], and no method
    [getJSON]: the call [store.getJSON(key)] throws a TypeError, whatever
    the key and the store. *)
Definition store_getJSON (key : string) : M jvalue :=
  lift (Throw "store.getJSON is not a function").

(** [Promise.all(ids.map(f))]: the callbacks run in order. *)
Fixpoint mapM {A B : Type} (f : A -> M B) (l : list A) : M (list B) :=
  match l with
  | [] => mret []
  | x :: rest => y ← f x; ys ← mapM f rest; mret (y :: ys)
  end.

(** ** Requests and responses *)

(** What a handler sees of a request: the method, the path of the URL, and
    the completion of [req.json()] (a throw when the body is not JSON). *)
Record request : Type := mkRequest {
  method : string;
  pathname : string;
  body : outcome jvalue;
}.

Record response : Type := mkResponse {
  status : Z;
  headers : list (string * string);
  payload : option jvalue;   (* the value given to JSON.stringify, if any *)
}.

(** What the platform supplies during one request: [Date.now()],
    [crypto.randomUUID()], [crypto.randomBytes(16).toString("hex")] and
    [Math.random().toString(36)]. *)
Record env : Type := mkEnv {
  now : Z;
  randomUUID : string;
  randomHex : string;
  random36 : string;
}.

(** ** The token-based function *)

Module Notes.

Definition STORE_NAME : string := "simple-notes".
Definition INDEX_KEY : string := "notes:index".
Definition NOTE_PREFIX : string := "note:".

Definition MAX_CONTENT_CHARS : Z := 2000.
Definition MAX_IMAGE_DATAURL_CHARS : Z := 350000.
Definition MAX_NOTES : nat := 500.
Definition LIST_LIMIT : nat := 50.

Definition json (data : jvalue) (status : Z) : response :=
  {| status := status;
     headers := [("Content-Type", "application/json"); ("Cache-Control", "no-store")];
     payload := Some data |}.

Definition error (msg : string) : jvalue := JObj [("error", JStr msg)].

Definition cleanNote (note : jvalue) : jvalue :=
  if negb (JS.truthy note) || negb (JS.typeof_object note) then JNull
  else (* const { editToken, ...publicNote } = note *)
    JObj (filter (fun kv => kv.1 ≠ "editToken") (JS.entries note)).

Definition readJson (req : request) : jvalue :=
  match body req with
  | Return v => v
  | Throw _ => JObj []
  end.

(** [imageDataUrl] is a string or null. *)
Definition image_json (img : option string) : jvalue :=
  match img with Some s => JStr s | None => JNull end.

Definition image_truthy (img : option string) : bool :=
  match img with Some s => negb (bool_decide (s = "")) | None => false end.

(** [String(body?.content ?? "").trim()] *)
Definition read_content (body : jvalue) : outcome string :=
  outcome_bind (JS.String_ (JS.nullish_or (JS.prop body "content") (JStr "")))
    (fun s => Return (JS.trim s)).

(** [body?.imageDataUrl ? String(body.imageDataUrl) : null] *)
Definition read_image (body : jvalue) : outcome (option string) :=
  match JS.prop body "imageDataUrl" with
  | Some v => if JS.truthy v
              then outcome_bind (JS.String_ v) (fun s => Return (Some s))
              else Return None
  | None => Return None
  end.

(** The three checks that POST and PUT both make on the normalised fields,
    in the order of the source; [None] when all pass. *)
Definition check_fields (content : string) (imageDataUrl : option string)
  : option response :=
  if bool_decide (content = "") && negb (image_truthy imageDataUrl) then
    Some (json (error "Empty note.") 400)
  else if JS.length content >? MAX_CONTENT_CHARS then
    Some (json (error ("Note is too long (max " +:+ pretty MAX_CONTENT_CHARS +:+ " chars).")) 400)
  else if image_truthy imageDataUrl
          && (JS.length (default "" imageDataUrl) >? MAX_IMAGE_DATAURL_CHARS) then
    Some (json (error "Image is too large. Please upload a smaller image.") 400)
  else None.

(** [x || []], then [Array.isArray(x) ? x : []]: the ids an index record
    stands for. *)
Definition as_index (record : jvalue) : list jvalue :=
  let existingIndex := JS.or_else record (JArr []) in
  if JS.isArray existingIndex then JS.elements existingIndex else [].

Definition read_index : M (list jvalue) :=
  record ← store_get INDEX_KEY;
  mret (as_index record).

(** [x !== id] *)
Definition other_than (id : string) (x : jvalue) : bool :=
  JS.strict_ne_str (Some x) id.

(** [[id, ...indexArray.filter((x) => x !== id)].slice(0, MAX_NOTES)] *)
Definition new_index (id : string) (indexArray : list jvalue) : list jvalue :=
  take MAX_NOTES (JStr id :: filter (fun x => other_than id x) indexArray).

(** The note object that CREATE builds. *)
Definition new_note (id content : string) (imageDataUrl : option string)
    (now : Z) (token : string) : jvalue :=
  JObj [("id", JStr id);
        ("content", JStr content);
        ("imageDataUrl", image_json imageDataUrl);
        ("createdAt", JNum now);
        ("updatedAt", JNum now);
        ("editToken", JStr token)].

(** [String(body?.k ?? "")] *)
Definition read_string (body : jvalue) (k : string) : outcome string :=
  JS.String_ (JS.nullish_or (JS.prop body k) (JStr "")).

Definition note_key (id : string) : string := NOTE_PREFIX +:+ id.

(** The function [handler] dispatches on the method; its four branches
    (marked LIST, CREATE, UPDATE and DELETE in the source) are given one
    definition each. *)

(* LIST *)
Definition handler_list : M response :=
  record ← store_get INDEX_KEY;
  let index := JS.or_else record (JArr []) in
  let ids := if JS.isArray index then take LIST_LIMIT (JS.elements index) else [] in
  notes ← mapM (fun id => key ← lift (outcome_bind (JS.String_ id)
                                        (fun s => Return (note_key s)));
                          store_get key) ids;
  let cleaned := filter (fun v => JS.truthy v) (map cleanNote notes) in
  mret (json (JArr cleaned) 200).

(* CREATE *)
Definition handler_create (e : env) (req : request) : M response :=
  let body := readJson req in
  content ← lift (read_content body);
  imageDataUrl ← lift (read_image body);
  match check_fields content imageDataUrl with
  | Some failure => mret failure
  | None =>
      let now := now e in
      let id := randomUUID e in
      let token := randomHex e in
      let note := new_note id content imageDataUrl now token in
      store_setJSON (note_key id) note;;
      indexArray ← read_index;
      let newIndex := new_index id indexArray in
      store_setJSON INDEX_KEY (JArr newIndex);;
      mret (json (JObj [("ok", JBool true);
                        ("note", cleanNote note);
                        ("token", JStr token)]) 200)
  end.

(** [{ ...existing, content, imageDataUrl, updatedAt: now }]; where the
    handler builds it, [existing] is an object (its editToken is a string). *)
Definition updated_note (existing : jvalue) (content : string)
    (imageDataUrl : option string) (now : Z) : jvalue :=
  JObj (JS.set_field "updatedAt" (JNum now)
         (JS.set_field "imageDataUrl" (image_json imageDataUrl)
           (JS.set_field "content" (JStr content)
             (JS.entries existing)))).

(* UPDATE *)
Definition handler_update (e : env) (req : request) : M response :=
  let body := readJson req in
  id ← lift (read_string body "id");
  token ← lift (read_string body "token");
  if bool_decide (id = "") || bool_decide (token = "") then
    mret (json (error "Missing id/token.") 400)
  else
    existing ← store_get (note_key id);
    if negb (JS.truthy existing) then
      mret (json (error "Note not found.") 404)
    else if JS.strict_ne_str (JS.prop existing "editToken") token then
      mret (json (error "Forbidden.") 403)
    else
      content ← lift (read_content body);
      imageDataUrl ← lift (read_image body);
      match check_fields content imageDataUrl with
      | Some failure => mret failure
      | None =>
          let updated := updated_note existing content imageDataUrl (now e) in
          store_setJSON (note_key id) updated;;
          mret (json (JObj [("ok", JBool true); ("note", cleanNote updated)]) 200)
      end.

(* DELETE *)
Definition handler_delete (req : request) : M response :=
  let body := readJson req in
  id ← lift (read_string body "id");
  token ← lift (read_string body "token");
  if bool_decide (id = "") || bool_decide (token = "") then
    mret (json (error "Missing id/token.") 400)
  else
    existing ← store_get (note_key id);
    if negb (JS.truthy existing) then
      mret (json (JObj [("ok", JBool true)]) 200)
    else if JS.strict_ne_str (JS.prop existing "editToken") token then
      mret (json (error "Forbidden.") 403)
    else
      store_delete (note_key id);;
      indexArray ← read_index;
      let newIndex := filter (fun x => other_than id x) indexArray in
      store_setJSON INDEX_KEY (JArr newIndex);;
      mret (json (JObj [("ok", JBool true)]) 200).

(** [new Response("", { status: 204 })]: the constructor refuses a body,
    the empty string too, together with a null-body status, and throws a
    TypeError; OPTIONS gets no response from the handler. *)
Definition handler (e : env) (req : request) : M response :=
  if bool_decide (method req = "OPTIONS") then
    lift (Throw "Response constructor: Invalid response status code 204")
  else if bool_decide (method req = "GET") then handler_list
  else if bool_decide (method req = "POST") then handler_create e req
  else if bool_decide (method req = "PUT") then handler_update e req
  else if bool_decide (method req = "DELETE") then handler_delete req
  else mret (json (error "Method not allowed.") 405).

End Notes.


(** ** The id-in-path variant of the function *)

Module PathNotes.

Section WithPlatform.

(** [decodeURIComponent], supplied by the platform: it throws a URIError on
    a malformed escape sequence. *)
Variable decodeURIComponent : string -> outcome string.

Definition NOTES_KEY : string := "notes".
Definition MAX_IMAGE_DATA_URL_LENGTH : Z := 2000000.

Definition json (data : jvalue) (status : Z) : response :=
  {| status := status;
     headers := [("Content-Type", "application/json"); ("Cache-Control", "no-store")];
     payload := Some data |}.

Definition loadNotes : M (list jvalue) :=
  notes ← store_getJSON NOTES_KEY;
  mret (if JS.isArray notes then JS.elements notes else []).

Definition saveNotes (notes : list jvalue) : M unit :=
  store_setJSON NOTES_KEY (JArr notes).

(** [url] is given by its parsed path, [new URL(url).pathname]. *)
Definition getNoteIdFromPath (pathname : string) : outcome (option string) :=
  let marker := "/.netlify/functions/notes/" in
  if negb (String.prefix marker pathname) then Return None
  else
    let raw := String.substring (String.length marker)
                 (String.length pathname - String.length marker) pathname in
    if bool_decide (raw = "") then Return None
    else outcome_bind (decodeURIComponent raw) (fun s => Return (Some s)).

(** [typeof payload?.k === 'string'] selects string fields only. *)
Definition string_field (payload : jvalue) (k : string) : option string :=
  match JS.prop payload k with
  | Some (JStr s) => Some s
  | _ => None
  end.

Definition normalizePayload (payload : jvalue) : outcome (string * option string) :=
  let content := match string_field payload "content" with
                 | Some s => JS.trim s
                 | None => ""
                 end in
  let imageDataUrl := string_field payload "imageDataUrl" in
  if bool_decide (content = "") && negb (Notes.image_truthy imageDataUrl) then
    Throw "Content or image is required."
  else if Notes.image_truthy imageDataUrl
          && (JS.length (default "" imageDataUrl) >? MAX_IMAGE_DATA_URL_LENGTH) then
    Throw "Image is too large. Please choose a smaller image."
  else Return (content, imageDataUrl).

(** [note.id === noteId] on an element of the stored array; reading a
    property of null throws a TypeError. *)
Definition id_is (noteId : string) (note : jvalue) : outcome bool :=
  match note with
  | JNull => Throw "Cannot read properties of null (reading 'id')"
  | _ => Return (negb (JS.strict_ne_str (JS.prop note "id") noteId))
  end.

(** [notes.findIndex(note => note.id === noteId)]; [None] is -1. *)
Fixpoint findIndex (noteId : string) (notes : list jvalue) : outcome (option nat) :=
  match notes with
  | [] => Return None
  | note :: rest =>
      outcome_bind (id_is noteId note) (fun hit =>
        if hit then Return (Some O)
        else outcome_bind (findIndex noteId rest) (fun r => Return (S <$> r)))
  end.

(** [notes.filter(note => note.id !== noteId)] *)
Fixpoint filter_out (noteId : string) (notes : list jvalue) : outcome (list jvalue) :=
  match notes with
  | [] => Return []
  | note :: rest =>
      outcome_bind (id_is noteId note) (fun hit =>
        outcome_bind (filter_out noteId rest) (fun r =>
          Return (if hit then r else note :: r)))
  end.

(** [!noteId] *)
Definition no_id (noteId : option string) : bool :=
  match noteId with Some s => bool_decide (s = "") | None => true end.

Definition handler (e : env) (request : request) : M response :=
  try_catch
    (if bool_decide (method request = "GET") then
       notes ← loadNotes;
       mret (json (JObj [("notes", JArr notes)]) 200)

     else if bool_decide (method request = "POST") then
       payload ← lift (outcome_bind (body request) normalizePayload);
       let now := now e in
       let newNote :=
         JObj [("id", JStr ("note_" +:+ pretty now +:+ "_"
                             +:+ String.substring 2 9 (random36 e)));
               ("content", JStr payload.1);
               ("imageDataUrl", Notes.image_json payload.2);
               ("createdAt", JNum now);
               ("updatedAt", JNum now)] in
       notes ← loadNotes;
       saveNotes (newNote :: notes);;
       mret (json (JObj [("note", newNote)]) 201)

     else if bool_decide (method request = "PUT") then
       noteId ← lift (getNoteIdFromPath (pathname request));
       if no_id noteId then mret (json (Notes.error "Note ID is required.") 400)
       else
         let noteId := default "" noteId in
         payload ← lift (outcome_bind (body request) normalizePayload);
         notes ← loadNotes;
         index ← lift (findIndex noteId notes);
         match index with
         | None => mret (json (Notes.error "Note not found.") 404)
         | Some index =>
             let updatedNote :=
               JObj (JS.set_field "updatedAt" (JNum (now e))
                      (JS.set_field "imageDataUrl" (Notes.image_json payload.2)
                        (JS.set_field "content" (JStr payload.1)
                          (JS.entries (default JNull (notes !! index)))))) in
             saveNotes (<[index := updatedNote]> notes);;
             mret (json (JObj [("note", updatedNote)]) 200)
         end

     else if bool_decide (method request = "DELETE") then
       noteId ← lift (getNoteIdFromPath (pathname request));
       if no_id noteId then mret (json (Notes.error "Note ID is required.") 400)
       else
         let noteId := default "" noteId in
         notes ← loadNotes;
         filtered ← lift (filter_out noteId notes);
         if bool_decide (List.length filtered = List.length notes) then
           mret (json (Notes.error "Note not found.") 404)
         else
           saveNotes filtered;;
           mret {| status := 204; headers := []; payload := None |}

     else mret (json (Notes.error "Method not allowed.") 405))
    (fun message =>
       mret (json (Notes.error (if bool_decide (message = "")
                                then "Internal server error." else message)) 500)).

End WithPlatform.

End PathNotes.

(** ** The client: [apiRequest], [getAllNotes] and the localStorage cache *)

Module Client.

Definition API_URL : string := "/.netlify/functions/notes".
Definition CACHE_KEY : string := "simple-notes-app-cache-notes".
Definition TOKENS_KEY : string := "simple-notes-app-edit-tokens".

(** A text as [JSON.parse] sees it: empty, the serialisation of a JSON value
    ([JSON.parse (JSON.stringify v)] is [v]), or anything else, on which
    [JSON.parse] throws. *)
Inductive text : Type :=
| Empty
| JsonText (v : jvalue)
| Malformed.

Definition JSON_parse (t : text) : outcome jvalue :=
  match t with
  | JsonText v => Return v
  | Empty | Malformed => Throw "Unexpected token"
  end.

Definition JSON_stringify (v : jvalue) : text := JsonText v.

(** The browser's localStorage: the stored items, and whether the quota is
    exhausted (then [setItem] throws). *)
Record localStorage : Type := mkStorage {
  items : gmap string text;
  quota_exceeded : bool;
}.

Definition getItem (key : string) : Eff localStorage (option text) :=
  fun ls => (Return (items ls !! key), ls).

Definition setItem (key : string) (value : text) : Eff localStorage unit :=
  fun ls =>
    if quota_exceeded ls then (Throw "QuotaExceededError", ls)
    else (Return tt, {| items := <[key := value]> (items ls);
                        quota_exceeded := quota_exceeded ls |}).

Definition loadJson (key : string) (fallback : jvalue) : Eff localStorage jvalue :=
  try_catch
    (raw ← getItem key;
     match raw with
     | None | Some Empty => mret fallback       (* if (!raw) return fallback *)
     | Some t => lift (JSON_parse t)
     end)
    (fun _ => mret fallback).

Definition saveJson (key : string) (value : jvalue) : Eff localStorage unit :=
  try_catch (setItem key (JSON_stringify value)) (fun _ => mret tt).

(** How [fetch] and [res.text()] complete: the promise rejects (network
    error, or the abort fired by the timeout), or a response arrives with
    its status and body text. *)
Inductive fetch_result : Type :=
| Rejected (msg : string)
| Responded (status : Z) (body_text : outcome text).

(** [res.ok] *)
Definition ok (status : Z) : bool := (200 <=? status) && (status <=? 299).

Definition apiRequest (method : string) (body : option jvalue) (net : fetch_result)
  : outcome jvalue :=
  match net with
  | Rejected msg => Throw msg
  | Responded status body_text =>
      outcome_bind body_text (fun text =>
      outcome_bind (match text with
                    | Empty => Return JNull          (* text ? ... : null *)
                    | _ => JSON_parse text
                    end) (fun data =>
      if negb (ok status) then
        outcome_bind
          (if JS.truthy data && JS.truthy_opt (JS.prop data "error")
           then JS.String_ (default JNull (JS.prop data "error"))
           else Return ("Request failed (" +:+ pretty status +:+ ")"))
          (fun msg => Throw msg)
      else Return data))
  end.

Definition getAllNotes (net : fetch_result) : Eff localStorage jvalue :=
  try_catch
    (notes ← lift (apiRequest "GET" None net);
     if JS.isArray notes then
       saveJson CACHE_KEY notes;;
       mret notes
     else mret (JArr []))
    (fun error =>
       cached ← loadJson CACHE_KEY (JArr []);
       mret (if JS.isArray cached then cached else JArr [])).

End Client.


(** ** Vocabulary of the statements *)

(** The note objects a response carries: the elements of a list response,
    the [note] field of a create or update response. *)
Definition note_views (r : response) : list jvalue :=
  match payload r with
  | Some (JArr notes) => notes
  | Some (JObj fs) => match JS.lookup_field "note" fs with
                      | Some n => [n]
                      | None => []
                      end
  | _ => []
  end.

(** An object without an [editToken] field. *)
Definition public_note (n : jvalue) : Prop :=
  match n with
  | JObj fs => "editToken" ∉ fs.*1
  | _ => False
  end.

(** The record kept for a note id, as [store.get] reports it. *)
Definition note_record (st : store) (id : string) : jvalue :=
  default JNull (st !! Notes.note_key id).

(** [updatedAt > createdAt] on a note record. *)
Definition updated_after_created (note : jvalue) : Prop :=
  exists c u, JS.prop note "createdAt" = Some (JNum c)
              /\ JS.prop note "updatedAt" = Some (JNum u)
              /\ c < u.

(** The request of the client fails: [fetch] rejects (a network error, or
    the abort at the timeout), or the status is not 2xx, or the body cannot
    be read as JSON. *)
Definition request_fails (net : Client.fetch_result) : Prop :=
  match net with
  | Client.Rejected _ => True
  | Client.Responded status body_text =>
      Client.ok status = false
      \/ (exists msg, body_text = Throw msg)
      \/ body_text = Return Client.Malformed
  end.

(** The list the client has cached, the empty list when it has none. *)
Definition cached_list (ls : Client.localStorage) : jvalue :=
  match Client.items ls !! Client.CACHE_KEY with
  | Some (Client.JsonText (JArr notes)) => JArr notes
  | _ => JArr []
  end.

(** The recency index as the handlers read it. *)
Definition index_of (st : store) : list jvalue :=
  Notes.as_index (default JNull (st !! Notes.INDEX_KEY)).

(** The store after a sequence of requests, oldest first, served one at a
    time: each request completes, with all its reads and writes, before the
    next begins. *)
Fixpoint run (history : list (env * request)) (st : store) : store :=
  match history with
  | [] => st
  | (e, req) :: rest => run rest (Notes.handler e req st).2
  end.

(** ** Sample requests *)

Module Sample.

Definition URL : string := "/.netlify/functions/notes".

(** The platform at the time of a first request, and of a later one. *)
Definition env1 : env := mkEnv 1000 "u-1" "tok1" "0.abcdefghijkl".
Definition env2 : env := mkEnv 2000 "u-2" "tok2" "0.zyxwvutsrqpo".

Definition get : request := mkRequest "GET" URL (Throw "Unexpected end of JSON input").

(** [POST { content: "  hi " }] *)
Definition post_hi : request :=
  mkRequest "POST" URL (Return (JObj [("content", JStr "  hi ")])).

(** The store after the first create on an empty store. *)
Definition store1 : store := (Notes.handler env1 post_hi ∅).2.

(** The answer to that create. *)
Definition created1 : response :=
  Notes.json (JObj [("ok", JBool true);
                    ("note", JObj [("id", JStr "u-1"); ("content", JStr "hi");
                                   ("imageDataUrl", JNull); ("createdAt", JNum 1000);
                                   ("updatedAt", JNum 1000)]);
                    ("token", JStr "tok1")]) 200.

(** [PUT { id, token, content }] and [DELETE { id, token }] *)
Definition put (id token content : string) : request :=
  mkRequest "PUT" URL
    (Return (JObj [("id", JStr id); ("token", JStr token); ("content", JStr content)])).

Definition delete (id token : string) : request :=
  mkRequest "DELETE" URL (Return (JObj [("id", JStr id); ("token", JStr token)])).

(** [DELETE /.netlify/functions/notes/n1] for the id-in-path variant. *)
Definition delete_path_n1 : request :=
  mkRequest "DELETE" "/.netlify/functions/notes/n1" (Return (JObj [("token", JStr "t")])).

(** [decodeURIComponent] on a string without escape sequences returns the
    string; the samples give it such strings only. *)
Definition decode_plain (s : string) : outcome string := Return s.

(** A store whose index record is not an array, beside one note. *)
Definition store_bad_index : store :=
  <[Notes.INDEX_KEY := JObj [("oops", JNum 1)]]> store1.

(** The client: an empty storage, a response that carries one note, and a
    fetch that is aborted at the timeout. *)
Definition storage0 : Client.localStorage := Client.mkStorage ∅ false.

Definition listed1 : list jvalue :=
  [JObj [("id", JStr "u-1"); ("content", JStr "hi"); ("imageDataUrl", JNull);
         ("createdAt", JNum 1000); ("updatedAt", JNum 1000)]].

Definition fetch_ok : Client.fetch_result :=
  Client.Responded 200 (Return (Client.JsonText (JArr listed1))).

Definition fetch_aborted : Client.fetch_result :=
  Client.Rejected "The operation was aborted.".

(** [POST { content: { toString: 1 } }]: a content without a string form. *)
Definition post_unprintable : request :=
  mkRequest "POST" URL (Return (JObj [("content", JObj [("toString", JNum 1)])])).

(** A request whose body is not JSON. *)
Definition post_garbage : request :=
  mkRequest "POST" URL (Throw "Unexpected token h in JSON at position 0").

End Sample.

(** ** Vocabulary of the further properties *)

(** A stored note, as CREATE builds it and UPDATE rewrites it. *)
Definition note_shape (id content : string) (imageDataUrl : option string)
    (createdAt updatedAt : Z) (editToken : string) : jvalue :=
  JObj [("id", JStr id);
        ("content", JStr content);
        ("imageDataUrl", Notes.image_json imageDataUrl);
        ("createdAt", JNum createdAt);
        ("updatedAt", JNum updatedAt);
        ("editToken", JStr editToken)].

(** The view of it that responses carry. *)
Definition public_shape (id content : string) (imageDataUrl : option string)
    (createdAt updatedAt : Z) : jvalue :=
  JObj [("id", JStr id);
        ("content", JStr content);
        ("imageDataUrl", Notes.image_json imageDataUrl);
        ("createdAt", JNum createdAt);
        ("updatedAt", JNum updatedAt)].

(** Fields that pass the three checks. *)
Definition acceptable (content : string) (imageDataUrl : option string) : Prop :=
  (content ≠ "" \/ Notes.image_truthy imageDataUrl = true)
  /\ JS.length content <= 2000
  /\ (forall s, imageDataUrl = Some s -> JS.length s <= 350000).

Definition is_str (v : jvalue) : bool :=
  match v with JStr _ => true | _ => false end.

Definition id_of (v : jvalue) : string :=
  match v with JStr s => s | _ => "" end.

(** What LIST answers on an index of strings: the sanitised records of the
    first 50 ids, the missing ones left out. *)
Definition listing (st : store) : list jvalue :=
  filter (fun v => JS.truthy v)
    (map (fun x => Notes.cleanNote (note_record st (id_of x)))
       (take Notes.LIST_LIMIT (index_of st))).

(** The state that the function keeps its store in: the index record is an
    array, every other record is a note under its own id with acceptable
    fields; every index entry is the id of a stored note; the index has no
    duplicate and at most 500 entries. *)
Definition kept (st : store) : Prop :=
  (forall key v, st !! key = Some v ->
     (key = Notes.INDEX_KEY /\ exists ids, v = JArr ids)
     \/ (exists id content img created updated token,
           key = Notes.note_key id
           /\ v = note_shape id content img created updated token
           /\ acceptable content img))
  /\ (forall x, x ∈ index_of st ->
        exists id, x = JStr id /\ is_Some (st !! Notes.note_key id))
  /\ NoDup (index_of st)
  /\ (List.length (index_of st) <= 500)%nat.

(** No note of the store is dated after [T], nor updated before it was
    created. *)
Definition timely (T : Z) (st : store) : Prop :=
  forall id content img created updated token,
    st !! Notes.note_key id = Some (note_shape id content img created updated token) ->
    created <= updated /\ updated <= T.

(** The clock of a history does not go back: each request reads a time
    that is at least [T] and at least the time of the request before. *)
Fixpoint clock_from (T : Z) (history : list (env * request)) : Prop :=
  match history with
  | [] => True
  | (e, _) :: rest => T <= now e /\ clock_from (now e) rest
  end.

Module Sample2.

(** A content of exactly 2000 characters, and one more. *)
Definition content2000 : string := String.concat "" (replicate 2000 "a").
Definition content2001 : string := String.concat "" (replicate 2001 "a").

Definition post (content : string) : request :=
  mkRequest "POST" Sample.URL (Return (JObj [("content", JStr content)])).

(** The store after two creates. *)
Definition store2 : store := (Notes.handler Sample.env2 Sample.post_hi Sample.store1).2.

End Sample2.

(** The answer of the variant to a throw: [error.message], or a default
    when it is empty. *)
Definition failure_500 (msg : string) : response :=
  PathNotes.json (Notes.error (if bool_decide (msg = "")
                               then "Internal server error." else msg)) 500.

(** The answer of the variant where it reads its store. *)
Definition store_unreadable : response :=
  failure_500 "store.getJSON is not a function".

(** The marker that precedes the id in the path. *)
Definition path_marker : string := "/.netlify/functions/notes/".

(** The content and the image that the variant reads from a payload. *)
Definition path_content (payload : jvalue) : string :=
  match PathNotes.string_field payload "content" with
  | Some s => JS.trim s
  | None => ""
  end.

Definition path_image (payload : jvalue) : option string :=
  PathNotes.string_field payload "imageDataUrl".

(** Fields that the variant accepts: some content or image, an image of at
    most 2000000 characters; the content has no bound. *)
Definition path_acceptable (content : string) (img : option string) : Prop :=
  (content ≠ "" \/ Notes.image_truthy img = true)
  /\ (forall s, img = Some s -> JS.length s <= 2000000).

(** ** The client of the release: the shared API, with a local mode *)

Module Release.
Import Client.

Definition STORAGE_KEY : string := "simple-notes-app-notes".
Definition API_BASE : string := "/api/notes".

Definition getLocalNotes : Eff localStorage (list jvalue) :=
  try_catch
    (notesJson ← getItem STORAGE_KEY;
     notes ← match notesJson with
             | None | Some Empty => mret (JArr [])     (* notesJson ? ... : [] *)
             | Some t => lift (JSON_parse t)
             end;
     mret (if JS.isArray notes then JS.elements notes else []))
    (fun _ => mret []).

Definition saveLocalNotes (notes : list jvalue) : Eff localStorage unit :=
  try_catch (setItem STORAGE_KEY (JSON_stringify (JArr notes))) (fun _ => mret tt).

Section WithPlatform.

(** The characters of a body text that is not empty, and
    [encodeURIComponent], which throws a URIError on a lone surrogate. *)
Variable raw : text -> string.
Variable encodeURIComponent : string -> outcome string.

(** [requestJson(path, options)]: [fetch] completes as [net] says. *)
Definition requestJson (path method : string) (body : option jvalue) (net : fetch_result)
  : outcome jvalue :=
  match net with
  | Rejected msg => Throw msg
  | Responded status body_text =>
      if negb (ok status) then
        outcome_bind body_text (fun text =>
          Throw (match text with
                 | Empty => "Request failed with status " +:+ pretty status
                 | _ => raw text
                 end))
      else if status =? 204 then Return JNull
      else outcome_bind body_text JSON_parse            (* response.json() *)
  end.

(** [result && result.note], as the writes test it: the note to return, if
    any. *)
Definition note_in (result : jvalue) : option jvalue :=
  if JS.truthy result && JS.truthy_opt (JS.prop result "note")
  then JS.prop result "note" else None.

Definition getAllNotes (net : fetch_result) : Eff localStorage (list jvalue) :=
  shared ← try_catch (S := localStorage) (A := option (list jvalue))
             (payload ← lift (requestJson "" "GET" None net);
              let notes := default JNull (JS.prop payload "notes") in
              mret (if JS.truthy payload && JS.isArray notes
                    then Some (JS.elements notes) else None))
             (fun _ => mret None);
  match shared with
  | Some notes => mret notes
  | None => getLocalNotes
  end.

(** [imageDataUrl || null] *)
Definition image_or_null (imageDataUrl : option string) : jvalue :=
  match imageDataUrl with
  | Some s => if bool_decide (s = "") then JNull else JStr s
  | None => JNull
  end.

Definition createNote (e : env) (content : string) (imageDataUrl : option string)
    (net : fetch_result) : Eff localStorage jvalue :=
  let payload := JObj [("content", JStr (JS.trim content));
                       ("imageDataUrl", image_or_null imageDataUrl)] in
  shared ← try_catch (S := localStorage) (A := option jvalue)
             (result ← lift (requestJson "" "POST" (Some payload) net);
              mret (note_in result))
             (fun _ => mret None);
  match shared with
  | Some note => mret note
  | None =>
      let now := now e in
      let localNote :=
        JObj [("id", JStr ("note_" +:+ pretty now +:+ "_"
                            +:+ String.substring 2 9 (random36 e)));
              ("content", JStr (JS.trim content));
              ("imageDataUrl", image_or_null imageDataUrl);
              ("createdAt", JNum now);
              ("updatedAt", JNum now)] in
      notes ← getLocalNotes;
      saveLocalNotes (localNote :: notes);;            (* notes.unshift(localNote) *)
      mret localNote
  end.

(** [findIndex] and [filter] test [note.id] against the id as the function
    of the id-in-path variant does: [PathNotes.findIndex] and
    [PathNotes.filter_out] are those loops. *)
Definition updateNote (e : env) (id content : string) (imageDataUrl : option string)
    (net : fetch_result) : Eff localStorage jvalue :=
  let payload := JObj [("content", JStr (JS.trim content));
                       ("imageDataUrl", image_or_null imageDataUrl)] in
  shared ← try_catch (S := localStorage) (A := option jvalue)
             (encoded ← lift (encodeURIComponent id);
              result ← lift (requestJson ("/" +:+ encoded) "PUT" (Some payload) net);
              mret (note_in result))
             (fun _ => mret None);
  match shared with
  | Some note => mret note
  | None =>
      notes ← getLocalNotes;
      index ← lift (PathNotes.findIndex id notes);
      match index with
      | None => mret JNull
      | Some index =>
          let updated :=
            JObj (JS.set_field "updatedAt" (JNum (now e))
                   (JS.set_field "imageDataUrl" (image_or_null imageDataUrl)
                     (JS.set_field "content" (JStr (JS.trim content))
                       (JS.entries (default JNull (notes !! index)))))) in
          saveLocalNotes (<[index := updated]> notes);;
          mret updated
      end
  end.

Definition deleteNote (id : string) (net : fetch_result) : Eff localStorage bool :=
  shared ← try_catch (S := localStorage) (A := bool)
             (encoded ← lift (encodeURIComponent id);
              lift (requestJson ("/" +:+ encoded) "DELETE" None net);;
              mret true)
             (fun _ => mret false);
  if (shared : bool) then mret true
  else
    notes ← getLocalNotes;
    filtered ← lift (PathNotes.filter_out id notes);
    if bool_decide (List.length filtered = List.length notes) then mret false
    else
      saveLocalNotes filtered;;
      mret true.

End WithPlatform.

End Release.

(** ** The client: the token map and the three writes *)

Module ClientOps.
Import Client.

(** What a property read [o[k]] finds. *)
Inductive member : Type :=
| Own (v : jvalue)   (* an own property: a JSON value *)
| Inherited          (* a function of the prototype: truthy, no JSON form *)
| Prototype          (* [Object.prototype] itself, read under "__proto__" *)
| Undefined.

(** [Boolean(o[k])] *)
Definition member_truthy (m : member) : bool :=
  match m with
  | Own v => JS.truthy v
  | Inherited | Prototype => true
  | Undefined => false
  end.

(** The names that [Object.prototype] defines. *)
Definition object_prototype_names : list string :=
  ["constructor"; "__defineGetter__"; "__defineSetter__"; "hasOwnProperty";
   "__lookupGetter__"; "__lookupSetter__"; "isPrototypeOf"; "propertyIsEnumerable";
   "toString"; "valueOf"; "__proto__"; "toLocaleString"].

(** [o[k]] on a parsed object: the own property, else what the prototype
    has under that name. *)
Definition object_get (fs : list (string * jvalue)) (k : string) : member :=
  match JS.lookup_field k fs with
  | Some v => Own v
  | None =>
      if bool_decide (k = "__proto__") then Prototype
      else if bool_decide (k ∈ object_prototype_names) then Inherited
      else Undefined
  end.

(** The array index that a key spells: the canonical decimal form of a
    number up to 2^32 - 2.  Such keys are enumerated first, in ascending
    order; the other keys follow in the order of their creation. *)
Definition digit (a : Ascii.ascii) : option N :=
  let n := Ascii.N_of_ascii a in
  if ((48 <=? n) && (n <=? 57))%N then Some (n - 48)%N else None.

Fixpoint digits (s : string) (acc : N) : option N :=
  match s with
  | EmptyString => Some acc
  | String a rest =>
      match digit a with
      | Some d => digits rest (10 * acc + d)%N
      | None => None
      end
  end.

Definition array_index (k : string) : option N :=
  match k with
  | EmptyString => None
  | _ => match digits k 0%N with
         | Some n => if bool_decide (pretty n = k) && (n <=? 4294967294)%N
                     then Some n else None
         | None => None
         end
  end.

Fixpoint insert_index (n : N) (k : string) (v : jvalue) (fs : list (string * jvalue))
  : list (string * jvalue) :=
  match fs with
  | [] => [(k, v)]
  | (k', v') :: rest =>
      match array_index k' with
      | Some m => if (m <? n)%N then (k', v') :: insert_index n k v rest
                  else (k, v) :: fs
      | None => (k, v) :: fs
      end
  end.

(** [o[k] = v] on a parsed object, as its own properties are then
    enumerated: an own property takes the value; "__proto__" without an own
    property goes to the setter of the prototype and creates none; a new key
    takes its place in the enumeration. *)
Definition object_set (fs : list (string * jvalue)) (k : string) (v : jvalue)
  : list (string * jvalue) :=
  match JS.lookup_field k fs with
  | Some _ => JS.set_field k v fs
  | None =>
      if bool_decide (k = "__proto__") then fs
      else match array_index k with
           | Some n => insert_index n k v fs
           | None => fs ++ [(k, v)]
           end
  end.

(** [delete o[k]] *)
Definition object_delete (fs : list (string * jvalue)) (k : string)
  : list (string * jvalue) :=
  filter (fun kv => kv.1 ≠ k) fs.

(** Reads and writes under a computed key on an array, which the platform
    defines ([length], the elements, the methods of [Array.prototype], the
    growth of the array): what [a[k]] finds, and what [JSON.stringify(a)]
    gives after [a[k] = v] and after [delete a[k]].  Both may throw in the
    strict mode of a module: a RangeError for an invalid [length], a
    TypeError for the [delete] of [length]. *)
Record array_semantics : Type := {
  array_get : list jvalue -> string -> member;
  array_set : list jvalue -> string -> jvalue -> outcome jvalue;
  array_delete : list jvalue -> string -> outcome jvalue;
}.

(** The browser: its localStorage, and the requests sent so far. *)
Record browser : Type := mkBrowser {
  storage : localStorage;
  sent : list (string * option jvalue);
}.

Definition on_storage {A : Type} (m : Eff localStorage A) : Eff browser A :=
  fun b =>
    let (o, ls) := m (storage b) in
    (o, {| storage := ls; sent := sent b |}).

(** [apiRequest(method, body)]: the request goes out, and completes as
    [net] says. *)
Definition apiRequest (method : string) (body : option jvalue) (net : fetch_result)
  : Eff browser jvalue :=
  fun b =>
    (Client.apiRequest method body net,
     {| storage := storage b; sent := sent b ++ [(method, body)] |}).

(** The property key that a value gives: undefined spells "undefined". *)
Definition key_of (x : option jvalue) : outcome string :=
  match x with
  | None => Return "undefined"
  | Some v => JS.String_ v
  end.

Section WithArrays.

Variable arrays : array_semantics.

Definition get_member (tokens : jvalue) (k : string) : member :=
  match tokens with
  | JObj fs => object_get fs k
  | JArr items => array_get arrays items k
  | _ => Undefined
  end.

Definition set_member (tokens : jvalue) (k : string) (v : jvalue) : outcome jvalue :=
  match tokens with
  | JObj fs => Return (JObj (object_set fs k v))
  | JArr items => array_set arrays items k v
  | _ => Return tokens
  end.

Definition delete_member (tokens : jvalue) (k : string) : outcome jvalue :=
  match tokens with
  | JObj fs => Return (JObj (object_delete fs k))
  | JArr items => array_delete arrays items k
  | _ => Return tokens
  end.

Definition loadTokens : Eff localStorage jvalue :=
  t ← loadJson TOKENS_KEY (JObj []);
  mret (if JS.truthy t && JS.typeof_object t then t else JObj []).

Definition saveTokens (tokens : jvalue) : Eff localStorage unit :=
  saveJson TOKENS_KEY tokens.

Definition canEdit (noteId : option jvalue) : Eff localStorage bool :=
  tokens ← loadTokens;
  key ← lift (key_of noteId);
  mret (member_truthy (get_member tokens key)).

(** [tokens[noteId] || null] *)
Definition getToken (noteId : option jvalue) : Eff localStorage member :=
  tokens ← loadTokens;
  key ← lift (key_of noteId);
  let m := get_member tokens key in
  mret (if member_truthy m then m else Own JNull).

Definition setToken (noteId : option jvalue) (token : jvalue) : Eff localStorage unit :=
  tokens ← loadTokens;
  key ← lift (key_of noteId);
  tokens' ← lift (set_member tokens key token);
  saveTokens tokens'.

Definition deleteToken (noteId : option jvalue) : Eff localStorage unit :=
  tokens ← loadTokens;
  key ← lift (key_of noteId);
  tokens' ← lift (delete_member tokens key);
  saveTokens tokens'.

(** The fields of a request body as [JSON.stringify] writes them: an
    undefined id and a function are left out, the prototype object is
    written as the empty object. *)
Definition id_field (noteId : option jvalue) : list (string * jvalue) :=
  match noteId with Some v => [("id", v)] | None => [] end.

Definition token_field (token : member) : list (string * jvalue) :=
  match token with
  | Own v => [("token", v)]
  | Prototype => [("token", JObj [])]
  | Inherited | Undefined => []
  end.

(** [(content ?? '').toString()] and [imageDataUrl || null] *)
Definition content_field (content : option string) : jvalue :=
  JStr (default "" content).

Definition image_field (imageDataUrl : option string) : jvalue :=
  match imageDataUrl with
  | Some s => if bool_decide (s = "") then JNull else JStr s
  | None => JNull
  end.

(** [data && data.note ? data.note : null] *)
Definition note_of (data : jvalue) : jvalue :=
  if JS.truthy data && JS.truthy_opt (JS.prop data "note")
  then default JNull (JS.prop data "note") else JNull.

Definition createNote (content : option string) (imageDataUrl : option string)
    (net : fetch_result) : Eff browser jvalue :=
  let payload := JObj [("content", content_field content);
                       ("imageDataUrl", image_field imageDataUrl)] in
  data ← apiRequest "POST" (Some payload) net;
  if JS.truthy data && JS.truthy_opt (JS.prop data "note")
     && JS.truthy_opt (JS.prop data "token") then
    on_storage (setToken (JS.prop (default JNull (JS.prop data "note")) "id")
                  (default JNull (JS.prop data "token")));;
    mret (default JNull (JS.prop data "note"))
  else mret JNull.

Definition updateNote (id : option jvalue) (content : option string)
    (imageDataUrl : option string) (net : fetch_result) : Eff browser jvalue :=
  token ← on_storage (getToken id);
  if negb (member_truthy token) then mret JNull
  else
    let payload := JObj (id_field id ++ token_field token
                         ++ [("content", content_field content);
                             ("imageDataUrl", image_field imageDataUrl)]) in
    data ← apiRequest "PUT" (Some payload) net;
    mret (note_of data).

Definition deleteNote (id : option jvalue) (net : fetch_result) : Eff browser bool :=
  token ← on_storage (getToken id);
  if negb (member_truthy token) then mret false
  else
    data ← apiRequest "DELETE" (Some (JObj (id_field id ++ token_field token))) net;
    if JS.truthy data && JS.truthy_opt (JS.prop data "ok") then
      on_storage (deleteToken id);;
      mret true
    else mret false.

End WithArrays.

End ClientOps.

(** ** The client and the function together *)

(** What [fetch] completes with when the function has answered: the status,
    and the serialised payload as the body text (no text when the answer
    has no payload). *)
Definition deliver (r : response) : Client.fetch_result :=
  Client.Responded (status r)
    (Return (match payload r with
             | Some data => Client.JSON_stringify data
             | None => Client.Empty
             end)).

Module Sample4.

(** A storage that holds text which is not JSON under the cache key. *)
Definition storage_garbled : Client.localStorage :=
  Client.mkStorage {[ Client.CACHE_KEY := Client.Malformed ]} false.

(** A storage whose quota is exhausted. *)
Definition storage_full : Client.localStorage := Client.mkStorage ∅ true.

End Sample4.

(** The token map that a storage holds: the parsed object, and the empty
    map when the item is absent, unreadable or no object. *)
Definition tokens_of (ls : Client.localStorage) : list (string * jvalue) :=
  match Client.items ls !! Client.TOKENS_KEY with
  | Some (Client.JsonText (JObj fs)) => fs
  | _ => []
  end.

(** The item under the tokens key is not an array. *)
Definition tokens_not_array (ls : Client.localStorage) : Prop :=
  forall l, Client.items ls !! Client.TOKENS_KEY ≠ Some (Client.JsonText (JArr l)).

(** The image as the function reads it from a body of the client. *)
Definition sent_image (imageDataUrl : option string) : option string :=
  match imageDataUrl with
  | Some s => if bool_decide (s = "") then None else Some s
  | None => None
  end.

(** The content as the function reads it from a body of the client. *)
Definition sent_content (content : option string) : string :=
  JS.trim (default "" content).

(** The request that the function receives when the client sends a body. *)
Definition received (method : string) (body : jvalue) : request :=
  mkRequest method Client.API_URL (Return body).

Module Sample5.

(** A stand-in for the arrays of the platform: the sample storages hold no
    array, so it is never consulted. *)
Definition no_arrays : ClientOps.array_semantics :=
  {| ClientOps.array_get := fun _ _ => ClientOps.Undefined;
     ClientOps.array_set := fun l _ _ => Return (JArr l);
     ClientOps.array_delete := fun l _ => Return (JArr l) |}.

(** A browser that has sent nothing and stored nothing. *)
Definition browser0 : ClientOps.browser := ClientOps.mkBrowser Sample.storage0 [].

(** A storage that holds the token of note "u-1". *)
Definition storage1 : Client.localStorage :=
  Client.mkStorage
    {[ Client.TOKENS_KEY := Client.JsonText (JObj [("u-1", JStr "tok1")]) ]} false.

Definition browser1 : ClientOps.browser := ClientOps.mkBrowser storage1 [].

(** A storage that holds a token which is not the one of note "u-1". *)
Definition storage_stale : Client.localStorage :=
  Client.mkStorage
    {[ Client.TOKENS_KEY := Client.JsonText (JObj [("u-1", JStr "old")]) ]} false.

End Sample5.

(** The notes that the release keeps in the storage, as [getLocalNotes]
    reads them. *)
Definition local_notes (ls : Client.localStorage) : list jvalue :=
  match Client.items ls !! Release.STORAGE_KEY with
  | Some (Client.JsonText (JArr notes)) => notes
  | _ => []
  end.

(** The shared API is unavailable to the release: [fetch] rejects, or the
    status is not 2xx, or the status is 2xx other than 204 and the body
    cannot be read as JSON. *)
Definition unavailable (net : Client.fetch_result) : Prop :=
  match net with
  | Client.Rejected _ => True
  | Client.Responded status body_text =>
      Client.ok status = false
      \/ (status ≠ 204
          /\ ((exists msg, body_text = Throw msg)
              \/ body_text = Return Client.Empty
              \/ body_text = Return Client.Malformed))
  end.

(** The note that the release builds in local mode. *)
Definition local_note (e : env) (content : string) (imageDataUrl : option string)
  : jvalue :=
  JObj [("id", JStr ("note_" +:+ pretty (now e) +:+ "_"
                      +:+ String.substring 2 9 (random36 e)));
        ("content", JStr (JS.trim content));
        ("imageDataUrl", Release.image_or_null imageDataUrl);
        ("createdAt", JNum (now e));
        ("updatedAt", JNum (now e))].

Module Sample6.

(** Stand-ins for the platform: the samples never read the characters of a
    body, and give [encodeURIComponent] ids of unreserved characters only,
    which it returns as they are. *)
Definition raw_unread (t : Client.text) : string := "".
Definition encode_plain (s : string) : outcome string := Return s.

(** A storage that holds two local notes. *)
Definition note_a : jvalue :=
  JObj [("id", JStr "a"); ("content", JStr "first"); ("imageDataUrl", JNull);
        ("createdAt", JNum 10); ("updatedAt", JNum 10)].
Definition note_b : jvalue :=
  JObj [("id", JStr "b"); ("content", JStr "second"); ("imageDataUrl", JNull);
        ("createdAt", JNum 20); ("updatedAt", JNum 20)].

Definition storage_ab : Client.localStorage :=
  Client.mkStorage
    {[ Release.STORAGE_KEY := Client.JsonText (JArr [note_a; note_b]) ]} false.

End Sample6.

(** * Properties *)

(** Unfolding of the monad and of the store operations. *)
Tactic Notation "eff_simpl" :=
  cbv [mbind mret Eff_bind Eff_ret bind ret lift try_catch
       store_get store_setJSON store_delete store_getJSON].
Tactic Notation "eff_simpl" "in" hyp(H) :=
  cbv [mbind mret Eff_bind Eff_ret bind ret lift try_catch
       store_get store_setJSON store_delete store_getJSON] in H.

(** ** The model at work *)

Module Scenario.

Example String_of_array :
  JS.String_ (JArr [JNum 1; JNull; JArr [JStr "a"; JBool true]; JObj []; JNum (-12)])
  = Return "1,,a,true,[object Object],-12".
Proof. vm_compute. reflexivity. Qed.

Example String_of_object_with_toString :
  JS.String_ (JObj [("toString", JNum 1)])
  = Throw "Cannot convert object to primitive value".
Proof. reflexivity. Qed.

Example trim_spaces : JS.trim "   hi there  " = "hi there".
Proof. reflexivity. Qed.

Example cleanNote_of_array :
  Notes.cleanNote (JArr [JStr "a"; JNull]) = JObj [("0", JStr "a"); ("1", JNull)].
Proof. vm_compute. reflexivity. Qed.

(** [POST { content: "  hi " }] on the empty store. *)
Example create :
  Notes.handler Sample.env1 Sample.post_hi ∅ = (Return Sample.created1, Sample.store1)
  /\ map_to_list Sample.store1
     = [("notes:index", JArr [JStr "u-1"]);
        ("note:u-1", JObj [("id", JStr "u-1"); ("content", JStr "hi");
                           ("imageDataUrl", JNull); ("createdAt", JNum 1000);
                           ("updatedAt", JNum 1000); ("editToken", JStr "tok1")])].
Proof. split; vm_compute; reflexivity. Qed.

(** The list shows the note without its token. *)
Example list_after_create :
  Notes.handler Sample.env2 Sample.get Sample.store1
  = (Return (Notes.json (JArr Sample.listed1) 200), Sample.store1).
Proof. vm_compute. reflexivity. Qed.

(** Update with the token, then with a wrong one. *)
Example update_then_forbidden :
  let out := Notes.handler Sample.env2 (Sample.put "u-1" "tok1" "bye") Sample.store1 in
  out.1 = Return (Notes.json
                    (JObj [("ok", JBool true);
                           ("note", JObj [("id", JStr "u-1"); ("content", JStr "bye");
                                          ("imageDataUrl", JNull); ("createdAt", JNum 1000);
                                          ("updatedAt", JNum 2000)])]) 200)
  /\ (Notes.handler Sample.env2 (Sample.put "u-1" "wrong" "x") out.2).1
     = Return (Notes.json (Notes.error "Forbidden.") 403).
Proof. split; vm_compute; reflexivity. Qed.

(** Delete with the token; the list is empty afterwards. *)
Example delete_then_list :
  let out := Notes.handler Sample.env2 (Sample.delete "u-1" "tok1") Sample.store1 in
  out.1 = Return (Notes.json (JObj [("ok", JBool true)]) 200)
  /\ map_to_list out.2 = [("notes:index", JArr [])]
  /\ (Notes.handler Sample.env2 Sample.get out.2).1 = Return (Notes.json (JArr []) 200).
Proof. repeat split; vm_compute; reflexivity. Qed.

(** The id-in-path variant cannot read its store: the list is answered
    500. *)
Example path_variant_list :
  PathNotes.handler Sample.decode_plain Sample.env1 Sample.get ∅
  = (Return (PathNotes.json (Notes.error "store.getJSON is not a function") 500), ∅).
Proof. vm_compute. reflexivity. Qed.

(** OPTIONS gets no response from the token-based function. *)
Example options_throws :
  Notes.handler Sample.env1 (mkRequest "OPTIONS" Sample.URL (Throw "no body")) Sample.store1
  = (Throw "Response constructor: Invalid response status code 204", Sample.store1).
Proof. vm_compute. reflexivity. Qed.

Example Number_toString_examples :
  JS.Number_toString 1700000000000 = "1700000000000"
  /\ JS.Number_toString (10 ^ 21 - 1) = "999999999999999999999"
  /\ JS.Number_toString (10 ^ 21) = "1e+21"
  /\ JS.Number_toString (-15 * 10 ^ 20) = "-1.5e+21"
  /\ JS.Number_toString (1234 * 10 ^ 30) = "1.234e+33".
Proof. repeat split; vm_compute; reflexivity. Qed.

End Scenario.

Module NotesFacts.
Import Notes.

(** *** Keys of the store *)

Lemma note_key_ne_index (id : string) : note_key id ≠ INDEX_KEY.
Proof. unfold note_key, NOTE_PREFIX, INDEX_KEY. simpl. discriminate. Qed.

Lemma note_key_inj (a b : string) : note_key a = note_key b -> a = b.
Proof. unfold note_key, NOTE_PREFIX. simpl. intros H. injection H. auto. Qed.

(** *** Dispatch on the method *)

Lemma handler_GET e req : method req = "GET" -> handler e req = handler_list.
Proof. intros H. unfold handler. rewrite H. reflexivity. Qed.

Lemma handler_POST e req : method req = "POST" -> handler e req = handler_create e req.
Proof. intros H. unfold handler. rewrite H. reflexivity. Qed.

Lemma handler_PUT e req : method req = "PUT" -> handler e req = handler_update e req.
Proof. intros H. unfold handler. rewrite H. reflexivity. Qed.

Lemma handler_DELETE e req : method req = "DELETE" -> handler e req = handler_delete req.
Proof. intros H. unfold handler. rewrite H. reflexivity. Qed.

(** *** Monadic plumbing *)

Lemma read_index_eq (st : store) : read_index st = (Return (index_of st), st).
Proof. reflexivity. Qed.

Lemma mapM_state {A B : Type} (f : A -> M B) (l : list A) (st : store) :
  (forall x s, (f x s).2 = s) -> (mapM f l st).2 = st.
Proof.
  intros Hf. induction l as [|x l IH].
  - reflexivity.
  - cbn [mapM]. eff_simpl.
    pose proof (Hf x st) as Hx. destruct (f x st) as [[y|msg] s1]; simpl in Hx; subst s1;
      [|reflexivity].
    destruct (mapM f l st) as [[ys|msg] s2]; exact IH.
Qed.

(** *** The sanitised view *)

Lemma cleanNote_public (v : jvalue) :
  JS.truthy (cleanNote v) = true -> public_note (cleanNote v).
Proof.
  unfold cleanNote.
  destruct (negb (JS.truthy v) || negb (JS.typeof_object v)); [discriminate|].
  intros _. simpl. intros Hin.
  apply list_elem_of_fmap in Hin as [[k x] [Hk Hin]].
  apply list_elem_of_filter in Hin as [Hne _]. simpl in *. congruence.
Qed.

Lemma cleanNote_object (fs : list (string * jvalue)) :
  cleanNote (JObj fs) = JObj (filter (fun kv => kv.1 ≠ "editToken") fs).
Proof. reflexivity. Qed.

Lemma check_fields_status content img r :
  check_fields content img = Some r -> exists msg, r = json (error msg) 400.
Proof.
  unfold check_fields. intros H.
  repeat match type of H with
         | (if ?c then _ else _) = _ => destruct c
         end; inversion H; eauto.
Qed.

(** *** The branches, case by case *)

Lemma handler_list_state (st : store) : (handler_list st).2 = st.
Proof.
  unfold handler_list. eff_simpl.
  match goal with |- context [mapM ?f ?ids st] =>
    assert (Hst : (mapM f ids st).2 = st)
      by (apply mapM_state; intros x s; destruct (outcome_bind _ _); reflexivity);
    destruct (mapM f ids st) as [[notes|msg] st1] end; exact Hst.
Qed.

Lemma handler_list_views (st st' : store) (r : response) :
  handler_list st = (Return r, st') ->
  exists notes, r = json (JArr (filter (fun v => JS.truthy v) (map cleanNote notes))) 200.
Proof.
  unfold handler_list. eff_simpl.
  match goal with |- context [mapM ?f ?ids st] =>
    destruct (mapM f ids st) as [[notes|msg] st1] end; intros H; inversion H.
  eauto.
Qed.

Lemma handler_create_eq (e : env) (req : request) (st : store) :
  handler_create e req st =
  match read_content (readJson req) with
  | Throw msg => (Throw msg, st)
  | Return content =>
      match read_image (readJson req) with
      | Throw msg => (Throw msg, st)
      | Return imageDataUrl =>
          match check_fields content imageDataUrl with
          | Some failure => (Return failure, st)
          | None =>
              let note := new_note (randomUUID e) content imageDataUrl (now e) (randomHex e) in
              (Return (json (JObj [("ok", JBool true);
                                   ("note", cleanNote note);
                                   ("token", JStr (randomHex e))]) 200),
               <[INDEX_KEY := JArr (new_index (randomUUID e) (index_of st))]>
                 (<[note_key (randomUUID e) := note]> st))
          end
      end
  end.
Proof.
  unfold handler_create. eff_simpl.
  destruct (read_content (readJson req)) as [content|msg]; [|reflexivity].
  destruct (read_image (readJson req)) as [img|msg]; [|reflexivity].
  destruct (check_fields content img) as [failure|]; [reflexivity|].
  cbv zeta. unfold read_index. eff_simpl. unfold index_of.
  rewrite lookup_insert_ne by apply note_key_ne_index. reflexivity.
Qed.

Lemma handler_update_eq (e : env) (req : request) (st : store) :
  handler_update e req st =
  match read_string (readJson req) "id" with
  | Throw msg => (Throw msg, st)
  | Return id =>
      match read_string (readJson req) "token" with
      | Throw msg => (Throw msg, st)
      | Return token =>
          if bool_decide (id = "") || bool_decide (token = "") then
            (Return (json (error "Missing id/token.") 400), st)
          else if negb (JS.truthy (note_record st id)) then
            (Return (json (error "Note not found.") 404), st)
          else if JS.strict_ne_str (JS.prop (note_record st id) "editToken") token then
            (Return (json (error "Forbidden.") 403), st)
          else
            match read_content (readJson req) with
            | Throw msg => (Throw msg, st)
            | Return content =>
                match read_image (readJson req) with
                | Throw msg => (Throw msg, st)
                | Return imageDataUrl =>
                    match check_fields content imageDataUrl with
                    | Some failure => (Return failure, st)
                    | None =>
                        let updated :=
                          updated_note (note_record st id) content imageDataUrl (now e) in
                        (Return (json (JObj [("ok", JBool true);
                                             ("note", cleanNote updated)]) 200),
                         <[note_key id := updated]> st)
                    end
                end
            end
      end
  end.
Proof.
  unfold handler_update, note_record. eff_simpl.
  destruct (read_string (readJson req) "id") as [id|msg]; [|reflexivity].
  destruct (read_string (readJson req) "token") as [token|msg]; [|reflexivity].
  destruct (bool_decide (id = "") || bool_decide (token = "")); [reflexivity|].
  destruct (negb (JS.truthy (default JNull (st !! note_key id)))); [reflexivity|].
  destruct (JS.strict_ne_str _ token); [reflexivity|].
  destruct (read_content (readJson req)) as [content|msg]; [|reflexivity].
  destruct (read_image (readJson req)) as [img|msg]; [|reflexivity].
  destruct (check_fields content img) as [failure|]; reflexivity.
Qed.

Lemma handler_delete_eq (req : request) (st : store) :
  handler_delete req st =
  match read_string (readJson req) "id" with
  | Throw msg => (Throw msg, st)
  | Return id =>
      match read_string (readJson req) "token" with
      | Throw msg => (Throw msg, st)
      | Return token =>
          if bool_decide (id = "") || bool_decide (token = "") then
            (Return (json (error "Missing id/token.") 400), st)
          else if negb (JS.truthy (note_record st id)) then
            (Return (json (JObj [("ok", JBool true)]) 200), st)
          else if JS.strict_ne_str (JS.prop (note_record st id) "editToken") token then
            (Return (json (error "Forbidden.") 403), st)
          else
            (Return (json (JObj [("ok", JBool true)]) 200),
             <[INDEX_KEY := JArr (filter (fun x => other_than id x) (index_of st))]>
               (delete (note_key id) st))
      end
  end.
Proof.
  unfold handler_delete, note_record. eff_simpl.
  destruct (read_string (readJson req) "id") as [id|msg]; [|reflexivity].
  destruct (read_string (readJson req) "token") as [token|msg]; [|reflexivity].
  destruct (bool_decide (id = "") || bool_decide (token = "")); [reflexivity|].
  destruct (negb (JS.truthy (default JNull (st !! note_key id)))); [reflexivity|].
  destruct (JS.strict_ne_str _ token); [reflexivity|].
  unfold read_index. eff_simpl. unfold index_of.
  rewrite lookup_delete_ne by apply note_key_ne_index. reflexivity.
Qed.

Lemma public_note_clean_object (fs : list (string * jvalue)) :
  public_note (cleanNote (JObj fs)).
Proof. apply cleanNote_public. reflexivity. Qed.

Lemma error_has_no_views (msg : string) (code : Z) : note_views (json (error msg) code) = [].
Proof. reflexivity. Qed.

(** The method selects one of six behaviours. *)
Lemma handler_cases (e : env) (req : request) :
  (method req = "OPTIONS" /\
     handler e req
     = lift (Throw "Response constructor: Invalid response status code 204")) \/
  (method req = "GET" /\ handler e req = handler_list) \/
  (method req = "POST" /\ handler e req = handler_create e req) \/
  (method req = "PUT" /\ handler e req = handler_update e req) \/
  (method req = "DELETE" /\ handler e req = handler_delete req) \/
  (method req ≠ "POST" /\ method req ≠ "PUT" /\ method req ≠ "DELETE" /\ method req ≠ "GET" /\
     handler e req = mret (json (error "Method not allowed.") 405)).
Proof.
  unfold handler. repeat case_bool_decide; auto 10.
Qed.

(** *** Responses never carry the edit token in a note *)

(** C1. Every response the handler produces (the list of GET, the note of
    POST, the note of PUT, and every other response) carries only note
    objects without an [editToken] field; a successful create answers
    [{ ok, note, token }] where [token] is the raw token and [note] is
    [{ id, content, imageDataUrl, createdAt, updatedAt }]. *)
Theorem responses_hide_editToken (e : env) (req : request) (st st' : store) (r : response) :
  handler e req st = (Return r, st') ->
  Forall public_note (note_views r) /\
  (method req = "POST" -> status r = 200 ->
   exists content img,
     payload r
     = Some (JObj [("ok", JBool true);
                   ("note", JObj [("id", JStr (randomUUID e));
                                  ("content", JStr content);
                                  ("imageDataUrl", image_json img);
                                  ("createdAt", JNum (now e));
                                  ("updatedAt", JNum (now e))]);
                   ("token", JStr (randomHex e))])).
Proof.
  intros H.
  destruct (handler_cases e req)
    as [[Hm Hd]|[[Hm Hd]|[[Hm Hd]|[[Hm Hd]|[[Hm Hd]|(Hm & _ & _ & _ & Hd)]]]]];
    rewrite Hd in H; clear Hd.
  - (* OPTIONS *)
    unfold lift in H. discriminate H.
  - (* GET *)
    apply handler_list_views in H as [notes ->].
    split; [|rewrite Hm; discriminate].
    unfold note_views. simpl. apply Forall_forall. intros n Hn.
    apply list_elem_of_filter in Hn as [Ht Hn].
    apply list_elem_of_fmap in Hn as [v [-> _]].
    apply cleanNote_public. destruct (JS.truthy (cleanNote v)); [reflexivity|contradiction].
  - (* POST *)
    rewrite handler_create_eq in H.
    destruct (read_content (readJson req)) as [content|msg]; [|discriminate].
    destruct (read_image (readJson req)) as [img|msg]; [|discriminate].
    destruct (check_fields content img) as [failure|] eqn:Hc.
    + inversion H; subst. apply check_fields_status in Hc as [msg ->].
      split; [constructor|]. intros _. discriminate.
    + inversion H; subst. split.
      * unfold note_views. simpl. constructor; [|constructor].
        apply public_note_clean_object.
      * intros _ _. exists content, img. reflexivity.
  - (* PUT *)
    split; [|rewrite Hm; discriminate].
    rewrite handler_update_eq in H.
    repeat match type of H with
           | match ?c with _ => _ end = _ => destruct c eqn:?
           end; inversion H; subst; try (constructor; fail).
    + apply check_fields_status in Heqo3 as [msg ->]. constructor.
    + unfold note_views. simpl. constructor; [|constructor].
      apply public_note_clean_object.
  - (* DELETE *)
    split; [|rewrite Hm; discriminate].
    rewrite handler_delete_eq in H.
    repeat match type of H with
           | match ?c with _ => _ end = _ => destruct c eqn:?
           end; inversion H; subst; constructor.
  - inversion H; subst. split; [constructor|]. intros Hp. contradiction.
Qed.

Lemma responses_hide_editToken_witness :
  handler Sample.env1 Sample.post_hi ∅ = (Return Sample.created1, Sample.store1) /\
  Forall public_note (note_views Sample.created1) /\
  (method Sample.post_hi = "POST" -> status Sample.created1 = 200 ->
   exists content img,
     payload Sample.created1
     = Some (JObj [("ok", JBool true);
                   ("note", JObj [("id", JStr (randomUUID Sample.env1));
                                  ("content", JStr content);
                                  ("imageDataUrl", image_json img);
                                  ("createdAt", JNum (now Sample.env1));
                                  ("updatedAt", JNum (now Sample.env1))]);
                   ("token", JStr (randomHex Sample.env1))])).
Proof.
  assert (H : handler Sample.env1 Sample.post_hi ∅ = (Return Sample.created1, Sample.store1))
    by (vm_compute; reflexivity).
  split; [exact H|].
  exact (responses_hide_editToken Sample.env1 Sample.post_hi ∅ Sample.store1 Sample.created1 H).
Defined.

(** *** Facts on the JavaScript primitives *)

Lemma strict_ne_str_true (x : option jvalue) (s : string) :
  JS.strict_ne_str x s = true <-> x ≠ Some (JStr s).
Proof.
  unfold JS.strict_ne_str. destruct x as [[| | |t| |]|]; try (split; [discriminate|reflexivity]).
  case_bool_decide; simpl; split; try congruence; try discriminate.
Qed.

Lemma strict_ne_str_false (x : option jvalue) (s : string) :
  JS.strict_ne_str x s = false <-> x = Some (JStr s).
Proof.
  unfold JS.strict_ne_str. destruct x as [[| | |t| |]|]; try (split; discriminate).
  case_bool_decide; simpl; split; try congruence; try discriminate.
Qed.

(** *** Update with a token that is not the note's *)




(** *** What a successful update writes *)

Lemma lookup_set_field (k k' : string) (v : jvalue) (fs : list (string * jvalue)) :
  JS.lookup_field k (JS.set_field k' v fs)
  = if bool_decide (k' = k) then Some v else JS.lookup_field k fs.
Proof.
  induction fs as [|[k0 v0] fs IH]; simpl.
  - reflexivity.
  - destruct (bool_decide_reflect (k0 = k')) as [->|Hne]; simpl.
    + destruct (bool_decide (k' = k)); reflexivity.
    + rewrite IH. destruct (bool_decide_reflect (k0 = k)) as [->|Hne'].
      * rewrite bool_decide_eq_false_2 by congruence. reflexivity.
      * reflexivity.
Qed.

Lemma prop_updated_note (fs : list (string * jvalue)) content img t (k : string) :
  JS.prop (updated_note (JObj fs) content img t) k
  = if bool_decide ("updatedAt" = k) then Some (JNum t)
    else if bool_decide ("imageDataUrl" = k) then Some (image_json img)
    else if bool_decide ("content" = k) then Some (JStr content)
    else JS.lookup_field k fs.
Proof. unfold updated_note. simpl. rewrite !lookup_set_field. reflexivity. Qed.

Lemma has_editToken_object (v : jvalue) (x : jvalue) :
  JS.prop v "editToken" = Some x -> exists fs, v = JObj fs.
Proof. destruct v; simpl; try discriminate. eauto. Qed.

(** A 200 answer to PUT comes from the last branch only. *)
Lemma update_success_inv (e : env) (req : request) (st st' : store) (r : response) :
  handler_update e req st = (Return r, st') ->
  status r = 200 ->
  exists id token content img fs,
    read_string (readJson req) "id" = Return id /\
    read_string (readJson req) "token" = Return token /\
    id ≠ "" /\ token ≠ "" /\
    note_record st id = JObj fs /\
    JS.lookup_field "editToken" fs = Some (JStr token) /\
    read_content (readJson req) = Return content /\
    read_image (readJson req) = Return img /\
    check_fields content img = None /\
    st' = <[note_key id := updated_note (JObj fs) content img (now e)]> st /\
    r = json (JObj [("ok", JBool true);
                    ("note", cleanNote (updated_note (JObj fs) content img (now e)))]) 200.
Proof.
  rewrite handler_update_eq. intros H Hs.
  destruct (read_string (readJson req) "id") as [id|msg]; [|discriminate].
  destruct (read_string (readJson req) "token") as [token|msg]; [|discriminate].
  destruct (bool_decide_reflect (id = "")) as [|Hid];
    [inversion H; subst; discriminate|].
  destruct (bool_decide_reflect (token = "")) as [|Htok];
    [inversion H; subst; discriminate|].
  simpl in H.
  destruct (JS.truthy (note_record st id)); simpl in H;
    [|inversion H; subst; discriminate].
  destruct (JS.strict_ne_str _ token) eqn:Hne;
    [inversion H; subst; discriminate|].
  apply strict_ne_str_false in Hne.
  destruct (has_editToken_object _ _ Hne) as [fs Hfs]. rewrite Hfs in *.
  destruct (read_content (readJson req)) as [content|msg]; [|discriminate].
  destruct (read_image (readJson req)) as [img|msg]; [|discriminate].
  destruct (check_fields content img) as [failure|] eqn:Hc.
  - inversion H; subst. apply check_fields_status in Hc as [msg ->]. discriminate.
  - inversion H; subst. exists id, token, content, img, fs. repeat split; auto.
Qed.

Lemma note_record_insert (st : store) (id : string) (v : jvalue) :
  note_record (<[note_key id := v]> st) id = v.
Proof. unfold note_record. rewrite lookup_insert_eq. reflexivity. Qed.

Lemma note_record_insert_ne (st : store) (id id' : string) (v : jvalue) :
  id ≠ id' -> note_record (<[note_key id := v]> st) id' = note_record st id'.
Proof.
  intros Hne. unfold note_record. rewrite lookup_insert_ne; [reflexivity|].
  intros Heq. apply note_key_inj in Heq. contradiction.
Qed.

Lemma index_of_insert_note (st : store) (id : string) (v : jvalue) :
  index_of (<[note_key id := v]> st) = index_of st.
Proof.
  unfold index_of. rewrite lookup_insert_ne by apply note_key_ne_index. reflexivity.
Qed.

(** *** The timestamps of an updated note *)

(** C4, as the code has it.  A successful update stores the clock reading
    taken during the update as [updatedAt] and keeps [createdAt]; so
    [updatedAt > createdAt] holds exactly when that reading is later than
    the stored [createdAt]. *)
Theorem update_sets_updatedAt (e : env) (req : request) (st st' : store)
    (r : response) (id : string) (c : Z) :
  method req = "PUT" ->
  handler e req st = (Return r, st') ->
  status r = 200 ->
  read_string (readJson req) "id" = Return id ->
  JS.prop (note_record st id) "createdAt" = Some (JNum c) ->
  JS.prop (note_record st' id) "updatedAt" = Some (JNum (now e)) /\
  JS.prop (note_record st' id) "createdAt" = Some (JNum c) /\
  (updated_after_created (note_record st' id) <-> c < now e).
Proof.
  intros Hm H Hs Hid Hc.
  rewrite (handler_PUT _ _ Hm) in H.
  destruct (update_success_inv _ _ _ _ _ H Hs)
    as (id' & token & content & img & fs & Hid' & _ & _ & _ & Hrec & _ & _ & _ & _ & -> & _).
  rewrite Hid in Hid'. injection Hid' as <-.
  rewrite note_record_insert, Hrec in *.
  assert (Hu : JS.prop (updated_note (JObj fs) content img (now e)) "updatedAt"
               = Some (JNum (now e))) by (rewrite prop_updated_note; reflexivity).
  assert (Hk : JS.prop (updated_note (JObj fs) content img (now e)) "createdAt"
               = Some (JNum c)) by (rewrite prop_updated_note; exact Hc).
  split; [exact Hu|]. split; [exact Hk|].
  unfold updated_after_created. rewrite Hu, Hk. split.
  - intros (c' & u & Hc' & Hu' & Hlt). congruence.
  - intros Hlt. exists c, (now e). auto.
Qed.

Lemma update_sets_updatedAt_witness :
  updated_after_created
    (note_record (handler Sample.env2 (Sample.put "u-1" "tok1" "bye") Sample.store1).2 "u-1")
  <-> 1000 < 2000.
Proof.
  apply (update_sets_updatedAt Sample.env2 (Sample.put "u-1" "tok1" "bye") Sample.store1
           (handler Sample.env2 (Sample.put "u-1" "tok1" "bye") Sample.store1).2
           (json (JObj [("ok", JBool true);
                        ("note", JObj [("id", JStr "u-1"); ("content", JStr "bye");
                                       ("imageDataUrl", JNull); ("createdAt", JNum 1000);
                                       ("updatedAt", JNum 2000)])]) 200)
           "u-1" 1000).
  - reflexivity.
  - vm_compute. reflexivity.
  - reflexivity.
  - reflexivity.
  - vm_compute. reflexivity.
Defined.

(** Against C4 as stated: an update made within the millisecond of the
    create succeeds and leaves [updatedAt] equal to [createdAt]. *)
Lemma update_same_millisecond :
  let out := handler Sample.env1 (Sample.put "u-1" "tok1" "bye") Sample.store1 in
  out.1 = Return (json (JObj [("ok", JBool true);
                              ("note", JObj [("id", JStr "u-1"); ("content", JStr "bye");
                                             ("imageDataUrl", JNull);
                                             ("createdAt", JNum 1000);
                                             ("updatedAt", JNum 1000)])]) 200) /\
  JS.prop (note_record out.2 "u-1") "createdAt" = Some (JNum 1000) /\
  JS.prop (note_record out.2 "u-1") "updatedAt" = Some (JNum 1000) /\
  ~ updated_after_created (note_record out.2 "u-1").
Proof.
  intros out.
  assert (Hc : JS.prop (note_record out.2 "u-1") "createdAt" = Some (JNum 1000))
    by (vm_compute; reflexivity).
  assert (Hu : JS.prop (note_record out.2 "u-1") "updatedAt" = Some (JNum 1000))
    by (vm_compute; reflexivity).
  split; [vm_compute; reflexivity|].
  split; [exact Hc|]. split; [exact Hu|].
  intros (c & u & Hc' & Hu' & Hlt).
  rewrite Hc in Hc'. rewrite Hu in Hu'. injection Hc' as <-. injection Hu' as <-. lia.
Qed.

(** *** The frame of an update *)

(** C8. A successful update keeps the stored note's [id], [createdAt] and
    [editToken]: every field other than [content], [imageDataUrl] and
    [updatedAt] reads as before, and no other record of the store changes. *)
Theorem update_preserves_identity (e : env) (req : request) (st st' : store)
    (r : response) (id : string) :
  method req = "PUT" ->
  handler e req st = (Return r, st') ->
  status r = 200 ->
  read_string (readJson req) "id" = Return id ->
  JS.prop (note_record st' id) "id" = JS.prop (note_record st id) "id" /\
  JS.prop (note_record st' id) "createdAt" = JS.prop (note_record st id) "createdAt" /\
  JS.prop (note_record st' id) "editToken" = JS.prop (note_record st id) "editToken" /\
  (forall k, k ≠ "content" -> k ≠ "imageDataUrl" -> k ≠ "updatedAt" ->
             JS.prop (note_record st' id) k = JS.prop (note_record st id) k) /\
  (forall key, key ≠ note_key id -> st' !! key = st !! key).
Proof.
  intros Hm H Hs Hid.
  rewrite (handler_PUT _ _ Hm) in H.
  destruct (update_success_inv _ _ _ _ _ H Hs)
    as (id' & token & content & img & fs & Hid' & _ & _ & _ & Hrec & _ & _ & _ & _ & -> & _).
  rewrite Hid in Hid'. injection Hid' as <-.
  rewrite note_record_insert, Hrec.
  assert (Hk : forall k, k ≠ "content" -> k ≠ "imageDataUrl" -> k ≠ "updatedAt" ->
                 JS.prop (updated_note (JObj fs) content img (now e)) k = JS.prop (JObj fs) k).
  { intros k H1 H2 H3. rewrite prop_updated_note.
    rewrite !bool_decide_eq_false_2 by congruence. reflexivity. }
  repeat split.
  - apply Hk; discriminate.
  - apply Hk; discriminate.
  - apply Hk; discriminate.
  - exact Hk.
  - intros key Hkey. rewrite lookup_insert_ne by congruence. reflexivity.
Qed.

Lemma update_preserves_identity_witness :
  let st' := (handler Sample.env2 (Sample.put "u-1" "tok1" "bye") Sample.store1).2 in
  JS.prop (note_record st' "u-1") "id" = JS.prop (note_record Sample.store1 "u-1") "id" /\
  JS.prop (note_record st' "u-1") "createdAt"
    = JS.prop (note_record Sample.store1 "u-1") "createdAt" /\
  JS.prop (note_record st' "u-1") "editToken"
    = JS.prop (note_record Sample.store1 "u-1") "editToken" /\
  (forall k, k ≠ "content" -> k ≠ "imageDataUrl" -> k ≠ "updatedAt" ->
             JS.prop (note_record st' "u-1") k = JS.prop (note_record Sample.store1 "u-1") k) /\
  (forall key, key ≠ note_key "u-1" -> st' !! key = Sample.store1 !! key).
Proof.
  intros st'.
  apply (update_preserves_identity Sample.env2 (Sample.put "u-1" "tok1" "bye") Sample.store1
           st'
           (json (JObj [("ok", JBool true);
                        ("note", JObj [("id", JStr "u-1"); ("content", JStr "bye");
                                       ("imageDataUrl", JNull); ("createdAt", JNum 1000);
                                       ("updatedAt", JNum 2000)])]) 200)
           "u-1").
  - reflexivity.
  - vm_compute. reflexivity.
  - reflexivity.
  - reflexivity.
Defined.

(** *** Update with fields that fail the checks *)




(** *** The recency index *)

Lemma index_of_insert_index (st : store) (l : list jvalue) :
  index_of (<[INDEX_KEY := JArr l]> st) = l.
Proof. unfold index_of. rewrite lookup_insert_eq. reflexivity. Qed.

Lemma other_than_self (id : string) : other_than id (JStr id) = false.
Proof.
  unfold other_than. simpl. rewrite bool_decide_eq_true_2 by reflexivity. reflexivity.
Qed.

Lemma new_index_cons (id : string) (l : list jvalue) :
  new_index id l
  = JStr id :: take (MAX_NOTES - 1) (filter (fun x => other_than id x) l).
Proof. reflexivity. Qed.

Lemma new_index_NoDup (id : string) (l : list jvalue) :
  NoDup l -> NoDup (new_index id l).
Proof.
  intros Hl. unfold new_index.
  eapply sublist_NoDup; [|apply sublist_take].
  apply NoDup_cons. split.
  - intros Hin. apply list_elem_of_filter in Hin as [Hne _].
    rewrite other_than_self in Hne. exact Hne.
  - apply NoDup_filter. exact Hl.
Qed.

Lemma new_index_length (id : string) (l : list jvalue) :
  (List.length (new_index id l) <= MAX_NOTES)%nat.
Proof. unfold new_index. rewrite length_take. apply Nat.le_min_l. Qed.

(** Every request keeps the index free of duplicates. *)
Lemma handler_keeps_NoDup (e : env) (req : request) (st : store) :
  NoDup (index_of st) -> NoDup (index_of (handler e req st).2).
Proof.
  intros Hst.
  destruct (handler_cases e req)
    as [[Hm Hd]|[[Hm Hd]|[[Hm Hd]|[[Hm Hd]|[[Hm Hd]|(_ & _ & _ & _ & Hd)]]]]];
    rewrite Hd; clear Hd.
  - exact Hst.
  - rewrite handler_list_state. exact Hst.
  - rewrite handler_create_eq.
    repeat match goal with
           | |- context [match ?c with _ => _ end] => destruct c
           end; try exact Hst.
    cbv zeta. cbn [snd]. rewrite index_of_insert_index. apply new_index_NoDup, Hst.
  - rewrite handler_update_eq.
    repeat match goal with
           | |- context [match ?c with _ => _ end] => destruct c
           end; try exact Hst.
    cbv zeta. cbn [snd]. rewrite index_of_insert_note. exact Hst.
  - rewrite handler_delete_eq.
    repeat match goal with
           | |- context [match ?c with _ => _ end] => destruct c
           end; try exact Hst.
    cbn [snd]. rewrite index_of_insert_index. apply NoDup_filter, Hst.
  - exact Hst.
Qed.

Lemma run_keeps_NoDup (history : list (env * request)) (st : store) :
  NoDup (index_of st) -> NoDup (index_of (run history st)).
Proof.
  revert st. induction history as [|[e req] history IH]; intros st Hst.
  - exact Hst.
  - simpl. apply IH, handler_keeps_NoDup, Hst.
Qed.

(** A 200 answer to POST comes from the last branch only. *)
Lemma create_success_store (e : env) (req : request) (st st' : store) (r : response) :
  handler_create e req st = (Return r, st') ->
  status r = 200 ->
  exists note,
    st' = <[INDEX_KEY := JArr (new_index (randomUUID e) (index_of st))]>
            (<[note_key (randomUUID e) := note]> st).
Proof.
  rewrite handler_create_eq. intros H Hs.
  destruct (read_content (readJson req)) as [content|msg]; [|discriminate].
  destruct (read_image (readJson req)) as [img|msg]; [|discriminate].
  destruct (check_fields content img) as [failure|] eqn:Hc.
  - inversion H; subst. apply check_fields_status in Hc as [msg ->]. discriminate.
  - inversion H; subst. eauto.
Qed.

(** C5. Start from a store whose index has no duplicate (the empty store,
    say) and let any sequence of requests run.  After every create that
    follows, the index is a stored array that begins with the new id,
    continues with the former ids other than the new one, has no duplicate,
    and holds at most 500 ids. *)
Theorem create_index_invariant (history : list (env * request)) (st0 : store)
    (e : env) (req : request) (r : response) (st' : store) :
  NoDup (index_of st0) ->
  method req = "POST" ->
  handler e req (run history st0) = (Return r, st') ->
  status r = 200 ->
  st' !! INDEX_KEY = Some (JArr (index_of st')) /\
  index_of st' = JStr (randomUUID e)
                 :: take 499 (filter (fun x => other_than (randomUUID e) x)
                                (index_of (run history st0))) /\
  NoDup (index_of st') /\
  (List.length (index_of st') <= 500)%nat.
Proof.
  intros H0 Hm H Hs.
  rewrite (handler_POST _ _ Hm) in H.
  destruct (create_success_store _ _ _ _ _ H Hs) as [note ->].
  rewrite index_of_insert_index, lookup_insert_eq.
  split; [reflexivity|]. split; [apply new_index_cons|].
  split; [apply new_index_NoDup, run_keeps_NoDup, H0|apply new_index_length].
Qed.

Lemma create_index_invariant_witness :
  let st' := (handler Sample.env1 Sample.post_hi
                (run [(Sample.env1, Sample.post_hi); (Sample.env2, Sample.post_hi)] ∅)).2 in
  st' !! INDEX_KEY = Some (JArr (index_of st')) /\
  index_of st' = JStr "u-1"
                 :: take 499 (filter (fun x => other_than "u-1" x)
                                (index_of (run [(Sample.env1, Sample.post_hi);
                                                (Sample.env2, Sample.post_hi)] ∅))) /\
  NoDup (index_of st') /\
  (List.length (index_of st') <= 500)%nat.
Proof.
  intros st'.
  apply (create_index_invariant
           [(Sample.env1, Sample.post_hi); (Sample.env2, Sample.post_hi)] ∅
           Sample.env1 Sample.post_hi Sample.created1 st').
  - vm_compute. constructor.
  - reflexivity.
  - vm_compute. reflexivity.
  - reflexivity.
Defined.

(** *** An index record that is not an array *)

Lemma as_index_not_array (record : jvalue) :
  JS.isArray record = false -> as_index record = [].
Proof.
  unfold as_index, JS.or_else. intros H.
  destruct (JS.truthy record); [rewrite H|]; reflexivity.
Qed.

Lemma list_ids_not_array (record : jvalue) :
  JS.isArray record = false ->
  (if JS.isArray (JS.or_else record (JArr []))
   then take LIST_LIMIT (JS.elements (JS.or_else record (JArr [])))
   else []) = [].
Proof.
  unfold JS.or_else. intros H.
  destruct (JS.truthy record); [rewrite H|]; reflexivity.
Qed.

Lemma handler_list_not_array (st : store) :
  JS.isArray (default JNull (st !! INDEX_KEY)) = false ->
  handler_list st = (Return (json (JArr []) 200), st).
Proof.
  intros H. unfold handler_list. eff_simpl.
  rewrite (list_ids_not_array _ H). reflexivity.
Qed.

Lemma handler_list_empty_index (st : store) :
  handler_list (<[INDEX_KEY := JArr []]> st)
  = (Return (json (JArr []) 200), <[INDEX_KEY := JArr []]> st).
Proof.
  unfold handler_list. eff_simpl. rewrite lookup_insert_eq. reflexivity.
Qed.

Lemma note_record_insert_index (st : store) (v : jvalue) (id : string) :
  note_record (<[INDEX_KEY := v]> st) id = note_record st id.
Proof.
  unfold note_record. rewrite lookup_insert_ne; [reflexivity|].
  intros Heq. symmetry in Heq. exact (note_key_ne_index _ Heq).
Qed.

(** C10, as the code has it.  When the index record is absent or is not
    an array, GET, POST, PUT and DELETE are answered as they are when the
    index is the empty array: GET answers 200 with the empty list, writes
    nothing and does not throw; a successful POST stores the one-element
    array of the new id; a DELETE that removes a note stores the empty
    array.  POST, PUT and DELETE throw only where the conversion of a body
    field to a string throws, whatever the index holds. *)
Theorem index_not_array_reads_empty (e : env) (req : request) (st : store) :
  JS.isArray (default JNull (st !! INDEX_KEY)) = false ->
  (handler e req st).1 = (handler e req (<[INDEX_KEY := JArr []]> st)).1 /\
  (method req ≠ "OPTIONS" ->
   forall msg, (handler e req st).1 = Throw msg ->
               read_string (readJson req) "id" = Throw msg
               \/ read_string (readJson req) "token" = Throw msg
               \/ read_content (readJson req) = Throw msg
               \/ read_image (readJson req) = Throw msg) /\
  (method req = "GET" -> handler e req st = (Return (json (JArr []) 200), st)) /\
  (method req = "POST" ->
   forall r, (handler e req st).1 = Return r -> status r = 200 ->
             (handler e req st).2 !! INDEX_KEY = Some (JArr [JStr (randomUUID e)])) /\
  (method req = "DELETE" ->
   forall id token,
     read_string (readJson req) "id" = Return id ->
     read_string (readJson req) "token" = Return token ->
     id ≠ "" -> token ≠ "" ->
     JS.prop (note_record st id) "editToken" = Some (JStr token) ->
     handler e req st = (Return (json (JObj [("ok", JBool true)]) 200),
                         <[INDEX_KEY := JArr []]> (delete (note_key id) st))).
Proof.
  intros Hbad.
  assert (Hidx : index_of st = []) by (apply as_index_not_array, Hbad).
  split; [|split; [|split; [|split]]].
  2:{ intros Hmethod msg Hthrow.
      destruct (handler_cases e req)
        as [[Hm Hd]|[[Hm Hd]|[[Hm Hd]|[[Hm Hd]|[[Hm Hd]|(_ & _ & _ & _ & Hd)]]]]];
        rewrite Hd in Hthrow; clear Hd.
      - contradiction.
      - rewrite (handler_list_not_array _ Hbad) in Hthrow. discriminate.
      - rewrite handler_create_eq in Hthrow.
        destruct (read_content (readJson req)) as [c|m] eqn:Ec;
          [|injection Hthrow as ->; auto].
        destruct (read_image (readJson req)) as [i|m] eqn:Ei;
          [|injection Hthrow as ->; auto].
        destruct (check_fields c i); discriminate.
      - rewrite handler_update_eq in Hthrow.
        destruct (read_string (readJson req) "id") as [id|m] eqn:Eid;
          [|injection Hthrow as ->; auto].
        destruct (read_string (readJson req) "token") as [token|m] eqn:Etok;
          [|injection Hthrow as ->; auto].
        destruct (bool_decide (id = "") || bool_decide (token = "")); [discriminate|].
        destruct (negb (JS.truthy (note_record st id))); [discriminate|].
        destruct (JS.strict_ne_str _ token); [discriminate|].
        destruct (read_content (readJson req)) as [c|m] eqn:Ec;
          [|injection Hthrow as ->; auto].
        destruct (read_image (readJson req)) as [i|m] eqn:Ei;
          [|injection Hthrow as ->; auto].
        destruct (check_fields c i); discriminate.
      - rewrite handler_delete_eq in Hthrow.
        destruct (read_string (readJson req) "id") as [id|m] eqn:Eid;
          [|injection Hthrow as ->; auto].
        destruct (read_string (readJson req) "token") as [token|m] eqn:Etok;
          [|injection Hthrow as ->; auto].
        destruct (bool_decide (id = "") || bool_decide (token = "")); [discriminate|].
        destruct (negb (JS.truthy (note_record st id))); [discriminate|].
        destruct (JS.strict_ne_str _ token); discriminate.
      - discriminate. }
  - destruct (handler_cases e req)
      as [[Hm Hd]|[[Hm Hd]|[[Hm Hd]|[[Hm Hd]|[[Hm Hd]|(_ & _ & _ & _ & Hd)]]]]];
      rewrite Hd; clear Hd.
    + reflexivity.
    + rewrite handler_list_empty_index, (handler_list_not_array _ Hbad). reflexivity.
    + rewrite !handler_create_eq.
      repeat match goal with
             | |- context [match ?c with _ => _ end] => destruct c
             end; reflexivity.
    + rewrite !handler_update_eq.
      destruct (read_string (readJson req) "id") as [id|msg]; [|reflexivity].
      rewrite note_record_insert_index.
      repeat match goal with
             | |- context [match ?c with _ => _ end] => destruct c
             end; reflexivity.
    + rewrite !handler_delete_eq.
      destruct (read_string (readJson req) "id") as [id|msg]; [|reflexivity].
      rewrite note_record_insert_index.
      repeat match goal with
             | |- context [match ?c with _ => _ end] => destruct c
             end; reflexivity.
    + reflexivity.
  - intros Hm. rewrite (handler_GET _ _ Hm). apply handler_list_not_array, Hbad.
  - intros Hm r Hr Hs. rewrite (handler_POST _ _ Hm) in *.
    destruct (handler_create e req st) as [o st'] eqn:Hc. simpl in Hr. subst o.
    destruct (create_success_store _ _ _ _ _ Hc Hs) as [note ->].
    cbn [snd]. rewrite lookup_insert_eq, Hidx. reflexivity.
  - intros Hm id token Hid Htok Hi Ht Hright.
    rewrite (handler_DELETE _ _ Hm), handler_delete_eq, Hid, Htok.
    rewrite (bool_decide_eq_false_2 _ Hi), (bool_decide_eq_false_2 _ Ht).
    destruct (has_editToken_object _ _ Hright) as [fs Hfs].
    apply strict_ne_str_false in Hright. rewrite Hright, Hfs, Hidx. reflexivity.
Qed.

Lemma index_not_array_reads_empty_witness :
  let st := Sample.store_bad_index in
  let req := Sample.delete "u-1" "tok1" in
  JS.isArray (default JNull (st !! INDEX_KEY)) = false /\
  (handler Sample.env2 req st).1
    = (handler Sample.env2 req (<[INDEX_KEY := JArr []]> st)).1 /\
  handler Sample.env2 req st
    = (Return (json (JObj [("ok", JBool true)]) 200),
       <[INDEX_KEY := JArr []]> (delete (note_key "u-1") st)).
Proof.
  intros st req.
  assert (H : JS.isArray (default JNull (st !! INDEX_KEY)) = false)
    by (vm_compute; reflexivity).
  destruct (index_not_array_reads_empty Sample.env2 req st H)
    as (Hsame & _ & _ & _ & Hdelete).
  split; [exact H|]. split; [exact Hsame|].
  apply (Hdelete eq_refl "u-1" "tok1").
  - reflexivity.
  - reflexivity.
  - discriminate.
  - discriminate.
  - vm_compute. reflexivity.
Defined.

(** The claim as stated does not hold: on a store whose index record is
    not an array, a POST whose content has no string form makes the handler
    throw. *)
Lemma post_unprintable_content_throws :
  JS.isArray (default JNull (Sample.store_bad_index !! INDEX_KEY)) = false
  /\ handler Sample.env2 Sample.post_unprintable Sample.store_bad_index
     = (Throw "Cannot convert object to primitive value", Sample.store_bad_index).
Proof. split; vm_compute; reflexivity. Qed.

End NotesFacts.

(** ** Where the two functions differ *)

Module VariantFacts.

Section WithPlatform.

Variable decodeURIComponent : string -> outcome string.

Lemma filter_out_none (id : string) (notes : list jvalue) :
  Forall (fun n => PathNotes.id_is id n = Return false) notes ->
  PathNotes.filter_out id notes = Return notes.
Proof.
  induction 1 as [|n notes Hn _ IH]; simpl.
  - reflexivity.
  - rewrite Hn. simpl. rewrite IH. reflexivity.
Qed.

(** [loadNotes] throws before it reads anything. *)
Lemma loadNotes_eq (st : store) :
  PathNotes.loadNotes st = (Throw "store.getJSON is not a function", st).
Proof. reflexivity. Qed.

Lemma path_delete_fails (e : env) (req : request) (st : store) :
  method req = "DELETE" ->
  exists r,
    PathNotes.handler decodeURIComponent e req st = (Return r, st)
    /\ (status r = 400 \/ status r = 500).
Proof.
  intros Hm.
  unfold PathNotes.handler. rewrite Hm.
  rewrite (bool_decide_eq_false_2 ("DELETE" = "GET")) by discriminate.
  rewrite (bool_decide_eq_false_2 ("DELETE" = "POST")) by discriminate.
  rewrite (bool_decide_eq_false_2 ("DELETE" = "PUT")) by discriminate.
  rewrite (bool_decide_eq_true_2 ("DELETE" = "DELETE")) by reflexivity.
  eff_simpl.
  destruct (PathNotes.getNoteIdFromPath decodeURIComponent (pathname req)) as [noteId|msg].
  - destruct (PathNotes.no_id noteId).
    + eexists. split; [reflexivity|]. left. reflexivity.
    + rewrite loadNotes_eq. eexists. split; [reflexivity|]. right. reflexivity.
  - eexists. split; [reflexivity|]. right. reflexivity.
Qed.

Lemma path_post_unparseable (e : env) (req : request) (st : store) (msg : string) :
  method req = "POST" ->
  body req = Throw msg ->
  PathNotes.handler decodeURIComponent e req st
  = (Return (PathNotes.json
               (Notes.error (if bool_decide (msg = "")
                             then "Internal server error." else msg)) 500), st).
Proof.
  intros Hm Hb.
  unfold PathNotes.handler. rewrite Hm, Hb.
  rewrite (bool_decide_eq_false_2 ("POST" = "GET")) by discriminate.
  rewrite (bool_decide_eq_true_2 ("POST" = "POST")) by reflexivity.
  reflexivity.
Qed.

Lemma token_delete_missing (e : env) (req : request) (st : store) (id token : string) :
  method req = "DELETE" ->
  Notes.read_string (Notes.readJson req) "id" = Return id ->
  Notes.read_string (Notes.readJson req) "token" = Return token ->
  id ≠ "" -> token ≠ "" ->
  JS.truthy (note_record st id) = false ->
  Notes.handler e req st = (Return (Notes.json (JObj [("ok", JBool true)]) 200), st).
Proof.
  intros Hm Hid Htok Hi Ht Hnone.
  rewrite (NotesFacts.handler_DELETE _ _ Hm), NotesFacts.handler_delete_eq, Hid, Htok.
  rewrite (bool_decide_eq_false_2 _ Hi), (bool_decide_eq_false_2 _ Ht), Hnone.
  reflexivity.
Qed.

Lemma token_post_unparseable (e : env) (req : request) (st : store) (msg : string) :
  method req = "POST" ->
  body req = Throw msg ->
  Notes.handler e req st = (Return (Notes.json (Notes.error "Empty note.") 400), st).
Proof.
  intros Hm Hb.
  rewrite (NotesFacts.handler_POST _ _ Hm), NotesFacts.handler_create_eq.
  unfold Notes.readJson. rewrite Hb. reflexivity.
Qed.

(** C2, as the code has it.  In the token-based function, a DELETE naming
    a non-empty id that has no note record, with a non-empty token, is
    answered 200 [{ ok: true }] and the store is unchanged.  The id-in-path
    variant answers no DELETE with success: the answer is an error, 400 or
    500, the store unchanged as well. *)
Theorem delete_missing_note (e : env) (req : request) (st : store) (id token : string) :
  method req = "DELETE" ->
  id ≠ "" ->
  token ≠ "" ->
  (Notes.read_string (Notes.readJson req) "id" = Return id ->
   Notes.read_string (Notes.readJson req) "token" = Return token ->
   JS.truthy (note_record st id) = false ->
   Notes.handler e req st = (Return (Notes.json (JObj [("ok", JBool true)]) 200), st)) /\
  (exists r,
     PathNotes.handler decodeURIComponent e req st = (Return r, st)
     /\ (status r = 400 \/ status r = 500)).
Proof.
  intros Hm Hi Ht. split.
  - intros Hid Htok Hnone. exact (token_delete_missing e req st id token Hm Hid Htok Hi Ht Hnone).
  - exact (path_delete_fails e req st Hm).
Qed.

(** C6, as the code has it.  A POST whose body is not JSON is answered by
    the token-based function, which reads the body as the empty object,
    with 400 "Empty note."; the id-in-path variant answers it with 500 and
    the parser's message.  Neither writes to the store. *)
Theorem post_unparseable_body (e : env) (req : request) (st : store) (msg : string) :
  method req = "POST" ->
  body req = Throw msg ->
  Notes.readJson req = JObj [] /\
  Notes.handler e req st = (Return (Notes.json (Notes.error "Empty note.") 400), st) /\
  PathNotes.handler decodeURIComponent e req st
  = (Return (PathNotes.json
               (Notes.error (if bool_decide (msg = "")
                             then "Internal server error." else msg)) 500), st).
Proof.
  intros Hm Hb. split; [|split].
  - unfold Notes.readJson. rewrite Hb. reflexivity.
  - exact (token_post_unparseable e req st msg Hm Hb).
  - exact (path_post_unparseable e req st msg Hm Hb).
Qed.

End WithPlatform.

Lemma delete_missing_note_witness :
  let req := mkRequest "DELETE" "/.netlify/functions/notes/u-9"
               (Return (JObj [("id", JStr "u-9"); ("token", JStr "tok9")])) in
  Notes.handler Sample.env2 req Sample.store1
  = (Return (Notes.json (JObj [("ok", JBool true)]) 200), Sample.store1) /\
  exists r,
    PathNotes.handler Sample.decode_plain Sample.env2 req Sample.store1
    = (Return r, Sample.store1)
    /\ (status r = 400 \/ status r = 500).
Proof.
  intros req.
  destruct (delete_missing_note Sample.decode_plain Sample.env2 req Sample.store1
              "u-9" "tok9") as [Htoken Hpath].
  - reflexivity.
  - discriminate.
  - discriminate.
  - split.
    + apply Htoken; [reflexivity|reflexivity|vm_compute; reflexivity].
    + exact Hpath.
Defined.

Lemma post_unparseable_body_witness :
  Notes.readJson Sample.post_garbage = JObj [] /\
  Notes.handler Sample.env1 Sample.post_garbage ∅
  = (Return (Notes.json (Notes.error "Empty note.") 400), ∅) /\
  PathNotes.handler Sample.decode_plain Sample.env1 Sample.post_garbage ∅
  = (Return (PathNotes.json
               (Notes.error "Unexpected token h in JSON at position 0") 500), ∅).
Proof.
  apply (post_unparseable_body Sample.decode_plain Sample.env1 Sample.post_garbage ∅
           "Unexpected token h in JSON at position 0").
  - reflexivity.
  - reflexivity.
Defined.

(** Against C2 as stated: the DELETE of an id that has no note is
    reported as an error by the id-in-path variant, which answers 500, and,
    when the id is empty, by the token-based function, which answers 400. *)
Lemma delete_missing_is_an_error :
  (PathNotes.handler Sample.decode_plain Sample.env1 Sample.delete_path_n1 ∅
   = (Return (PathNotes.json (Notes.error "store.getJSON is not a function") 500), ∅)
   /\ Client.ok 500 = false)
  /\ (note_record Sample.store1 "" = JNull
      /\ Notes.handler Sample.env2 (Sample.delete "" "tok1") Sample.store1
         = (Return (Notes.json (Notes.error "Missing id/token.") 400), Sample.store1)
      /\ Client.ok 400 = false).
Proof. repeat split; vm_compute; reflexivity. Qed.

(** Against C6 as stated: in the id-in-path variant a POST whose body is
    not JSON is answered 500; the body is not read as the empty object. *)
Lemma path_post_garbage_is_500 :
  body Sample.post_garbage = Throw "Unexpected token h in JSON at position 0" /\
  PathNotes.handler Sample.decode_plain Sample.env1 Sample.post_garbage ∅
  = (Return (PathNotes.json
               (Notes.error "Unexpected token h in JSON at position 0") 500), ∅).
Proof. split; [reflexivity|vm_compute; reflexivity]. Qed.

End VariantFacts.

(** ** The client cache *)

Module ClientFacts.
Import Client.

Lemma failed_request_throws (method : string) (body : option jvalue) (net : fetch_result) :
  request_fails net -> exists msg, apiRequest method body net = Throw msg.
Proof.
  destruct net as [msg|status body_text]; simpl.
  - eauto.
  - intros Hf. destruct body_text as [text|msg]; simpl; [|eauto].
    destruct text as [|v|]; simpl; try eauto.
    + destruct Hf as [Hok|[[msg Hmsg]|Hbad]]; try discriminate.
      rewrite Hok. simpl. eauto.
    + destruct Hf as [Hok|[[msg Hmsg]|Hbad]]; try discriminate.
      rewrite Hok. simpl.
      destruct (JS.truthy v && JS.truthy_opt (JS.prop v "error")); simpl; [|eauto].
      destruct (JS.String_ _); simpl; eauto.
Qed.

(** A failed request is answered from the cache; the storage is not
    touched. *)
Lemma getAllNotes_failed (net : fetch_result) (ls : localStorage) (msg : string) :
  apiRequest "GET" None net = Throw msg ->
  getAllNotes net ls = (Return (cached_list ls), ls).
Proof.
  intros H. unfold getAllNotes, loadJson, getItem, cached_list. eff_simpl. rewrite H.
  destruct (items ls !! CACHE_KEY) as [[|v|]|]; try reflexivity.
  destruct v; reflexivity.
Qed.

(** A list that arrives is cached, unless the quota is exhausted, and
    returned. *)
Lemma getAllNotes_succeeded (net : fetch_result) (ls : localStorage) (notes : list jvalue) :
  apiRequest "GET" None net = Return (JArr notes) ->
  getAllNotes net ls
  = (Return (JArr notes),
     if quota_exceeded ls then ls
     else {| items := <[CACHE_KEY := JsonText (JArr notes)]> (items ls);
             quota_exceeded := quota_exceeded ls |}).
Proof.
  intros H. unfold getAllNotes, saveJson, setItem. eff_simpl. rewrite H. simpl.
  destruct (quota_exceeded ls); reflexivity.
Qed.

(** C7. After a [getAllNotes] whose request succeeded with a list and
    cached it, a [getAllNotes] whose request fails (network error, timeout,
    status outside 2xx, unreadable body) returns that very list and does
    not throw; on a storage without a cache entry it returns the empty
    list. *)
Theorem getAllNotes_falls_back_to_cache (ls : localStorage) (net1 net2 : fetch_result)
    (notes : list jvalue) :
  apiRequest "GET" None net1 = Return (JArr notes) ->
  quota_exceeded ls = false ->
  request_fails net2 ->
  let ls1 := (getAllNotes net1 ls).2 in
  getAllNotes net1 ls = (Return (JArr notes), ls1) /\
  items ls1 !! CACHE_KEY = Some (JsonText (JArr notes)) /\
  getAllNotes net2 ls1 = (Return (JArr notes), ls1) /\
  (forall ls0, items ls0 !! CACHE_KEY = None ->
               getAllNotes net2 ls0 = (Return (JArr []), ls0)).
Proof.
  intros H1 Hq Hf ls1. subst ls1.
  destruct (failed_request_throws "GET" None net2 Hf) as [msg H2].
  rewrite (getAllNotes_succeeded _ _ _ H1), Hq. cbn [snd].
  split; [reflexivity|].
  split; [simpl; apply lookup_insert_eq|].
  split.
  - rewrite (getAllNotes_failed _ _ _ H2). unfold cached_list. simpl.
    rewrite lookup_insert_eq. reflexivity.
  - intros ls0 Hnone. rewrite (getAllNotes_failed _ _ _ H2).
    unfold cached_list. rewrite Hnone. reflexivity.
Qed.

Lemma getAllNotes_falls_back_to_cache_witness :
  let ls1 := (getAllNotes Sample.fetch_ok Sample.storage0).2 in
  getAllNotes Sample.fetch_ok Sample.storage0 = (Return (JArr Sample.listed1), ls1) /\
  items ls1 !! CACHE_KEY = Some (JsonText (JArr Sample.listed1)) /\
  getAllNotes Sample.fetch_aborted ls1 = (Return (JArr Sample.listed1), ls1) /\
  (forall ls0, items ls0 !! CACHE_KEY = None ->
               getAllNotes Sample.fetch_aborted ls0 = (Return (JArr []), ls0)).
Proof.
  apply (getAllNotes_falls_back_to_cache Sample.storage0 Sample.fetch_ok
           Sample.fetch_aborted Sample.listed1).
  - reflexivity.
  - reflexivity.
  - exact I.
Defined.

End ClientFacts.

(** ** Further properties of the token-based function *)

Module NotesMore.
Import Notes.

Lemma handler_OPTIONS e req :
  method req = "OPTIONS" ->
  handler e req = lift (Throw "Response constructor: Invalid response status code 204").
Proof. intros H. unfold handler. rewrite H. reflexivity. Qed.

(** *** What a request can write *)

Lemma handler_writes_on_200 (e : env) (req : request) (st : store) :
  (handler e req st).2 = st
  \/ (exists r, (handler e req st).1 = Return r
                /\ status r = 200
                /\ (method req = "POST" \/ method req = "PUT" \/ method req = "DELETE")).
Proof.
  destruct (NotesFacts.handler_cases e req)
    as [[Hm Hd]|[[Hm Hd]|[[Hm Hd]|[[Hm Hd]|[[Hm Hd]|(_ & _ & _ & _ & Hd)]]]]];
    rewrite Hd; clear Hd.
  - left. reflexivity.
  - left. apply NotesFacts.handler_list_state.
  - rewrite NotesFacts.handler_create_eq.
    repeat match goal with
           | |- context [match ?c with _ => _ end] => destruct c
           end; try (left; reflexivity).
    right. eexists. split; [reflexivity|]. split; [reflexivity|]. auto.
  - rewrite NotesFacts.handler_update_eq.
    repeat match goal with
           | |- context [match ?c with _ => _ end] => destruct c
           end; try (left; reflexivity).
    right. eexists. split; [reflexivity|]. split; [reflexivity|]. auto.
  - rewrite NotesFacts.handler_delete_eq.
    repeat match goal with
           | |- context [match ?c with _ => _ end] => destruct c
           end; try (left; reflexivity).
    right. eexists. split; [reflexivity|]. split; [reflexivity|]. auto.
  - left. reflexivity.
Qed.

(** The store changes only when POST, PUT or DELETE is answered 200: a
    throw, an error answer, GET, OPTIONS and any other method leave it as
    it was. *)
Theorem store_changes_only_on_200 (e : env) (req : request) (st : store) :
  (handler e req st).2 = st
  \/ (exists r, (handler e req st).1 = Return r
                /\ status r = 200
                /\ (method req = "POST" \/ method req = "PUT" \/ method req = "DELETE")).
Proof. exact (handler_writes_on_200 e req st). Qed.

(** Every answer has status 200, 400, 403, 404 or 405 and is JSON that
    forbids caching.  OPTIONS gets no answer: its 204 response is built
    with the empty string for a body, which the Response constructor
    refuses, so the handler throws, and the store is as it was. *)
Theorem response_shape (e : env) (req : request) (st : store) :
  (forall r st', handler e req st = (Return r, st') ->
     method req ≠ "OPTIONS"
     /\ status r ∈ [200; 400; 403; 404; 405]
     /\ headers r = [("Content-Type", "application/json"); ("Cache-Control", "no-store")]
     /\ is_Some (payload r))
  /\ (method req = "OPTIONS" -> exists msg, handler e req st = (Throw msg, st)).
Proof.
  split.
  2:{ intros Ho. rewrite (handler_OPTIONS _ _ Ho). eexists. reflexivity. }
  intros r st' H.
  destruct (NotesFacts.handler_cases e req)
    as [[Hm Hd]|[[Hm Hd]|[[Hm Hd]|[[Hm Hd]|[[Hm Hd]|(Hm & _ & _ & _ & Hd)]]]]];
    [rewrite Hd in H; clear Hd ..|].
  - unfold lift in H. discriminate H.
  - apply NotesFacts.handler_list_views in H as [notes ->].
    rewrite Hm. repeat split; try discriminate; try (eexists; reflexivity). set_solver.
  - rewrite Hm. split; [discriminate|].
    rewrite NotesFacts.handler_create_eq in H.
    destruct (read_content (readJson req)) as [content|msg]; [|discriminate].
    destruct (read_image (readJson req)) as [img|msg]; [|discriminate].
    destruct (check_fields content img) as [failure|] eqn:Hc.
    + inversion H; subst. apply NotesFacts.check_fields_status in Hc as [msg ->].
      repeat split; try (eexists; reflexivity). set_solver.
    + inversion H; subst. repeat split; try (eexists; reflexivity). set_solver.
  - rewrite Hm. split; [discriminate|].
    rewrite NotesFacts.handler_update_eq in H.
    repeat match type of H with
           | match ?c with _ => _ end = _ => destruct c eqn:?
           end; inversion H; subst;
      try (repeat split; try (eexists; reflexivity); set_solver).
    apply NotesFacts.check_fields_status in Heqo3 as [msg ->].
    repeat split; try (eexists; reflexivity). set_solver.
  - rewrite Hm. split; [discriminate|].
    rewrite NotesFacts.handler_delete_eq in H.
    repeat match type of H with
           | match ?c with _ => _ end = _ => destruct c eqn:?
           end; inversion H; subst;
      repeat split; try (eexists; reflexivity); set_solver.
  - split.
    + intros Ho. rewrite (handler_OPTIONS _ _ Ho) in Hd.
      apply (f_equal (fun m => m st)) in Hd. discriminate.
    + rewrite Hd in H. inversion H; subst.
      repeat split; try (eexists; reflexivity). set_solver.
Qed.

Lemma response_shape_witness :
  status Sample.created1 ∈ [200; 400; 403; 404; 405]
  /\ headers Sample.created1
     = [("Content-Type", "application/json"); ("Cache-Control", "no-store")]
  /\ exists msg,
       handler Sample.env1 (mkRequest "OPTIONS" Sample.URL (Throw "no body")) Sample.store1
       = (Throw msg, Sample.store1).
Proof.
  destruct (response_shape Sample.env1 Sample.post_hi ∅) as [Hanswer _].
  destruct (Hanswer Sample.created1 Sample.store1) as (_ & Hs & Hh & _).
  - vm_compute. reflexivity.
  - destruct (response_shape Sample.env1
                (mkRequest "OPTIONS" Sample.URL (Throw "no body")) Sample.store1)
      as [_ Hoptions].
    split; [exact Hs|]. split; [exact Hh|]. apply Hoptions. reflexivity.
Defined.

(** *** The list *)

Lemma mapM_length {A B : Type} (f : A -> M B) (l : list A) (st st' : store) (ys : list B) :
  mapM f l st = (Return ys, st') -> List.length ys = List.length l.
Proof.
  revert st st' ys. induction l as [|x l IH]; intros st st' ys H.
  - cbn in H. inversion H. reflexivity.
  - cbn [mapM] in H. eff_simpl in H.
    destruct (f x st) as [[y|msg] s1]; [|discriminate].
    destruct (mapM f l s1) as [[zs|msg] s2] eqn:E; [|discriminate].
    inversion H; subst. simpl. f_equal. exact (IH _ _ _ E).
Qed.

Lemma mapM_pure {A B : Type} (f : A -> M B) (g : A -> B) (l : list A) (st : store) :
  (forall x, x ∈ l -> f x st = (Return (g x), st)) ->
  mapM f l st = (Return (map g l), st).
Proof.
  induction l as [|x l IH]; intros Hf.
  - reflexivity.
  - cbn [mapM]. eff_simpl. rewrite (Hf x) by apply list_elem_of_here.
    fold (@mapM A B). rewrite IH; [reflexivity|].
    intros y Hy. apply Hf. apply list_elem_of_further, Hy.
Qed.

Lemma list_ids_eq (record : jvalue) :
  (if JS.isArray (JS.or_else record (JArr []))
   then take LIST_LIMIT (JS.elements (JS.or_else record (JArr [])))
   else []) = take LIST_LIMIT (as_index record).
Proof.
  unfold as_index. destruct (JS.isArray (JS.or_else record (JArr []))); [reflexivity|].
  symmetry. apply take_nil.
Qed.

(** LIST answers 200 with at most 50 notes and writes nothing. *)
Theorem list_at_most_50 (e : env) (req : request) (st st' : store) (r : response) :
  method req = "GET" ->
  handler e req st = (Return r, st') ->
  status r = 200
  /\ (List.length (note_views r) <= 50)%nat
  /\ (List.length (note_views r) <= List.length (index_of st))%nat
  /\ st' = st.
Proof.
  intros Hm H. rewrite (NotesFacts.handler_GET _ _ Hm) in H.
  pose proof (NotesFacts.handler_list_state st) as Hst. rewrite H in Hst. simpl in Hst.
  unfold handler_list in H. eff_simpl in H. rewrite list_ids_eq in H.
  fold (index_of st) in H.
  match type of H with context [mapM ?f ?ids st] =>
    destruct (mapM f ids st) as [[notes|msg] s1] eqn:E end; [|discriminate].
  apply mapM_length in E. inversion H; subst r s1. clear H.
  unfold note_views. simpl.
  assert (Hlen : (List.length (filter (fun v => JS.truthy v) (map cleanNote notes))
                  <= List.length (take LIST_LIMIT (index_of st)))%nat).
  { etransitivity; [apply length_filter|]. rewrite length_map, E. reflexivity. }
  rewrite length_take in Hlen. unfold LIST_LIMIT in Hlen.
  repeat split; try lia. exact Hst.
Qed.

Lemma list_at_most_50_witness :
  (List.length (note_views (json (JArr Sample.listed1) 200)) <= 50)%nat.
Proof.
  apply (list_at_most_50 Sample.env2 Sample.get Sample.store1 Sample.store1
           (json (JArr Sample.listed1) 200)).
  - reflexivity.
  - vm_compute. reflexivity.
Defined.

Lemma handler_list_strings (e : env) (req : request) (st : store) :
  method req = "GET" ->
  Forall (fun x => is_str x = true) (index_of st) ->
  handler e req st = (Return (json (JArr (listing st)) 200), st).
Proof.
  intros Hm Hstr. rewrite (NotesFacts.handler_GET _ _ Hm).
  unfold handler_list. eff_simpl. rewrite list_ids_eq. fold (index_of st).
  match goal with |- context [mapM ?f ?ids st] =>
    rewrite (mapM_pure f (fun x => note_record st (id_of x)) ids st) end.
  - unfold listing. rewrite map_map. reflexivity.
  - intros x Hx. apply elem_of_take in Hx as (i & Hx & _).
    apply list_elem_of_lookup_2 in Hx.
    rewrite Forall_forall in Hstr. specialize (Hstr x Hx).
    destruct x; try discriminate. reflexivity.
Qed.

(** When the index holds strings, LIST answers the sanitised records of its
    first 50 ids, in the order of the index, the ids without a record left
    out; it does not throw. *)
Theorem list_follows_index (e : env) (req : request) (st : store) :
  method req = "GET" ->
  Forall (fun x => is_str x = true) (index_of st) ->
  handler e req st = (Return (json (JArr (listing st)) 200), st).
Proof. exact (handler_list_strings e req st). Qed.

Lemma list_follows_index_witness :
  handler Sample.env2 Sample.get Sample2.store2
  = (Return (json (JArr (listing Sample2.store2)) 200), Sample2.store2)
  /\ listing Sample2.store2
     = [public_shape "u-2" "hi" None 2000 2000; public_shape "u-1" "hi" None 1000 1000].
Proof.
  split.
  - apply (list_follows_index Sample.env2 Sample.get Sample2.store2).
    + reflexivity.
    + vm_compute. repeat constructor.
  - vm_compute. reflexivity.
Defined.

(** *** Delete *)



Lemma other_than_true (id : string) (x : jvalue) :
  other_than id x = true <-> x ≠ JStr id.
Proof.
  unfold other_than. rewrite NotesFacts.strict_ne_str_true. split; congruence.
Qed.

Lemma not_in_filter_other (id : string) (l : list jvalue) :
  JStr id ∉ filter (fun x => other_than id x) l.
Proof.
  intros Hin. apply list_elem_of_filter in Hin as [Hne _].
  rewrite NotesFacts.other_than_self in Hne. exact Hne.
Qed.

Lemma filter_other_absent (id : string) (l : list jvalue) :
  JStr id ∉ l -> filter (fun x => other_than id x) l = l.
Proof.
  induction l as [|x l IH]; intros Hnot; [reflexivity|].
  rewrite filter_cons_True.
  - f_equal. apply IH. intros Hin. apply Hnot. apply list_elem_of_further, Hin.
  - apply Is_true_true, other_than_true. intros ->. apply Hnot. apply list_elem_of_here.
Qed.

(** A DELETE with the note's token answers 200; afterwards the note has no
    record, its id is nowhere in the index, the other index entries keep
    their order, and no other record has changed.  The same DELETE again
    is answered 200 and changes nothing more. *)
Theorem delete_removes_note (e e' : env) (req : request) (st : store) (id token : string) :
  method req = "DELETE" ->
  read_string (readJson req) "id" = Return id ->
  read_string (readJson req) "token" = Return token ->
  id ≠ "" -> token ≠ "" ->
  JS.prop (note_record st id) "editToken" = Some (JStr token) ->
  let st' := (handler e req st).2 in
  (handler e req st).1 = Return (json (JObj [("ok", JBool true)]) 200)
  /\ st' !! note_key id = None
  /\ index_of st' = filter (fun x => other_than id x) (index_of st)
  /\ (JStr id ∉ index_of st')
  /\ (forall key, key ≠ note_key id -> key ≠ INDEX_KEY -> st' !! key = st !! key)
  /\ handler e' req st' = (Return (json (JObj [("ok", JBool true)]) 200), st').
Proof.
  intros Hm Hid Htok Hi Ht Hright st'. subst st'.
  rewrite !(NotesFacts.handler_DELETE _ _ Hm), !NotesFacts.handler_delete_eq, Hid, Htok.
  rewrite (bool_decide_eq_false_2 _ Hi), (bool_decide_eq_false_2 _ Ht).
  destruct (NotesFacts.has_editToken_object _ _ Hright) as [fs Hfs].
  apply NotesFacts.strict_ne_str_false in Hright. rewrite Hright, Hfs. cbn [orb negb JS.truthy snd fst].
  assert (Hgone : note_record
            (<[INDEX_KEY := JArr (filter (fun x => other_than id x) (index_of st))]>
               (delete (note_key id) st)) id = JNull).
  { rewrite NotesFacts.note_record_insert_index. unfold note_record.
    rewrite lookup_delete_eq. reflexivity. }
  rewrite Hgone. cbn [orb negb JS.truthy].
  split; [reflexivity|].
  split.
  { rewrite lookup_insert_ne by (intros Heq; symmetry in Heq;
                                 exact (NotesFacts.note_key_ne_index _ Heq)).
    apply lookup_delete_eq. }
  split; [apply NotesFacts.index_of_insert_index|].
  split; [rewrite NotesFacts.index_of_insert_index; apply not_in_filter_other|].
  split; [|reflexivity].
  intros key Hk1 Hk2. rewrite lookup_insert_ne by congruence.
  apply lookup_delete_ne. congruence.
Qed.

Lemma delete_removes_note_witness :
  let st' := (handler Sample.env2 (Sample.delete "u-1" "tok1") Sample2.store2).2 in
  st' !! note_key "u-1" = None
  /\ index_of st' = [JStr "u-2"]
  /\ handler Sample.env1 (Sample.delete "u-1" "tok1") st'
     = (Return (json (JObj [("ok", JBool true)]) 200), st').
Proof.
  intros st'.
  destruct (delete_removes_note Sample.env2 Sample.env1 (Sample.delete "u-1" "tok1")
              Sample2.store2 "u-1" "tok1")
    as (_ & Hnone & Hidx & _ & _ & Hagain).
  - reflexivity.
  - reflexivity.
  - reflexivity.
  - discriminate.
  - discriminate.
  - vm_compute. reflexivity.
  - split; [exact Hnone|]. split; [|exact Hagain].
    fold st' in Hidx. rewrite Hidx. vm_compute. reflexivity.
Defined.

(** *** Update *)

(** A PUT that names an id without a record is answered 404 and writes
    nothing. *)
Theorem update_missing_note (e : env) (req : request) (st : store) (id token : string) :
  method req = "PUT" ->
  read_string (readJson req) "id" = Return id ->
  read_string (readJson req) "token" = Return token ->
  id ≠ "" -> token ≠ "" ->
  JS.truthy (note_record st id) = false ->
  handler e req st = (Return (json (error "Note not found.") 404), st).
Proof.
  intros Hm Hid Htok Hi Ht Hnone.
  rewrite (NotesFacts.handler_PUT _ _ Hm), NotesFacts.handler_update_eq, Hid, Htok.
  rewrite (bool_decide_eq_false_2 _ Hi), (bool_decide_eq_false_2 _ Ht), Hnone.
  reflexivity.
Qed.

Lemma update_missing_note_witness :
  handler Sample.env2 (Sample.put "u-9" "tok9" "x") Sample.store1
  = (Return (json (error "Note not found.") 404), Sample.store1).
Proof.
  apply (update_missing_note Sample.env2 (Sample.put "u-9" "tok9" "x") Sample.store1
           "u-9" "tok9").
  - reflexivity.
  - reflexivity.
  - reflexivity.
  - discriminate.
  - discriminate.
  - vm_compute. reflexivity.
Defined.

(** *** Create *)

Lemma check_fields_passes (content : string) (img : option string) :
  check_fields content img = None <-> acceptable content img.
Proof.
  unfold check_fields, acceptable, MAX_CONTENT_CHARS, MAX_IMAGE_DATAURL_CHARS.
  split.
  - intros H.
    destruct (bool_decide_reflect (content = "")) as [Hc|Hc];
      destruct (image_truthy img) eqn:Hi; simpl in H; try discriminate.
    + destruct (JS.length content >? 2000) eqn:H2; [discriminate|].
      destruct (JS.length (default "" img) >? 350000) eqn:H3; [discriminate|].
      rewrite Z.gtb_ltb, Z.ltb_ge in H2, H3.
      split; [auto|]. split; [exact H2|]. intros s ->. exact H3.
    + destruct (JS.length content >? 2000) eqn:H2; [discriminate|].
      destruct (JS.length (default "" img) >? 350000) eqn:H3; [discriminate|].
      rewrite Z.gtb_ltb, Z.ltb_ge in H2, H3.
      split; [auto|]. split; [exact H2|]. intros s ->. exact H3.
    + destruct (JS.length content >? 2000) eqn:H2; [discriminate|].
      rewrite Z.gtb_ltb, Z.ltb_ge in H2.
      split; [auto|]. split; [exact H2|]. intros s ->.
      simpl in Hi. apply negb_false_iff, bool_decide_eq_true_1 in Hi. subst s.
      unfold JS.length. simpl. lia.
  - intros (Hne & Hlen & Himg).
    assert (H1 : bool_decide (content = "") && negb (image_truthy img) = false).
    { destruct Hne as [Hc|Hi].
      - rewrite (bool_decide_eq_false_2 _ Hc). reflexivity.
      - rewrite Hi. apply andb_false_r. }
    rewrite H1.
    assert (H2 : (JS.length content >? 2000) = false)
      by (rewrite Z.gtb_ltb; apply Z.ltb_ge; exact Hlen).
    rewrite H2.
    destruct img as [s|]; simpl; [|reflexivity].
    specialize (Himg s eq_refl).
    assert (H3 : (JS.length s >? 350000) = false)
      by (rewrite Z.gtb_ltb; apply Z.ltb_ge; exact Himg).
    rewrite H3, andb_false_r. reflexivity.
Qed.

Lemma new_note_shape (id content : string) (img : option string) (t : Z) (token : string) :
  new_note id content img t token = note_shape id content img t t token.
Proof. reflexivity. Qed.

Lemma cleanNote_shape (id content : string) (img : option string) (c u : Z) (token : string) :
  cleanNote (note_shape id content img c u token) = public_shape id content img c u.
Proof. reflexivity. Qed.

Lemma updated_note_shape (id content : string) (img : option string) (c u : Z)
    (token content' : string) (img' : option string) (t : Z) :
  updated_note (note_shape id content img c u token) content' img' t
  = note_shape id content' img' c t token.
Proof. reflexivity. Qed.

Lemma handler_create_accepted (e : env) (req : request) (st : store)
    (content : string) (img : option string) :
  method req = "POST" ->
  read_content (readJson req) = Return content ->
  read_image (readJson req) = Return img ->
  acceptable content img ->
  handler e req st
  = (Return (json (JObj [("ok", JBool true);
                         ("note", public_shape (randomUUID e) content img (now e) (now e));
                         ("token", JStr (randomHex e))]) 200),
     <[INDEX_KEY := JArr (new_index (randomUUID e) (index_of st))]>
       (<[note_key (randomUUID e)
          := note_shape (randomUUID e) content img (now e) (now e) (randomHex e)]> st)).
Proof.
  intros Hm Hc Hi Hok.
  rewrite (NotesFacts.handler_POST _ _ Hm), NotesFacts.handler_create_eq, Hc, Hi.
  apply check_fields_passes in Hok. rewrite Hok. reflexivity.
Qed.

(** A POST is accepted exactly when its normalised fields are acceptable
    (some content or image; content of at most 2000 characters, 2000
    included; image of at most 350000).  Accepted, it stores the note with
    a fresh token and equal creation and update times, and puts its id at
    the head of the index; refused, it is answered 400 and writes
    nothing. *)
Theorem create_accepts_exactly (e : env) (req : request) (st : store)
    (content : string) (img : option string) :
  method req = "POST" ->
  read_content (readJson req) = Return content ->
  read_image (readJson req) = Return img ->
  (acceptable content img ->
   handler e req st
   = (Return (json (JObj [("ok", JBool true);
                          ("note", public_shape (randomUUID e) content img (now e) (now e));
                          ("token", JStr (randomHex e))]) 200),
      <[INDEX_KEY := JArr (new_index (randomUUID e) (index_of st))]>
        (<[note_key (randomUUID e)
           := note_shape (randomUUID e) content img (now e) (now e) (randomHex e)]> st)))
  /\ (~ acceptable content img ->
      exists msg, handler e req st = (Return (json (error msg) 400), st)).
Proof.
  intros Hm Hc Hi.
  rewrite (NotesFacts.handler_POST _ _ Hm), NotesFacts.handler_create_eq, Hc, Hi.
  split.
  - intros Hok. apply check_fields_passes in Hok. rewrite Hok. reflexivity.
  - intros Hbad. destruct (check_fields content img) as [failure|] eqn:Hf.
    + apply NotesFacts.check_fields_status in Hf as [msg ->]. eauto.
    + exfalso. apply Hbad, check_fields_passes, Hf.
Qed.

Lemma create_accepts_exactly_witness :
  (handler Sample.env1 (Sample2.post Sample2.content2000) ∅).1
  = Return (json (JObj [("ok", JBool true);
                        ("note", public_shape "u-1" Sample2.content2000 None 1000 1000);
                        ("token", JStr "tok1")]) 200)
  /\ exists msg, handler Sample.env1 (Sample2.post Sample2.content2001) ∅
                 = (Return (json (error msg) 400), ∅).
Proof.
  split.
  - destruct (create_accepts_exactly Sample.env1 (Sample2.post Sample2.content2000) ∅
                Sample2.content2000 None) as [Hyes _].
    + reflexivity.
    + vm_compute. reflexivity.
    + reflexivity.
    + rewrite Hyes; [reflexivity|].
      split; [left; vm_compute; discriminate|].
      split; [vm_compute; discriminate|]. intros s Hs. discriminate Hs.
  - destruct (create_accepts_exactly Sample.env1 (Sample2.post Sample2.content2001) ∅
                Sample2.content2001 None) as [_ Hno].
    + reflexivity.
    + vm_compute. reflexivity.
    + reflexivity.
    + apply Hno. intros (_ & Hlen & _). vm_compute in Hlen. apply Hlen. reflexivity.
Defined.

(** The id and the token that a create returns authorise the update of the
    note it stored: the PUT that carries them with acceptable fields is
    answered 200, keeps the creation time and the token, and stores the new
    fields with the time of the update. *)
Theorem created_token_updates (e1 e2 : env) (req1 req2 : request) (st st1 : store)
    (r1 : response) (content : string) (img : option string) :
  method req1 = "POST" ->
  handler e1 req1 st = (Return r1, st1) ->
  status r1 = 200 ->
  randomUUID e1 ≠ "" ->
  randomHex e1 ≠ "" ->
  method req2 = "PUT" ->
  read_string (readJson req2) "id" = Return (randomUUID e1) ->
  read_string (readJson req2) "token" = Return (randomHex e1) ->
  read_content (readJson req2) = Return content ->
  read_image (readJson req2) = Return img ->
  acceptable content img ->
  handler e2 req2 st1
  = (Return (json (JObj [("ok", JBool true);
                         ("note", public_shape (randomUUID e1) content img (now e1) (now e2))])
               200),
     <[note_key (randomUUID e1)
       := note_shape (randomUUID e1) content img (now e1) (now e2) (randomHex e1)]> st1).
Proof.
  intros Hm1 H1 Hs1 Hu Hh Hm2 Hid Htok Hc Hi Hok.
  rewrite (NotesFacts.handler_POST _ _ Hm1), NotesFacts.handler_create_eq in H1.
  destruct (read_content (readJson req1)) as [c1|msg]; [|discriminate].
  destruct (read_image (readJson req1)) as [i1|msg]; [|discriminate].
  destruct (check_fields c1 i1) as [failure|] eqn:Hf.
  { inversion H1; subst. apply NotesFacts.check_fields_status in Hf as [msg ->]. discriminate. }
  inversion H1; subst r1 st1. clear H1.
  rewrite (NotesFacts.handler_PUT _ _ Hm2), NotesFacts.handler_update_eq, Hid, Htok.
  rewrite (bool_decide_eq_false_2 _ Hu), (bool_decide_eq_false_2 _ Hh).
  rewrite NotesFacts.note_record_insert_index, NotesFacts.note_record_insert.
  rewrite new_note_shape.
  set (N := note_shape (randomUUID e1) c1 i1 (now e1) (now e1) (randomHex e1)).
  assert (Htruthy : JS.truthy N = true) by reflexivity.
  assert (Hsame : JS.strict_ne_str (JS.prop N "editToken") (randomHex e1) = false)
    by (apply NotesFacts.strict_ne_str_false; reflexivity).
  rewrite Htruthy, Hsame, Hc, Hi.
  apply check_fields_passes in Hok. rewrite Hok. reflexivity.
Qed.

Lemma created_token_updates_witness :
  handler Sample.env2 (Sample.put "u-1" "tok1" "bye") Sample.store1
  = (Return (json (JObj [("ok", JBool true);
                         ("note", public_shape "u-1" "bye" None 1000 2000)]) 200),
     <[note_key "u-1" := note_shape "u-1" "bye" None 1000 2000 "tok1"]> Sample.store1).
Proof.
  apply (created_token_updates Sample.env1 Sample.env2 Sample.post_hi
           (Sample.put "u-1" "tok1" "bye") ∅ Sample.store1 Sample.created1 "bye" None).
  - reflexivity.
  - vm_compute. reflexivity.
  - reflexivity.
  - discriminate.
  - discriminate.
  - reflexivity.
  - reflexivity.
  - reflexivity.
  - reflexivity.
  - reflexivity.
  - split; [left; discriminate|]. split; [vm_compute; discriminate|].
    intros s Hs. discriminate Hs.
Defined.

(** A create under a fresh id, on an index of fewer than 500 ids, undone by
    the DELETE that carries the returned id and token, gives back every
    note record as it was, and leaves an index record that holds the ids
    the index stood for before.  The store is then exactly as it was when
    its index record was an array; on a store without an index record, the
    empty store among them, an index record with the empty array is left
    behind. *)
Theorem create_then_delete_restores (e1 e2 : env) (req1 req2 : request) (st st1 : store)
    (r1 : response) :
  method req1 = "POST" ->
  handler e1 req1 st = (Return r1, st1) ->
  status r1 = 200 ->
  randomUUID e1 ≠ "" ->
  randomHex e1 ≠ "" ->
  st !! note_key (randomUUID e1) = None ->
  JStr (randomUUID e1) ∉ index_of st ->
  (List.length (index_of st) < 500)%nat ->
  method req2 = "DELETE" ->
  read_string (readJson req2) "id" = Return (randomUUID e1) ->
  read_string (readJson req2) "token" = Return (randomHex e1) ->
  let st2 := <[INDEX_KEY := JArr (index_of st)]> st in
  handler e2 req2 st1 = (Return (json (JObj [("ok", JBool true)]) 200), st2)
  /\ (forall key, key ≠ INDEX_KEY -> st2 !! key = st !! key)
  /\ (forall ids, st !! INDEX_KEY = Some (JArr ids) -> st2 = st)
  /\ (st !! INDEX_KEY = None -> st2 = <[INDEX_KEY := JArr []]> st /\ st2 ≠ st).
Proof.
  intros Hm1 H1 Hs1 Hu Hh Hfresh Hnot Hlen Hm2 Hid Htok st2. subst st2.
  split; [|split; [|split]].
  - rewrite (NotesFacts.handler_POST _ _ Hm1), NotesFacts.handler_create_eq in H1.
    destruct (read_content (readJson req1)) as [c1|msg]; [|discriminate].
    destruct (read_image (readJson req1)) as [i1|msg]; [|discriminate].
    destruct (check_fields c1 i1) as [failure|] eqn:Hf.
    { inversion H1; subst. apply NotesFacts.check_fields_status in Hf as [msg ->].
      discriminate. }
    inversion H1; subst r1 st1. clear H1.
    assert (Hnew : new_index (randomUUID e1) (index_of st)
                   = JStr (randomUUID e1) :: index_of st).
    { unfold new_index. rewrite (filter_other_absent _ _ Hnot).
      apply take_ge. simpl. unfold MAX_NOTES. lia. }
    rewrite (NotesFacts.handler_DELETE _ _ Hm2), NotesFacts.handler_delete_eq, Hid, Htok.
    rewrite (bool_decide_eq_false_2 _ Hu), (bool_decide_eq_false_2 _ Hh).
    rewrite NotesFacts.note_record_insert_index, NotesFacts.note_record_insert.
    rewrite new_note_shape.
    set (N := note_shape (randomUUID e1) c1 i1 (now e1) (now e1) (randomHex e1)).
    assert (Htruthy : JS.truthy N = true) by reflexivity.
    assert (Hsame : JS.strict_ne_str (JS.prop N "editToken") (randomHex e1) = false)
      by (apply NotesFacts.strict_ne_str_false; reflexivity).
    rewrite Htruthy, Hsame. cbn [orb negb].
    rewrite NotesFacts.index_of_insert_index, Hnew.
    rewrite filter_cons_False
      by (rewrite NotesFacts.other_than_self; exact (fun H => H)).
    rewrite (filter_other_absent _ _ Hnot).
    f_equal.
    rewrite delete_insert_ne by apply NotesFacts.note_key_ne_index.
    rewrite (delete_insert_id _ _ _ Hfresh), insert_insert_eq.
    reflexivity.
  - intros key Hkey. apply lookup_insert_ne. congruence.
  - intros ids Hidx. unfold index_of. rewrite Hidx. apply insert_id, Hidx.
  - intros Hnone. unfold index_of. rewrite Hnone. split; [reflexivity|].
    intros Heq. apply (f_equal (fun m => m !! INDEX_KEY)) in Heq.
    rewrite lookup_insert_eq, Hnone in Heq. discriminate Heq.
Qed.

Lemma create_then_delete_restores_witness :
  handler Sample.env1 (Sample.delete "u-2" "tok2") Sample2.store2
  = (Return (json (JObj [("ok", JBool true)]) 200), Sample.store1)
  /\ handler Sample.env2 (Sample.delete "u-1" "tok1") Sample.store1
     = (Return (json (JObj [("ok", JBool true)]) 200), <[INDEX_KEY := JArr []]> ∅).
Proof.
  split.
  - destruct (create_then_delete_restores Sample.env2 Sample.env1 Sample.post_hi
                (Sample.delete "u-2" "tok2") Sample.store1 Sample2.store2
                (json (JObj [("ok", JBool true);
                             ("note", public_shape "u-2" "hi" None 2000 2000);
                             ("token", JStr "tok2")]) 200))
      as (Hh & _ & Hsame & _).
    + reflexivity.
    + vm_compute. reflexivity.
    + reflexivity.
    + discriminate.
    + discriminate.
    + vm_compute. reflexivity.
    + vm_compute. intros Hin. apply list_elem_of_singleton in Hin. discriminate Hin.
    + vm_compute. lia.
    + reflexivity.
    + reflexivity.
    + reflexivity.
    + rewrite Hh. f_equal; apply (Hsame [JStr "u-1"]); vm_compute; reflexivity.
  - destruct (create_then_delete_restores Sample.env1 Sample.env2 Sample.post_hi
                (Sample.delete "u-1" "tok1") ∅ Sample.store1 Sample.created1)
      as (Hh & _ & _ & Hempty).
    + reflexivity.
    + vm_compute. reflexivity.
    + reflexivity.
    + discriminate.
    + discriminate.
    + reflexivity.
    + vm_compute. intros Hin. apply elem_of_nil in Hin. exact Hin.
    + vm_compute. lia.
    + reflexivity.
    + reflexivity.
    + reflexivity.
    + rewrite Hh. f_equal; apply Hempty; reflexivity.
Defined.

(** *** What an update stores *)

(** A successful update stores the normalised new content and image, which
    are acceptable; it answers the stored record without its editToken;
    the index is as before: an update does not move the note up the
    list. *)
Theorem update_stores_fields (e : env) (req : request) (st st' : store)
    (r : response) (id : string) :
  method req = "PUT" ->
  handler e req st = (Return r, st') ->
  status r = 200 ->
  read_string (readJson req) "id" = Return id ->
  exists content img,
    read_content (readJson req) = Return content
    /\ read_image (readJson req) = Return img
    /\ acceptable content img
    /\ JS.prop (note_record st' id) "content" = Some (JStr content)
    /\ JS.prop (note_record st' id) "imageDataUrl" = Some (image_json img)
    /\ note_views r = [cleanNote (note_record st' id)]
    /\ index_of st' = index_of st.
Proof.
  intros Hm H Hs Hid.
  rewrite (NotesFacts.handler_PUT _ _ Hm) in H.
  destruct (NotesFacts.update_success_inv _ _ _ _ _ H Hs)
    as (id' & token & content & img & fs & Hid' & _ & _ & _ & Hrec & _ & Hc & Hi & Hok
        & -> & ->).
  rewrite Hid in Hid'. injection Hid' as <-.
  exists content, img.
  rewrite NotesFacts.note_record_insert, NotesFacts.index_of_insert_note,
    !NotesFacts.prop_updated_note.
  repeat split; try assumption; try reflexivity.
  - apply check_fields_passes in Hok. apply Hok.
  - apply check_fields_passes in Hok. apply Hok.
  - apply check_fields_passes in Hok. apply Hok.
Qed.

Lemma update_stores_fields_witness :
  exists content img,
    read_content (readJson (Sample.put "u-1" "tok1" " bye ")) = Return content
    /\ read_image (readJson (Sample.put "u-1" "tok1" " bye ")) = Return img
    /\ acceptable content img
    /\ JS.prop (note_record
                  (<[note_key "u-1" := note_shape "u-1" "bye" None 1000 2000 "tok1"]>
                     Sample.store1) "u-1") "content" = Some (JStr content)
    /\ JS.prop (note_record
                  (<[note_key "u-1" := note_shape "u-1" "bye" None 1000 2000 "tok1"]>
                     Sample.store1) "u-1") "imageDataUrl" = Some (image_json img)
    /\ note_views (json (JObj [("ok", JBool true);
                               ("note", public_shape "u-1" "bye" None 1000 2000)]) 200)
       = [cleanNote (note_record
                       (<[note_key "u-1" := note_shape "u-1" "bye" None 1000 2000 "tok1"]>
                          Sample.store1) "u-1")]
    /\ index_of (<[note_key "u-1" := note_shape "u-1" "bye" None 1000 2000 "tok1"]>
                   Sample.store1) = index_of Sample.store1.
Proof.
  apply (update_stores_fields Sample.env2 (Sample.put "u-1" "tok1" " bye ") Sample.store1).
  - reflexivity.
  - vm_compute. reflexivity.
  - reflexivity.
  - reflexivity.
Defined.

(** *** The sanitised view *)

(** [cleanNote] removes the editToken and nothing else: every other field
    of an object reads as before, and cleaning a cleaned value changes
    nothing. *)
Theorem cleanNote_drops_only_editToken (v : jvalue) (fs : list (string * jvalue))
    (k : string) :
  k ≠ "editToken" ->
  JS.prop (cleanNote (JObj fs)) k = JS.prop (JObj fs) k
  /\ JS.prop (cleanNote (JObj fs)) "editToken" = None
  /\ cleanNote (cleanNote v) = cleanNote v.
Proof.
  intros Hk. split; [|split].
  - rewrite NotesFacts.cleanNote_object. simpl.
    induction fs as [|[k0 v0] fs IH]; [reflexivity|].
    destruct (decide (k0 = "editToken")) as [->|Hne].
    + rewrite filter_cons_False by (simpl; auto). simpl.
      rewrite bool_decide_eq_false_2 by congruence. exact IH.
    + rewrite filter_cons_True by (simpl; auto). simpl.
      destruct (bool_decide (k0 = k)); [reflexivity|exact IH].
  - rewrite NotesFacts.cleanNote_object. simpl.
    induction fs as [|[k0 v0] fs IH]; [reflexivity|].
    destruct (decide (k0 = "editToken")) as [->|Hne].
    + rewrite filter_cons_False by (simpl; auto). exact IH.
    + rewrite filter_cons_True by (simpl; auto). simpl.
      rewrite bool_decide_eq_false_2 by exact Hne. exact IH.
  - unfold cleanNote at 2 3.
    destruct (negb (JS.truthy v) || negb (JS.typeof_object v)); [reflexivity|].
    rewrite NotesFacts.cleanNote_object. f_equal.
    apply list_filter_filter_l. auto.
Qed.

Lemma cleanNote_drops_only_editToken_witness :
  JS.prop (cleanNote (JObj [("id", JStr "a"); ("editToken", JStr "t")])) "id"
  = JS.prop (JObj [("id", JStr "a"); ("editToken", JStr "t")]) "id"
  /\ JS.prop (cleanNote (JObj [("id", JStr "a"); ("editToken", JStr "t")])) "editToken" = None
  /\ cleanNote (cleanNote (JArr [JNum 1])) = cleanNote (JArr [JNum 1]).
Proof.
  apply (cleanNote_drops_only_editToken (JArr [JNum 1])
           [("id", JStr "a"); ("editToken", JStr "t")] "id").
  discriminate.
Defined.

(** *** The state the function keeps *)

(** The four things a request can do to the store. *)
Lemma handler_effect (e : env) (req : request) (st : store) :
  (handler e req st).2 = st
  \/ (exists content img,
        acceptable content img
        /\ (handler e req st).2
           = <[INDEX_KEY := JArr (new_index (randomUUID e) (index_of st))]>
               (<[note_key (randomUUID e)
                  := note_shape (randomUUID e) content img (now e) (now e) (randomHex e)]> st))
  \/ (exists id fs content img,
        note_record st id = JObj fs
        /\ acceptable content img
        /\ (handler e req st).2
           = <[note_key id := updated_note (JObj fs) content img (now e)]> st)
  \/ (exists id,
        (handler e req st).2
        = <[INDEX_KEY := JArr (filter (fun x => other_than id x) (index_of st))]>
            (delete (note_key id) st)).
Proof.
  destruct (NotesFacts.handler_cases e req)
    as [[Hm Hd]|[[Hm Hd]|[[Hm Hd]|[[Hm Hd]|[[Hm Hd]|(_ & _ & _ & _ & Hd)]]]]];
    rewrite Hd; clear Hd.
  - left. reflexivity.
  - left. apply NotesFacts.handler_list_state.
  - rewrite NotesFacts.handler_create_eq.
    destruct (read_content (readJson req)) as [content|msg]; [|left; reflexivity].
    destruct (read_image (readJson req)) as [img|msg]; [|left; reflexivity].
    destruct (check_fields content img) as [failure|] eqn:Hf; [left; reflexivity|].
    right. left. exists content, img. split; [apply check_fields_passes, Hf|reflexivity].
  - destruct (handler_update e req st) as [[r|msg] st'] eqn:H.
    + destruct (decide (status r = 200)) as [Hs|Hs].
      * destruct (NotesFacts.update_success_inv _ _ _ _ _ H Hs)
          as (id & token & content & img & fs & _ & _ & _ & _ & Hrec & _ & _ & _ & Hok
              & -> & _).
        right. right. left. exists id, fs, content, img.
        split; [exact Hrec|]. split; [apply check_fields_passes, Hok|reflexivity].
      * left. destruct (handler_writes_on_200 e req st) as [Hsame|(r' & Hr & Hs' & _)].
        -- rewrite (NotesFacts.handler_PUT _ _ Hm), H in Hsame. exact Hsame.
        -- rewrite (NotesFacts.handler_PUT _ _ Hm), H in Hr. simpl in Hr.
           injection Hr as <-. contradiction.
    + left. destruct (handler_writes_on_200 e req st) as [Hsame|(r' & Hr & _)].
      * rewrite (NotesFacts.handler_PUT _ _ Hm), H in Hsame. exact Hsame.
      * rewrite (NotesFacts.handler_PUT _ _ Hm), H in Hr. discriminate.
  - rewrite NotesFacts.handler_delete_eq.
    repeat match goal with
           | |- context [match ?c with _ => _ end] => destruct c
           end; try (left; reflexivity).
    right. right. right. eexists. reflexivity.
  - left. reflexivity.
Qed.

Lemma note_shape_inj id content img c u t id' content' img' c' u' t' :
  note_shape id content img c u t = note_shape id' content' img' c' u' t' ->
  id = id' /\ content = content' /\ c = c' /\ u = u' /\ t = t'.
Proof. unfold note_shape. intros H. injection H. auto. Qed.

Lemma note_record_Some (st : store) (id : string) (fs : list (string * jvalue)) :
  note_record st id = JObj fs -> st !! note_key id = Some (JObj fs).
Proof.
  unfold note_record. destruct (st !! note_key id) as [v|]; simpl; [|discriminate].
  intros ->. reflexivity.
Qed.

Lemma kept_empty : kept ∅.
Proof.
  unfold kept. split; [|split; [|split]].
  - intros key v H. rewrite lookup_empty in H. discriminate.
  - intros x Hx. unfold index_of in Hx. rewrite lookup_empty in Hx.
    apply elem_of_nil in Hx. contradiction.
  - unfold index_of. rewrite lookup_empty. constructor.
  - unfold index_of. rewrite lookup_empty. simpl. lia.
Qed.

(** Every request keeps the store in that state. *)
Lemma kept_step (e : env) (req : request) (st : store) :
  kept st -> kept (handler e req st).2.
Proof.
  intros (Hrec & Hidx & Hnd & Hlen).
  destruct (handler_effect e req st)
    as [->|[(content & img & Hok & ->)|[(id & fs & content & img & Hfs & Hok & ->)|[id ->]]]].
  - repeat split; assumption.
  - (* create *)
    split; [|split; [|split]].
    + intros key v Hkv.
      destruct (decide (key = INDEX_KEY)) as [->|Hk1].
      { rewrite lookup_insert_eq in Hkv. injection Hkv as <-. left. eauto. }
      rewrite lookup_insert_ne in Hkv by congruence.
      destruct (decide (key = note_key (randomUUID e))) as [->|Hk2].
      { rewrite lookup_insert_eq in Hkv. injection Hkv as <-. right.
        exists (randomUUID e), content, img, (now e), (now e), (randomHex e). auto. }
      rewrite lookup_insert_ne in Hkv by congruence. eauto.
    + intros x Hx. rewrite NotesFacts.index_of_insert_index in Hx.
      unfold new_index in Hx. apply elem_of_take in Hx as (i & Hx & _).
      apply list_elem_of_lookup_2 in Hx. apply elem_of_cons in Hx as [->|Hx].
      * exists (randomUUID e). split; [reflexivity|].
        rewrite lookup_insert_ne by apply not_eq_sym, NotesFacts.note_key_ne_index.
        rewrite lookup_insert_eq. eauto.
      * apply list_elem_of_filter in Hx as [_ Hx].
        destruct (Hidx x Hx) as (id & -> & Hsome). exists id. split; [reflexivity|].
        rewrite lookup_insert_ne by apply not_eq_sym, NotesFacts.note_key_ne_index.
        destruct (decide (note_key (randomUUID e) = note_key id)) as [->|Hne].
        -- rewrite lookup_insert_eq. eauto.
        -- rewrite lookup_insert_ne by exact Hne. exact Hsome.
    + rewrite NotesFacts.index_of_insert_index. apply NotesFacts.new_index_NoDup, Hnd.
    + rewrite NotesFacts.index_of_insert_index. apply NotesFacts.new_index_length.
  - (* update *)
    apply note_record_Some in Hfs.
    destruct (Hrec _ _ Hfs) as [[Habs _]|(id' & c0 & i0 & cr & up & tok & Hkey & Hv & _)].
    { exfalso. exact (NotesFacts.note_key_ne_index _ Habs). }
    apply NotesFacts.note_key_inj in Hkey. subst id'. rewrite Hv.
    rewrite updated_note_shape.
    split; [|split; [|split]].
    + intros key v Hkv.
      destruct (decide (key = note_key id)) as [->|Hk].
      { rewrite lookup_insert_eq in Hkv. injection Hkv as <-. right.
        exists id, content, img, cr, (now e), tok. auto. }
      rewrite lookup_insert_ne in Hkv by congruence. eauto.
    + intros x Hx. rewrite NotesFacts.index_of_insert_note in Hx.
      destruct (Hidx x Hx) as (id' & -> & Hsome). exists id'. split; [reflexivity|].
      destruct (decide (note_key id = note_key id')) as [->|Hne].
      * rewrite lookup_insert_eq. eauto.
      * rewrite lookup_insert_ne by exact Hne. exact Hsome.
    + rewrite NotesFacts.index_of_insert_note. exact Hnd.
    + rewrite NotesFacts.index_of_insert_note. exact Hlen.
  - (* delete *)
    split; [|split; [|split]].
    + intros key v Hkv.
      destruct (decide (key = INDEX_KEY)) as [->|Hk1].
      { rewrite lookup_insert_eq in Hkv. injection Hkv as <-. left. eauto. }
      rewrite lookup_insert_ne in Hkv by congruence.
      destruct (decide (key = note_key id)) as [->|Hk2].
      { rewrite lookup_delete_eq in Hkv. discriminate. }
      rewrite lookup_delete_ne in Hkv by congruence. eauto.
    + intros x Hx. rewrite NotesFacts.index_of_insert_index in Hx.
      apply list_elem_of_filter in Hx as [Hne Hx].
      destruct (Hidx x Hx) as (id' & -> & Hsome). exists id'. split; [reflexivity|].
      rewrite lookup_insert_ne by apply not_eq_sym, NotesFacts.note_key_ne_index.
      rewrite lookup_delete_ne; [exact Hsome|].
      intros Heq. apply NotesFacts.note_key_inj in Heq. subst id'.
      rewrite NotesFacts.other_than_self in Hne. exact Hne.
    + rewrite NotesFacts.index_of_insert_index. apply NoDup_filter, Hnd.
    + rewrite NotesFacts.index_of_insert_index.
      etransitivity; [apply length_filter|exact Hlen].
Qed.

Lemma kept_run (history : list (env * request)) (st : store) :
  kept st -> kept (run history st).
Proof.
  revert st. induction history as [|[e req] history IH]; intros st Hst.
  - exact Hst.
  - simpl. apply IH, kept_step, Hst.
Qed.

Lemma filter_all {A : Type} (P : A -> Prop) `{!forall x, Decision (P x)} (l : list A) :
  Forall P l -> filter P l = l.
Proof.
  induction 1 as [|x l Hx _ IH]; [reflexivity|].
  rewrite filter_cons_True by exact Hx. f_equal. exact IH.
Qed.

Lemma kept_record (st : store) (x : jvalue) :
  kept st -> x ∈ index_of st ->
  exists id content img created updated token,
    x = JStr id
    /\ note_record st id = note_shape id content img created updated token.
Proof.
  intros (Hrec & Hidx & _) Hx.
  destruct (Hidx x Hx) as (id & -> & [v Hv]).
  destruct (Hrec _ _ Hv) as [[Habs _]|(id' & c & i & cr & up & tok & Hkey & -> & _)].
  { exfalso. exact (NotesFacts.note_key_ne_index _ Habs). }
  apply NotesFacts.note_key_inj in Hkey. subst id'.
  exists id, c, i, cr, up, tok. split; [reflexivity|].
  unfold note_record. rewrite Hv. reflexivity.
Qed.

(** Whatever requests were served since the store was empty, every record
    other than the index is a note of exactly the six fields, stored under
    its own id, with some content or image within the bounds. *)
Theorem stored_notes_are_well_formed (history : list (env * request)) (key : string)
    (v : jvalue) :
  run history ∅ !! key = Some v ->
  (key = INDEX_KEY /\ exists ids, v = JArr ids)
  \/ (exists id content img created updated token,
        key = note_key id
        /\ v = note_shape id content img created updated token
        /\ acceptable content img).
Proof.
  intros H. destruct (kept_run history ∅ kept_empty) as (Hrec & _). exact (Hrec _ _ H).
Qed.

Lemma stored_notes_are_well_formed_witness :
  (note_key "u-1" = INDEX_KEY /\ exists ids, note_shape "u-1" "hi" None 1000 1000 "tok1" = JArr ids)
  \/ (exists id content img created updated token,
        note_key "u-1" = note_key id
        /\ note_shape "u-1" "hi" None 1000 1000 "tok1"
           = note_shape id content img created updated token
        /\ acceptable content img).
Proof.
  apply (stored_notes_are_well_formed [(Sample.env1, Sample.post_hi)]).
  vm_compute. reflexivity.
Defined.

(** When the requests since the store was empty were served one at a time,
    none of them overlapping another, every entry of the index is the id
    of a stored note, and LIST does not throw: it answers the first 50
    notes of the index, none left out, each under the id of its entry and
    without editToken.  (Requests that overlap can interleave their writes
    of a note and of the index; their histories are not covered.) *)
Theorem list_after_any_history (history : list (env * request)) (e : env) (req : request) :
  method req = "GET" ->
  let st := run history ∅ in
  handler e req st = (Return (json (JArr (listing st)) 200), st)
  /\ List.length (listing st) = Nat.min 50 (List.length (index_of st))
  /\ (forall i x, take LIST_LIMIT (index_of st) !! i = Some x ->
        exists id content img created updated,
          x = JStr id
          /\ listing st !! i = Some (public_shape id content img created updated)).
Proof.
  intros Hm st.
  assert (Hk : kept st) by apply kept_run, kept_empty.
  assert (Hstr : Forall (fun x => is_str x = true) (index_of st)).
  { apply Forall_forall. intros x Hx.
    destruct (kept_record st x Hk Hx) as (id & _ & _ & _ & _ & _ & -> & _). reflexivity. }
  assert (Hall : listing st
                 = map (fun x => cleanNote (note_record st (id_of x)))
                     (take LIST_LIMIT (index_of st))).
  { unfold listing. apply filter_all. apply Forall_forall. intros n Hn.
    apply list_elem_of_fmap in Hn as (x & -> & Hx).
    apply elem_of_take in Hx as (i & Hx & _). apply list_elem_of_lookup_2 in Hx.
    destruct (kept_record st x Hk Hx) as (id & c & im & cr & up & tok & -> & Hr).
    simpl. rewrite Hr. exact I. }
  split; [apply handler_list_strings; assumption|].
  split.
  - rewrite Hall, length_map, length_take. reflexivity.
  - intros i x Hx. pose proof Hx as Hin. apply list_elem_of_lookup_2 in Hin.
    apply elem_of_take in Hin as (j & Hin & _). apply list_elem_of_lookup_2 in Hin.
    destruct (kept_record st x Hk Hin) as (id & c & im & cr & up & tok & -> & Hr).
    exists id, c, im, cr, up. split; [reflexivity|].
    rewrite Hall, list_lookup_fmap, Hx. simpl. rewrite Hr. reflexivity.
Qed.

Lemma list_after_any_history_witness :
  let st := run [(Sample.env1, Sample.post_hi); (Sample.env2, Sample.post_hi)] ∅ in
  handler Sample.env1 Sample.get st = (Return (json (JArr (listing st)) 200), st)
  /\ List.length (listing st) = Nat.min 50 (List.length (index_of st)).
Proof.
  intros st.
  destruct (list_after_any_history
              [(Sample.env1, Sample.post_hi); (Sample.env2, Sample.post_hi)]
              Sample.env1 Sample.get eq_refl) as (H1 & H2 & _).
  split; [exact H1|exact H2].
Defined.

(** Whatever requests were served since the store was empty, the index has
    no duplicate, holds at most 500 entries, and each entry is the id of a
    note that has a record. *)
Theorem index_after_any_history (history : list (env * request)) :
  let st := run history ∅ in
  NoDup (index_of st)
  /\ (List.length (index_of st) <= 500)%nat
  /\ (forall x, x ∈ index_of st ->
        exists id, x = JStr id /\ JS.truthy (note_record st id) = true).
Proof.
  intros st.
  assert (Hk : kept st) by apply kept_run, kept_empty.
  destruct Hk as (Hrec & Hidx & Hnd & Hlen).
  split; [exact Hnd|]. split; [exact Hlen|].
  intros x Hx.
  destruct (kept_record st x (conj Hrec (conj Hidx (conj Hnd Hlen))) Hx)
    as (id & c & im & cr & up & tok & -> & Hr).
  exists id. split; [reflexivity|]. rewrite Hr. reflexivity.
Qed.

(** *** Timestamps *)

Lemma timely_mono (T T' : Z) (st : store) : T <= T' -> timely T st -> timely T' st.
Proof.
  intros Hle Ht id c i cr up tok H. destruct (Ht _ _ _ _ _ _ H). split; lia.
Qed.

Lemma timely_step (e : env) (req : request) (st : store) (T : Z) :
  kept st -> timely T st -> T <= now e -> timely (now e) (handler e req st).2.
Proof.
  intros Hk Ht Hle.
  destruct (handler_effect e req st)
    as [->|[(content & img & Hok & ->)|[(id & fs & content & img & Hfs & Hok & ->)|[id ->]]]].
  - exact (timely_mono _ _ _ Hle Ht).
  - intros id c i cr up tok H.
    rewrite lookup_insert_ne in H by apply not_eq_sym, NotesFacts.note_key_ne_index.
    destruct (decide (note_key (randomUUID e) = note_key id)) as [Heq|Hne].
    + rewrite Heq, lookup_insert_eq in H. injection H as H.
      assert (Hn : note_shape (randomUUID e) content img (now e) (now e) (randomHex e)
                   = note_shape id c i cr up tok) by (unfold note_shape; congruence).
      apply note_shape_inj in Hn as (_ & _ & <- & <- & _). lia.
    + rewrite lookup_insert_ne in H by exact Hne.
      destruct (Ht _ _ _ _ _ _ H). lia.
  - apply note_record_Some in Hfs. destruct Hk as (Hrec & _).
    destruct (Hrec _ _ Hfs) as [[Habs _]|(id' & c0 & i0 & cr0 & up0 & tok0 & Hkey & Hv & _)].
    { exfalso. exact (NotesFacts.note_key_ne_index _ Habs). }
    apply NotesFacts.note_key_inj in Hkey. subst id'.
    rewrite Hv in *. rewrite updated_note_shape.
    intros id1 c i cr up tok H.
    destruct (decide (note_key id = note_key id1)) as [Heq|Hne].
    + rewrite Heq, lookup_insert_eq in H. injection H as H.
      assert (Hn : note_shape id content img cr0 (now e) tok0
                   = note_shape id1 c i cr up tok) by (unfold note_shape; congruence).
      apply note_shape_inj in Hn as (_ & _ & <- & <- & _).
      destruct (Ht _ _ _ _ _ _ Hfs). lia.
    + rewrite lookup_insert_ne in H by exact Hne.
      destruct (Ht _ _ _ _ _ _ H). lia.
  - intros id1 c i cr up tok H.
    rewrite lookup_insert_ne in H by apply not_eq_sym, NotesFacts.note_key_ne_index.
    destruct (decide (note_key id = note_key id1)) as [Heq|Hne].
    + rewrite Heq, lookup_delete_eq in H. discriminate.
    + rewrite lookup_delete_ne in H by exact Hne.
      destruct (Ht _ _ _ _ _ _ H). lia.
Qed.

Lemma timely_run (history : list (env * request)) (st : store) (T : Z) :
  kept st -> timely T st -> clock_from T history ->
  exists T', timely T' (run history st).
Proof.
  revert st T. induction history as [|[e req] history IH]; intros st T Hk Ht Hc.
  - exists T. exact Ht.
  - simpl in *. destruct Hc as [Hle Hc].
    apply (IH (handler e req st).2 (now e));
      [apply kept_step, Hk|apply (timely_step e req st T); assumption|exact Hc].
Qed.

(** As long as the clock does not go back from one request to the next,
    every stored note has [createdAt <= updatedAt]. *)
Theorem updatedAt_not_before_createdAt (history : list (env * request)) (T : Z)
    (id : string) (v : jvalue) :
  clock_from T history ->
  run history ∅ !! note_key id = Some v ->
  exists content img created updated token,
    v = note_shape id content img created updated token
    /\ created <= updated.
Proof.
  intros Hc Hv.
  destruct (kept_run history ∅ kept_empty) as (Hrec & _).
  destruct (Hrec _ _ Hv) as [[Habs _]|(id' & c & i & cr & up & tok & Hkey & -> & _)].
  { exfalso. exact (NotesFacts.note_key_ne_index _ Habs). }
  apply NotesFacts.note_key_inj in Hkey. subst id'.
  assert (H0 : timely T ∅).
  { intros ? ? ? ? ? ? H. rewrite lookup_empty in H. discriminate. }
  destruct (timely_run history ∅ T kept_empty H0 Hc) as [T' Ht].
  exists c, i, cr, up, tok. split; [reflexivity|].
  destruct (Ht _ _ _ _ _ _ Hv). assumption.
Qed.

Lemma updatedAt_not_before_createdAt_witness :
  exists content img created updated token,
    note_shape "u-1" "bye" None 1000 2000 "tok1"
    = note_shape "u-1" content img created updated token
    /\ created <= updated.
Proof.
  apply (updatedAt_not_before_createdAt
           [(Sample.env1, Sample.post_hi); (Sample.env2, Sample.put "u-1" "tok1" "bye")] 0).
  - simpl. lia.
  - vm_compute. reflexivity.
Defined.

(** *** Create, then list *)

(** After a create is accepted on an index of strings, LIST answers the
    new note first, sanitised, with equal creation and update times. *)
Theorem create_then_list (e1 e2 : env) (req1 req2 : request) (st : store)
    (content : string) (img : option string) :
  method req1 = "POST" ->
  read_content (readJson req1) = Return content ->
  read_image (readJson req1) = Return img ->
  acceptable content img ->
  Forall (fun x => is_str x = true) (index_of st) ->
  method req2 = "GET" ->
  let st1 := (handler e1 req1 st).2 in
  exists rest,
    handler e2 req2 st1
    = (Return (json (JArr (public_shape (randomUUID e1) content img (now e1) (now e1)
                             :: rest)) 200), st1).
Proof.
  intros Hm1 Hc Hi Hok Hstr Hm2 st1. subst st1.
  rewrite (handler_create_accepted e1 req1 st content img Hm1 Hc Hi Hok). cbn [snd].
  set (st1 := <[INDEX_KEY := _]> _).
  assert (Hidx : index_of st1
                 = JStr (randomUUID e1)
                   :: take (MAX_NOTES - 1)
                        (filter (fun x => other_than (randomUUID e1) x) (index_of st))).
  { unfold st1. rewrite NotesFacts.index_of_insert_index. apply NotesFacts.new_index_cons. }
  assert (Hstr1 : Forall (fun x => is_str x = true) (index_of st1)).
  { rewrite Hidx. constructor; [reflexivity|].
    apply Forall_forall. intros x Hx.
    apply elem_of_take in Hx as (i & Hx & _). apply list_elem_of_lookup_2 in Hx.
    apply list_elem_of_filter in Hx as [_ Hx].
    rewrite Forall_forall in Hstr. exact (Hstr x Hx). }
  rewrite (handler_list_strings e2 req2 st1 Hm2 Hstr1).
  unfold listing. rewrite Hidx.
  change (take LIST_LIMIT (JStr (randomUUID e1) :: ?l))
    with (JStr (randomUUID e1) :: take (LIST_LIMIT - 1) l).
  cbn [map id_of].
  assert (Hr : note_record st1 (randomUUID e1)
               = note_shape (randomUUID e1) content img (now e1) (now e1) (randomHex e1)).
  { unfold st1. rewrite NotesFacts.note_record_insert_index.
    apply NotesFacts.note_record_insert. }
  rewrite Hr, cleanNote_shape.
  rewrite filter_cons_True by exact I. eexists. reflexivity.
Qed.

Lemma create_then_list_witness :
  exists rest,
    handler Sample.env1 Sample.get (handler Sample.env2 Sample.post_hi Sample.store1).2
    = (Return (json (JArr (public_shape "u-2" "hi" None 2000 2000 :: rest)) 200),
       (handler Sample.env2 Sample.post_hi Sample.store1).2).
Proof.
  apply (create_then_list Sample.env2 Sample.env1 Sample.post_hi Sample.get Sample.store1
           "hi" None).
  - reflexivity.
  - reflexivity.
  - reflexivity.
  - split; [left; discriminate|]. split; [vm_compute; discriminate|].
    intros s Hs. discriminate Hs.
  - vm_compute. repeat constructor.
  - reflexivity.
Defined.

End NotesMore.

(** ** Further properties of the id-in-path variant *)

Module PathMore.

Section WithPlatform.

Variable decodeURIComponent : string -> outcome string.

(** *** The id in the path *)

Lemma prefix_app (m r : string) : String.prefix m (m +:+ r) = true.
Proof.
  induction m as [|a m IH]; simpl.
  - destruct r; reflexivity.
  - destruct (Ascii.ascii_dec a a) as [_|Hne]; [exact IH|contradiction].
Qed.

Lemma substring_full (r : string) : String.substring 0 (String.length r) r = r.
Proof. induction r as [|b r IH]; simpl; [reflexivity|]. rewrite IH. reflexivity. Qed.

Lemma substring_app (m r : string) :
  String.substring (String.length m) (String.length (m +:+ r) - String.length m) (m +:+ r)
  = r.
Proof.
  induction m as [|a m IH].
  - change ("" +:+ r) with r. change (String.length "") with O.
    rewrite Nat.sub_0_r. apply substring_full.
  - exact IH.
Qed.

Lemma prefix_split (m s : string) :
  String.prefix m s = true -> exists r, s = m +:+ r.
Proof.
  revert s. induction m as [|a m IH]; intros s H.
  - exists s. reflexivity.
  - destruct s as [|b s]; simpl in H; [discriminate|].
    destruct (Ascii.ascii_dec a b) as [->|Hne]; [|discriminate].
    destruct (IH s H) as [r ->]. exists r. reflexivity.
Qed.

(** The id of a request is the decoded rest of its path after
    ["/.netlify/functions/notes/"]; a path that does not begin with the
    marker, or ends with it, has no id, and a rest that does not decode
    throws. *)
Theorem getNoteIdFromPath_spec (pathname : string) :
  (forall raw, pathname = path_marker +:+ raw -> raw ≠ "" ->
     PathNotes.getNoteIdFromPath decodeURIComponent pathname
     = outcome_bind (decodeURIComponent raw) (fun s => Return (Some s)))
  /\ (pathname = path_marker ->
      PathNotes.getNoteIdFromPath decodeURIComponent pathname = Return None)
  /\ ((forall raw, pathname ≠ path_marker +:+ raw) ->
      PathNotes.getNoteIdFromPath decodeURIComponent pathname = Return None).
Proof.
  unfold PathNotes.getNoteIdFromPath. fold path_marker. split; [|split].
  - intros raw -> Hraw. rewrite prefix_app. cbn [negb].
    rewrite substring_app, (bool_decide_eq_false_2 _ Hraw). reflexivity.
  - intros ->. reflexivity.
  - intros Hno. destruct (String.prefix path_marker pathname) eqn:Hp; [|reflexivity].
    apply prefix_split in Hp as [r ->]. exfalso. exact (Hno r eq_refl).
Qed.

(** *** The branches, case by case *)

Lemma path_GET_eq (e : env) (req : request) (st : store) :
  method req = "GET" ->
  PathNotes.handler decodeURIComponent e req st = (Return store_unreadable, st).
Proof.
  intros Hm. unfold PathNotes.handler. rewrite Hm.
  rewrite (bool_decide_eq_true_2 ("GET" = "GET")) by reflexivity.
  reflexivity.
Qed.

Lemma path_POST_eq (e : env) (req : request) (st : store) :
  method req = "POST" ->
  PathNotes.handler decodeURIComponent e req st
  = match outcome_bind (body req) PathNotes.normalizePayload with
    | Return payload => (Return store_unreadable, st)
    | Throw msg => (Return (failure_500 msg), st)
    end.
Proof.
  intros Hm. unfold PathNotes.handler. rewrite Hm.
  rewrite (bool_decide_eq_false_2 ("POST" = "GET")) by discriminate.
  rewrite (bool_decide_eq_true_2 ("POST" = "POST")) by reflexivity.
  eff_simpl.
  destruct (outcome_bind (body req) PathNotes.normalizePayload) as [payload|msg];
    reflexivity.
Qed.

Lemma path_DELETE_eq (e : env) (req : request) (st : store) :
  method req = "DELETE" ->
  PathNotes.handler decodeURIComponent e req st
  = match PathNotes.getNoteIdFromPath decodeURIComponent (pathname req) with
    | Throw msg => (Return (failure_500 msg), st)
    | Return noteId =>
        if PathNotes.no_id noteId then
          (Return (PathNotes.json (Notes.error "Note ID is required.") 400), st)
        else (Return store_unreadable, st)
    end.
Proof.
  intros Hm. unfold PathNotes.handler. rewrite Hm.
  rewrite (bool_decide_eq_false_2 ("DELETE" = "GET")) by discriminate.
  rewrite (bool_decide_eq_false_2 ("DELETE" = "POST")) by discriminate.
  rewrite (bool_decide_eq_false_2 ("DELETE" = "PUT")) by discriminate.
  rewrite (bool_decide_eq_true_2 ("DELETE" = "DELETE")) by reflexivity.
  eff_simpl.
  destruct (PathNotes.getNoteIdFromPath decodeURIComponent (pathname req)) as [noteId|msg];
    [|reflexivity].
  destruct (PathNotes.no_id noteId); reflexivity.
Qed.

Lemma path_PUT_eq (e : env) (req : request) (st : store) :
  method req = "PUT" ->
  PathNotes.handler decodeURIComponent e req st
  = match PathNotes.getNoteIdFromPath decodeURIComponent (pathname req) with
    | Throw msg => (Return (failure_500 msg), st)
    | Return noteId =>
        if PathNotes.no_id noteId then
          (Return (PathNotes.json (Notes.error "Note ID is required.") 400), st)
        else
          match outcome_bind (body req) PathNotes.normalizePayload with
          | Throw msg => (Return (failure_500 msg), st)
          | Return payload => (Return store_unreadable, st)
          end
    end.
Proof.
  intros Hm. unfold PathNotes.handler. rewrite Hm.
  rewrite (bool_decide_eq_false_2 ("PUT" = "GET")) by discriminate.
  rewrite (bool_decide_eq_false_2 ("PUT" = "POST")) by discriminate.
  rewrite (bool_decide_eq_true_2 ("PUT" = "PUT")) by reflexivity.
  eff_simpl.
  destruct (PathNotes.getNoteIdFromPath decodeURIComponent (pathname req)) as [noteId|msg];
    [|reflexivity].
  destruct (PathNotes.no_id noteId); [reflexivity|].
  destruct (outcome_bind (body req) PathNotes.normalizePayload) as [payload|msg];
    reflexivity.
Qed.

Lemma path_other_eq (e : env) (req : request) (st : store) :
  method req ≠ "GET" -> method req ≠ "POST" -> method req ≠ "PUT" ->
  method req ≠ "DELETE" ->
  PathNotes.handler decodeURIComponent e req st
  = (Return (PathNotes.json (Notes.error "Method not allowed.") 405), st).
Proof.
  intros H1 H2 H3 H4. unfold PathNotes.handler.
  rewrite (bool_decide_eq_false_2 _ H1), (bool_decide_eq_false_2 _ H2),
    (bool_decide_eq_false_2 _ H3), (bool_decide_eq_false_2 _ H4).
  reflexivity.
Qed.

(** The answer to a throw carries a message that is not empty. *)
Lemma failure_500_error (msg : string) :
  exists msg', msg' ≠ "" /\ failure_500 msg = PathNotes.json (Notes.error msg') 500.
Proof.
  unfold failure_500. destruct (bool_decide_reflect (msg = "")) as [->|Hne].
  - eexists. split; [|reflexivity]. discriminate.
  - exists msg. split; [exact Hne|reflexivity].
Qed.

(** *** No throw *)


(** *** No success *)

(** [H] names the method of the request; it is one of the four. *)
Ltac known_method H :=
  rewrite H; apply (bool_decide_unpack _); vm_compute; exact I.

(** The variant answers every request with an error and never writes to
    its store: 405 for a method other than GET, POST, PUT and DELETE, 400
    for a PUT or DELETE whose path carries no id, and 500 for every other
    request.  A request that passes the checks of its branch fails where
    the notes are read: [loadNotes] calls [store.getJSON], a method that
    the store does not have. *)
Theorem path_handler_never_succeeds (e : env) (req : request) (st : store) :
  exists r msg,
    PathNotes.handler decodeURIComponent e req st = (Return r, st)
    /\ r = PathNotes.json (Notes.error msg) (status r)
    /\ msg ≠ ""
    /\ ((status r = 405 /\ method req ∉ ["GET"; "POST"; "PUT"; "DELETE"])
        \/ (status r = 400
            /\ (method req = "PUT" \/ method req = "DELETE")
            /\ exists noteId,
                 PathNotes.getNoteIdFromPath decodeURIComponent (pathname req)
                 = Return noteId
                 /\ PathNotes.no_id noteId = true)
        \/ (status r = 500 /\ method req ∈ ["GET"; "POST"; "PUT"; "DELETE"])).
Proof.
  assert (H500 : forall msg, method req ∈ ["GET"; "POST"; "PUT"; "DELETE"] ->
            exists r msg',
              (Return (failure_500 msg), st) = (Return r, st)
              /\ r = PathNotes.json (Notes.error msg') (status r)
              /\ msg' ≠ ""
              /\ ((status r = 405 /\ method req ∉ ["GET"; "POST"; "PUT"; "DELETE"])
                  \/ (status r = 400
                      /\ (method req = "PUT" \/ method req = "DELETE")
                      /\ exists noteId,
                           PathNotes.getNoteIdFromPath decodeURIComponent (pathname req)
                           = Return noteId
                           /\ PathNotes.no_id noteId = true)
                  \/ (status r = 500 /\ method req ∈ ["GET"; "POST"; "PUT"; "DELETE"]))).
  { intros msg Hin. destruct (failure_500_error msg) as (msg' & Hne & ->).
    exists (PathNotes.json (Notes.error msg') 500), msg'.
    split; [reflexivity|]. split; [reflexivity|]. split; [exact Hne|].
    right. right. split; [reflexivity|exact Hin]. }
  destruct (decide (method req = "GET")) as [Hg|Hg].
  { rewrite (path_GET_eq _ _ _ Hg). apply H500. known_method Hg. }
  destruct (decide (method req = "POST")) as [Hp|Hp].
  { rewrite (path_POST_eq _ _ _ Hp).
    destruct (outcome_bind (body req) PathNotes.normalizePayload);
      apply H500; known_method Hp. }
  destruct (decide (method req = "PUT")) as [Hu|Hu].
  { rewrite (path_PUT_eq _ _ _ Hu).
    destruct (PathNotes.getNoteIdFromPath decodeURIComponent (pathname req))
      as [noteId|msg] eqn:Hid; [|apply H500; known_method Hu].
    destruct (PathNotes.no_id noteId) eqn:Hno.
    - exists (PathNotes.json (Notes.error "Note ID is required.") 400),
        "Note ID is required.".
      split; [reflexivity|]. split; [reflexivity|]. split; [discriminate|].
      right. left. split; [reflexivity|]. split; [left; exact Hu|]. exists noteId. auto.
    - destruct (outcome_bind (body req) PathNotes.normalizePayload);
        apply H500; known_method Hu. }
  destruct (decide (method req = "DELETE")) as [Hd|Hd].
  { rewrite (path_DELETE_eq _ _ _ Hd).
    destruct (PathNotes.getNoteIdFromPath decodeURIComponent (pathname req))
      as [noteId|msg] eqn:Hid; [|apply H500; known_method Hd].
    destruct (PathNotes.no_id noteId) eqn:Hno.
    - exists (PathNotes.json (Notes.error "Note ID is required.") 400),
        "Note ID is required.".
      split; [reflexivity|]. split; [reflexivity|]. split; [discriminate|].
      right. left. split; [reflexivity|]. split; [right; exact Hd|]. exists noteId. auto.
    - apply H500. known_method Hd. }
  rewrite (path_other_eq _ _ _ Hg Hp Hu Hd).
  exists (PathNotes.json (Notes.error "Method not allowed.") 405), "Method not allowed.".
  split; [reflexivity|]. split; [reflexivity|]. split; [discriminate|].
  left. split; [reflexivity|]. intros Hin.
  repeat (apply elem_of_cons in Hin as [Hin|Hin]; [contradiction|]).
  apply elem_of_nil in Hin. exact Hin.
Qed.

(** *** Create *)

Lemma normalizePayload_spec (payload : jvalue) :
  (path_acceptable (path_content payload) (path_image payload) ->
   PathNotes.normalizePayload payload = Return (path_content payload, path_image payload))
  /\ (~ path_acceptable (path_content payload) (path_image payload) ->
      exists msg, msg ≠ "" /\ PathNotes.normalizePayload payload = Throw msg).
Proof.
  unfold PathNotes.normalizePayload, path_acceptable, PathNotes.MAX_IMAGE_DATA_URL_LENGTH.
  fold (path_content payload). fold (path_image payload).
  set (content := path_content payload). set (img := path_image payload).
  destruct (bool_decide_reflect (content = "")) as [Hc|Hc];
    destruct (Notes.image_truthy img) eqn:Hi; cbn [andb negb].
  - destruct (JS.length (default "" img) >? 2000000) eqn:H3.
    + split; [|intros _; eexists; split; [|reflexivity]; discriminate].
      intros (_ & Himg). exfalso. destruct img as [s|]; [|discriminate].
      specialize (Himg s eq_refl). simpl in H3. rewrite Z.gtb_ltb in H3.
      apply Z.ltb_lt in H3. lia.
    + split; [reflexivity|]. intros Hbad. exfalso. apply Hbad.
      split; [auto|]. intros s ->. simpl in H3. rewrite Z.gtb_ltb in H3.
      apply Z.ltb_ge in H3. exact H3.
  - split; [|intros _; eexists; split; [|reflexivity]; discriminate].
    intros ([Hne|Habs] & _); [contradiction|discriminate].
  - destruct (JS.length (default "" img) >? 2000000) eqn:H3.
    + split; [|intros _; eexists; split; [|reflexivity]; discriminate].
      intros (_ & Himg). exfalso. destruct img as [s|]; [|discriminate].
      specialize (Himg s eq_refl). simpl in H3. rewrite Z.gtb_ltb in H3.
      apply Z.ltb_lt in H3. lia.
    + split; [reflexivity|]. intros Hbad. exfalso. apply Hbad.
      split; [auto|]. intros s ->. simpl in H3. rewrite Z.gtb_ltb in H3.
      apply Z.ltb_ge in H3. exact H3.
  - split; [reflexivity|]. intros Hbad. exfalso. apply Hbad.
    split; [auto|]. intros s ->. simpl in Hi.
    apply negb_false_iff, bool_decide_eq_true_1 in Hi. subst s.
    unfold JS.length. simpl. lia.
Qed.

(** A POST with a JSON body creates nothing and is answered 500.  When the
    payload has neither content nor image, or an image of more than 2000000
    characters, the answer carries the reason of that refusal.  When the
    payload passes (the content has no bound), the answer carries the
    error of the read of the store: the handler fails at [loadNotes],
    before the note is stored. *)
Theorem path_create_fails (e : env) (req : request) (st : store) (payload : jvalue) :
  method req = "POST" ->
  body req = Return payload ->
  (path_acceptable (path_content payload) (path_image payload) ->
   PathNotes.handler decodeURIComponent e req st = (Return store_unreadable, st))
  /\ (~ path_acceptable (path_content payload) (path_image payload) ->
      exists msg, msg ≠ ""
                  /\ PathNotes.normalizePayload payload = Throw msg
                  /\ PathNotes.handler decodeURIComponent e req st
                     = (Return (PathNotes.json (Notes.error msg) 500), st)).
Proof.
  intros Hm Hb. rewrite (path_POST_eq _ _ _ Hm), Hb. cbn [outcome_bind].
  destruct (normalizePayload_spec payload) as [Hyes Hno]. split.
  - intros Hok. rewrite (Hyes Hok). reflexivity.
  - intros Hbad. destruct (Hno Hbad) as (msg & Hmsg & Hthrow). rewrite Hthrow.
    exists msg. split; [exact Hmsg|]. split; [reflexivity|]. unfold failure_500.
    rewrite (bool_decide_eq_false_2 _ Hmsg). reflexivity.
Qed.

(** *** The loops over the notes *)

Lemma filter_out_spec (id : string) (notes kept : list jvalue) :
  PathNotes.filter_out id notes = Return kept ->
  Forall (fun n => PathNotes.id_is id n = Return false) kept
  /\ kept `sublist_of` notes
  /\ (forall n, n ∈ notes -> PathNotes.id_is id n = Return false -> n ∈ kept).
Proof.
  revert kept. induction notes as [|n notes IH]; intros kept H; simpl in H.
  - injection H as <-. repeat split; [constructor|constructor|].
    intros n Hn. apply elem_of_nil in Hn. contradiction.
  - destruct (PathNotes.id_is id n) as [hit|msg] eqn:Hn; [|discriminate]. simpl in H.
    destruct (PathNotes.filter_out id notes) as [r|msg]; [|discriminate]. simpl in H.
    destruct (IH r eq_refl) as (Hall & Hsub & Hin).
    injection H as <-. destruct hit.
    + split; [exact Hall|]. split; [apply sublist_cons, Hsub|].
      intros m Hm Hmf. apply elem_of_cons in Hm as [->|Hm]; [congruence|auto].
    + split; [constructor; assumption|]. split; [apply sublist_skip, Hsub|].
      intros m Hm Hmf. apply elem_of_cons in Hm as [->|Hm];
        [apply list_elem_of_here|apply list_elem_of_further; auto].
Qed.

Lemma findIndex_spec (id : string) (notes : list jvalue) (index : nat) :
  PathNotes.findIndex id notes = Return (Some index) ->
  (exists old, notes !! index = Some old /\ PathNotes.id_is id old = Return true)
  /\ (forall j n, (j < index)%nat -> notes !! j = Some n ->
                  PathNotes.id_is id n = Return false).
Proof.
  revert index. induction notes as [|n notes IH]; intros index H; simpl in H.
  - discriminate.
  - destruct (PathNotes.id_is id n) as [hit|msg] eqn:Hn; [|discriminate]. simpl in H.
    destruct hit.
    + injection H as <-. split; [exists n; auto|]. intros j m Hj. lia.
    + destruct (PathNotes.findIndex id notes) as [[i|]|msg]; simpl in H; try discriminate.
      injection H as <-. destruct (IH i eq_refl) as [Hold Hbefore].
      split; [exact Hold|]. intros j m Hj Hm. destruct j as [|j]; simpl in Hm.
      * injection Hm as <-. exact Hn.
      * apply (Hbefore j m); [lia|exact Hm].
Qed.

Lemma id_is_true_object (id : string) (n : jvalue) :
  PathNotes.id_is id n = Return true ->
  exists fs, n = JObj fs /\ JS.lookup_field "id" fs = Some (JStr id).
Proof.
  unfold PathNotes.id_is. destruct n as [| | | | |fs]; try discriminate.
  intros H. injection H as H. apply negb_true_iff, NotesFacts.strict_ne_str_false in H.
  exists fs. auto.
Qed.

End WithPlatform.

Lemma getNoteIdFromPath_spec_witness :
  PathNotes.getNoteIdFromPath Sample.decode_plain "/.netlify/functions/notes/n1"
  = Return (Some "n1")
  /\ PathNotes.getNoteIdFromPath Sample.decode_plain "/.netlify/functions/notes/"
     = Return None
  /\ PathNotes.getNoteIdFromPath Sample.decode_plain "/api/notes/n1" = Return None.
Proof.
  split; [|split].
  - destruct (getNoteIdFromPath_spec Sample.decode_plain "/.netlify/functions/notes/n1")
      as (H & _ & _).
    rewrite (H "n1" eq_refl); [reflexivity|discriminate].
  - destruct (getNoteIdFromPath_spec Sample.decode_plain "/.netlify/functions/notes/")
      as (_ & H & _).
    apply H. reflexivity.
  - destruct (getNoteIdFromPath_spec Sample.decode_plain "/api/notes/n1") as (_ & _ & H).
    apply H. intros raw Hraw. discriminate Hraw.
Defined.

Lemma path_create_fails_witness :
  PathNotes.handler Sample.decode_plain Sample.env1 Sample.post_hi ∅
  = (Return (PathNotes.json (Notes.error "store.getJSON is not a function") 500), ∅)
  /\ PathNotes.handler Sample.decode_plain Sample.env1 (Sample2.post "   ") ∅
     = (Return (PathNotes.json (Notes.error "Content or image is required.") 500), ∅).
Proof.
  split.
  - destruct (path_create_fails Sample.decode_plain Sample.env1 Sample.post_hi ∅
                (JObj [("content", JStr "  hi ")]) eq_refl eq_refl) as [Hyes _].
    apply Hyes. split; [left; discriminate|]. intros s Hs. discriminate Hs.
  - destruct (path_create_fails Sample.decode_plain Sample.env1 (Sample2.post "   ") ∅
                (JObj [("content", JStr "   ")]) eq_refl eq_refl) as [_ Hno].
    destruct Hno as (msg & _ & Hthrow & Hh).
    + intros ([Hc|Hi] & _); [apply Hc; reflexivity|discriminate Hi].
    + rewrite Hh. vm_compute in Hthrow. injection Hthrow as <-. reflexivity.
Defined.

End PathMore.

(** ** Further properties of the client *)

Module ClientMore.
Import Client.

(** *** localStorage as a JSON store *)

(** What [saveJson] has saved, [loadJson] reads back; no other item
    changes.  (The quota must not be exhausted.) *)
Theorem saveJson_loadJson (key : string) (value fallback : jvalue) (ls : localStorage) :
  quota_exceeded ls = false ->
  let ls' := (saveJson key value ls).2 in
  saveJson key value ls = (Return tt, ls')
  /\ loadJson key fallback ls' = (Return value, ls')
  /\ (forall key', key' ≠ key -> items ls' !! key' = items ls !! key').
Proof.
  intros Hq ls'. subst ls'. unfold saveJson, loadJson, setItem, getItem. eff_simpl.
  rewrite Hq. cbn [snd items]. rewrite lookup_insert_eq. cbn [JSON_stringify JSON_parse].
  split; [reflexivity|]. split; [reflexivity|].
  intros key' Hne. apply lookup_insert_ne. congruence.
Qed.

Lemma saveJson_loadJson_witness :
  loadJson CACHE_KEY (JArr []) (saveJson CACHE_KEY (JArr Sample.listed1) Sample.storage0).2
  = (Return (JArr Sample.listed1),
     (saveJson CACHE_KEY (JArr Sample.listed1) Sample.storage0).2).
Proof.
  apply (saveJson_loadJson CACHE_KEY (JArr Sample.listed1) (JArr []) Sample.storage0).
  reflexivity.
Defined.

(** Neither [loadJson] nor [saveJson] throws, and [loadJson] writes
    nothing.  [loadJson] answers the fallback for an item that is absent,
    empty or not JSON; [saveJson] on an exhausted quota leaves the storage as
    it was. *)
Theorem storage_failures_are_silent (key : string) (value fallback : jvalue)
    (ls : localStorage) :
  (exists v, loadJson key fallback ls = (Return v, ls))
  /\ (items ls !! key ∈ [None; Some Empty; Some Malformed] ->
      loadJson key fallback ls = (Return fallback, ls))
  /\ (exists ls', saveJson key value ls = (Return tt, ls'))
  /\ (quota_exceeded ls = true -> saveJson key value ls = (Return tt, ls)).
Proof.
  unfold loadJson, saveJson, getItem, setItem. eff_simpl.
  split; [|split; [|split]].
  - destruct (items ls !! key) as [[|v|]|]; eauto.
  - intros Hin. destruct (items ls !! key) as [[|v|]|]; try reflexivity.
    exfalso.
    repeat (apply elem_of_cons in Hin as [Hin|Hin]; [discriminate Hin|]).
    apply elem_of_nil in Hin. exact Hin.
  - destruct (quota_exceeded ls); eauto.
  - intros ->. reflexivity.
Qed.

Lemma storage_failures_are_silent_witness :
  loadJson CACHE_KEY (JArr []) Sample4.storage_garbled
  = (Return (JArr []), Sample4.storage_garbled)
  /\ saveJson CACHE_KEY (JArr Sample.listed1) Sample4.storage_full
     = (Return tt, Sample4.storage_full).
Proof.
  destruct (storage_failures_are_silent CACHE_KEY (JArr Sample.listed1) (JArr [])
              Sample4.storage_garbled) as (_ & Hload & _ & _).
  destruct (storage_failures_are_silent CACHE_KEY (JArr Sample.listed1) (JArr [])
              Sample4.storage_full) as (_ & _ & _ & Hsave).
  split.
  - apply Hload. vm_compute. set_solver.
  - apply Hsave. reflexivity.
Defined.

(** *** The request *)

(** [apiRequest] returns the parsed body (null for an empty one) exactly
    for a 2xx answer whose text is empty or JSON.  For any other status it
    throws; the message is the [error] field of the body when that is a
    non-empty string, and "Request failed (status)" when the body is empty
    or has no such field. *)
Theorem apiRequest_spec (method : string) (body : option jvalue) (status : Z)
    (data : jvalue) (msg : string) :
  (ok status = true ->
   apiRequest method body (Responded status (Return (JsonText data))) = Return data
   /\ apiRequest method body (Responded status (Return Empty)) = Return JNull)
  /\ (ok status = false -> msg ≠ "" ->
      apiRequest method body
        (Responded status (Return (JsonText (JObj [("error", JStr msg)])))) = Throw msg
      /\ apiRequest method body (Responded status (Return Empty))
         = Throw ("Request failed (" +:+ pretty status +:+ ")")
      /\ (JS.truthy_opt (JS.prop data "error") = false ->
          apiRequest method body (Responded status (Return (JsonText data)))
          = Throw ("Request failed (" +:+ pretty status +:+ ")"))).
Proof.
  split.
  - intros Hok. unfold apiRequest. simpl. rewrite Hok. auto.
  - intros Hok Hmsg. unfold apiRequest. simpl. rewrite Hok. simpl.
    rewrite (bool_decide_eq_false_2 _ Hmsg). simpl.
    split; [reflexivity|]. split; [reflexivity|].
    intros Hno. rewrite Hno, andb_false_r. reflexivity.
Qed.

Lemma apiRequest_spec_witness :
  apiRequest "PUT" None (Responded 403 (Return (JsonText (JObj [("error", JStr "Forbidden.")]))))
  = Throw "Forbidden."
  /\ apiRequest "GET" None (Responded 502 (Return Empty)) = Throw "Request failed (502)".
Proof.
  split.
  - destruct (apiRequest_spec "PUT" None 403 JNull "Forbidden.") as [_ H].
    apply H; [reflexivity|discriminate].
  - destruct (apiRequest_spec "GET" None 502 JNull "x") as [_ H].
    destruct H as (_ & H & _); [reflexivity|discriminate|].
    rewrite H. vm_compute. reflexivity.
Defined.

(** *** The list *)

(** [getAllNotes] never throws and always returns an array; it touches no
    item of the storage but the cache; and a 2xx answer that is not an
    array gives the empty list and leaves the cache as it was. *)
Theorem getAllNotes_always_a_list (net : fetch_result) (ls : localStorage) :
  (exists notes, (getAllNotes net ls).1 = Return (JArr notes))
  /\ (forall key, key ≠ CACHE_KEY ->
        items (getAllNotes net ls).2 !! key = items ls !! key)
  /\ (forall data, apiRequest "GET" None net = Return data -> JS.isArray data = false ->
        getAllNotes net ls = (Return (JArr []), ls)).
Proof.
  split; [|split].
  - destruct (apiRequest "GET" None net) as [data|msg] eqn:H.
    + destruct data as [| | | |notes|fs];
        try (exists []; unfold getAllNotes; eff_simpl; rewrite H; reflexivity).
      exists notes. rewrite (ClientFacts.getAllNotes_succeeded _ _ _ H). reflexivity.
    + rewrite (ClientFacts.getAllNotes_failed _ _ _ H). unfold cached_list.
      destruct (items ls !! CACHE_KEY) as [[|[| | | |l|]|]|]; eauto.
  - intros key Hkey. destruct (apiRequest "GET" None net) as [data|msg] eqn:H.
    + destruct data as [| | | |notes|fs];
        try (unfold getAllNotes; eff_simpl; rewrite H; reflexivity).
      rewrite (ClientFacts.getAllNotes_succeeded _ _ _ H).
      destruct (quota_exceeded ls); [reflexivity|].
      cbn [snd items]. apply lookup_insert_ne. congruence.
    + rewrite (ClientFacts.getAllNotes_failed _ _ _ H). reflexivity.
  - intros data H Harr. unfold getAllNotes. eff_simpl. rewrite H. cbv beta iota.
    rewrite Harr. reflexivity.
Qed.

Lemma getAllNotes_always_a_list_witness :
  getAllNotes (Responded 200 (Return (JsonText (JObj [("ok", JBool true)])))) Sample.storage0
  = (Return (JArr []), Sample.storage0).
Proof.
  destruct (getAllNotes_always_a_list
              (Responded 200 (Return (JsonText (JObj [("ok", JBool true)]))))
              Sample.storage0) as (_ & _ & H).
  apply (H (JObj [("ok", JBool true)])); reflexivity.
Defined.

End ClientMore.

(** ** The token map of the client *)

Module TokensMore.
Import Client ClientOps.

(** *** Properties of a parsed object *)

Lemma lookup_field_app (k k' : string) (v : jvalue) (fs : list (string * jvalue)) :
  JS.lookup_field k (fs ++ [(k', v)])
  = match JS.lookup_field k fs with
    | Some x => Some x
    | None => if bool_decide (k' = k) then Some v else None
    end.
Proof.
  induction fs as [|[k0 v0] fs IH]; simpl.
  - reflexivity.
  - destruct (bool_decide (k0 = k)); [reflexivity|exact IH].
Qed.

Lemma lookup_insert_index (k k' : string) (n : N) (v : jvalue) (fs : list (string * jvalue)) :
  JS.lookup_field k' fs = None ->
  JS.lookup_field k (insert_index n k' v fs)
  = if bool_decide (k' = k) then Some v else JS.lookup_field k fs.
Proof.
  induction fs as [|[k0 v0] fs IH]; intros Hnone.
  - reflexivity.
  - simpl in Hnone. destruct (bool_decide_reflect (k0 = k')) as [|Hne]; [discriminate|].
    cbn [insert_index].
    destruct (array_index k0) as [m|]; [destruct (m <? n)%N|]; try reflexivity.
    cbn [JS.lookup_field]. rewrite (IH Hnone).
    destruct (bool_decide_reflect (k0 = k)) as [->|]; [|reflexivity].
    rewrite bool_decide_eq_false_2 by congruence. reflexivity.
Qed.

Lemma lookup_object_set (fs : list (string * jvalue)) (k k' : string) (v : jvalue) :
  k ≠ "__proto__" \/ is_Some (JS.lookup_field k fs) ->
  JS.lookup_field k' (object_set fs k v)
  = if bool_decide (k = k') then Some v else JS.lookup_field k' fs.
Proof.
  intros Hk. unfold object_set.
  destruct (JS.lookup_field k fs) as [x|] eqn:Hown.
  - apply NotesFacts.lookup_set_field.
  - destruct Hk as [Hk|[x Hx]]; [|discriminate].
    rewrite (bool_decide_eq_false_2 _ Hk).
    destruct (array_index k) as [n|].
    + apply lookup_insert_index, Hown.
    + rewrite lookup_field_app. destruct (bool_decide_reflect (k = k')) as [<-|].
      * rewrite Hown. reflexivity.
      * destruct (JS.lookup_field k' fs); reflexivity.
Qed.

Lemma lookup_object_set_ne (fs : list (string * jvalue)) (k k' : string) (v : jvalue) :
  k ≠ k' -> JS.lookup_field k' (object_set fs k v) = JS.lookup_field k' fs.
Proof.
  intros Hne. unfold object_set.
  destruct (JS.lookup_field k fs) as [x|] eqn:Hown.
  - rewrite NotesFacts.lookup_set_field, (bool_decide_eq_false_2 _ Hne). reflexivity.
  - destruct (bool_decide (k = "__proto__")); [reflexivity|].
    destruct (array_index k) as [n|].
    + rewrite (lookup_insert_index _ _ _ _ _ Hown), (bool_decide_eq_false_2 _ Hne).
      reflexivity.
    + rewrite lookup_field_app, (bool_decide_eq_false_2 _ Hne).
      destruct (JS.lookup_field k' fs); reflexivity.
Qed.

Lemma lookup_object_delete (fs : list (string * jvalue)) (k k' : string) :
  JS.lookup_field k' (object_delete fs k)
  = if bool_decide (k = k') then None else JS.lookup_field k' fs.
Proof.
  unfold object_delete. induction fs as [|[k0 v0] fs IH].
  - simpl. destruct (bool_decide (k = k')); reflexivity.
  - rewrite filter_cons. cbn [fst]. destruct (decide (k0 ≠ k)) as [Hne|Heq].
    + cbn [JS.lookup_field]. rewrite IH.
      destruct (bool_decide_reflect (k0 = k')) as [->|]; [|reflexivity].
      rewrite bool_decide_eq_false_2 by congruence. reflexivity.
    + apply dec_stable in Heq. subst k0. rewrite IH. cbn [JS.lookup_field].
      destruct (bool_decide (k = k')); reflexivity.
Qed.

(** *** Reading the map *)

Lemma loadTokens_pure (ls : localStorage) : exists t, loadTokens ls = (Return t, ls).
Proof.
  unfold loadTokens, loadJson, getItem. eff_simpl.
  destruct (items ls !! TOKENS_KEY) as [[|v|]|]; simpl; eauto.
Qed.

Lemma loadTokens_eq (ls : localStorage) :
  tokens_not_array ls -> loadTokens ls = (Return (JObj (tokens_of ls)), ls).
Proof.
  intros Hno. unfold loadTokens, loadJson, getItem, tokens_of. eff_simpl.
  destruct (items ls !! TOKENS_KEY) as [[|v|]|] eqn:E; try reflexivity.
  destruct v as [|b|n|s'|l|fs]; simpl; rewrite ?andb_false_r; try reflexivity.
  exfalso. exact (Hno _ E).
Qed.

Lemma tokens_of_saved (ls : localStorage) (fs : list (string * jvalue)) :
  tokens_of {| items := <[TOKENS_KEY := JsonText (JObj fs)]> (items ls);
               quota_exceeded := quota_exceeded ls |} = fs.
Proof. unfold tokens_of. cbn [items]. rewrite lookup_insert_eq. reflexivity. Qed.

Lemma tokens_not_array_saved (ls : localStorage) (fs : list (string * jvalue)) :
  tokens_not_array {| items := <[TOKENS_KEY := JsonText (JObj fs)]> (items ls);
                      quota_exceeded := quota_exceeded ls |}.
Proof. intros l. cbn [items]. rewrite lookup_insert_eq. discriminate. Qed.

Section WithArrays.

Variable arrays : array_semantics.

Lemma getToken_eq (ls : localStorage) (id : string) :
  tokens_not_array ls ->
  getToken arrays (Some (JStr id)) ls
  = (Return (if member_truthy (object_get (tokens_of ls) id)
             then object_get (tokens_of ls) id else Own JNull), ls).
Proof.
  intros Hno. unfold getToken. eff_simpl. rewrite (loadTokens_eq _ Hno). reflexivity.
Qed.

Lemma canEdit_eq (ls : localStorage) (id : string) :
  tokens_not_array ls ->
  canEdit arrays (Some (JStr id)) ls
  = (Return (member_truthy (object_get (tokens_of ls) id)), ls).
Proof.
  intros Hno. unfold canEdit. eff_simpl. rewrite (loadTokens_eq _ Hno). reflexivity.
Qed.

Lemma setToken_eq (ls : localStorage) (id : string) (token : jvalue) :
  tokens_not_array ls -> quota_exceeded ls = false ->
  setToken arrays (Some (JStr id)) token ls
  = (Return tt, {| items := <[TOKENS_KEY := JsonText (JObj (object_set (tokens_of ls) id token))]>
                              (items ls);
                   quota_exceeded := quota_exceeded ls |}).
Proof.
  intros Hno Hq. unfold setToken, saveTokens, saveJson, setItem. eff_simpl.
  rewrite (loadTokens_eq _ Hno). cbn. rewrite Hq. reflexivity.
Qed.

Lemma deleteToken_eq (ls : localStorage) (id : string) :
  tokens_not_array ls -> quota_exceeded ls = false ->
  deleteToken arrays (Some (JStr id)) ls
  = (Return tt, {| items := <[TOKENS_KEY := JsonText (JObj (object_delete (tokens_of ls) id))]>
                              (items ls);
                   quota_exceeded := quota_exceeded ls |}).
Proof.
  intros Hno Hq. unfold deleteToken, saveTokens, saveJson, setItem. eff_simpl.
  rewrite (loadTokens_eq _ Hno). cbn. rewrite Hq. reflexivity.
Qed.

Lemma object_get_own (fs : list (string * jvalue)) (k : string) (v : jvalue) :
  JS.lookup_field k fs = Some v -> object_get fs k = Own v.
Proof. intros H. unfold object_get. rewrite H. reflexivity. Qed.

(** A token that [setToken] has put under an id is the one that [getToken]
    reads under it (null for a falsy token), and [canEdit] tells whether it
    is truthy; the tokens of the other ids and the other items of the
    storage are as before.  The token map in the storage must not be an
    array, the quota not exhausted, the id not "__proto__". *)
Theorem setToken_then_getToken (ls : localStorage) (id : string) (token : jvalue) :
  tokens_not_array ls ->
  quota_exceeded ls = false ->
  id ≠ "__proto__" ->
  let ls' := (setToken arrays (Some (JStr id)) token ls).2 in
  setToken arrays (Some (JStr id)) token ls = (Return tt, ls')
  /\ getToken arrays (Some (JStr id)) ls' = (Return (Own (JS.or_else token JNull)), ls')
  /\ canEdit arrays (Some (JStr id)) ls' = (Return (JS.truthy token), ls')
  /\ (forall id', id' ≠ id ->
        getToken arrays (Some (JStr id')) ls'
        = ((getToken arrays (Some (JStr id')) ls).1, ls'))
  /\ (forall key, key ≠ TOKENS_KEY -> items ls' !! key = items ls !! key)
  /\ tokens_not_array ls'.
Proof.
  intros Hno Hq Hid ls'. subst ls'. rewrite (setToken_eq _ _ _ Hno Hq). cbn [snd].
  pose proof (tokens_not_array_saved ls (object_set (tokens_of ls) id token)) as Hno'.
  assert (Hget : object_get (object_set (tokens_of ls) id token) id = Own token).
  { apply object_get_own. rewrite lookup_object_set by (left; exact Hid).
    rewrite bool_decide_eq_true_2 by reflexivity. reflexivity. }
  split; [reflexivity|]. split; [|split; [|split; [|split]]].
  - rewrite (getToken_eq _ _ Hno'), tokens_of_saved, Hget. unfold JS.or_else. simpl.
    destruct (JS.truthy token); reflexivity.
  - rewrite (canEdit_eq _ _ Hno'), tokens_of_saved, Hget. reflexivity.
  - intros id' Hne. rewrite (getToken_eq _ _ Hno'), (getToken_eq _ _ Hno), tokens_of_saved.
    unfold object_get. rewrite lookup_object_set_ne by congruence. reflexivity.
  - intros key Hkey. cbn [items]. apply lookup_insert_ne. congruence.
  - exact Hno'.
Qed.

(** After [deleteToken], [canEdit] is false for the id and [getToken] reads
    null; the tokens of the other ids and the other items of the storage
    are as before.  The id must not name a member of [Object.prototype],
    which no [delete] removes. *)
Theorem deleteToken_forgets (ls : localStorage) (id : string) :
  tokens_not_array ls ->
  quota_exceeded ls = false ->
  id ∉ object_prototype_names ->
  let ls' := (deleteToken arrays (Some (JStr id)) ls).2 in
  deleteToken arrays (Some (JStr id)) ls = (Return tt, ls')
  /\ canEdit arrays (Some (JStr id)) ls' = (Return false, ls')
  /\ getToken arrays (Some (JStr id)) ls' = (Return (Own JNull), ls')
  /\ (forall id', id' ≠ id ->
        getToken arrays (Some (JStr id')) ls'
        = ((getToken arrays (Some (JStr id')) ls).1, ls'))
  /\ (forall key, key ≠ TOKENS_KEY -> items ls' !! key = items ls !! key).
Proof.
  intros Hno Hq Hid ls'. subst ls'. rewrite (deleteToken_eq _ _ Hno Hq). cbn [snd].
  pose proof (tokens_not_array_saved ls (object_delete (tokens_of ls) id)) as Hno'.
  assert (Hget : object_get (object_delete (tokens_of ls) id) id = Undefined).
  { unfold object_get. rewrite lookup_object_delete.
    rewrite bool_decide_eq_true_2 by reflexivity.
    rewrite (bool_decide_eq_false_2 (id ∈ object_prototype_names)) by exact Hid.
    rewrite bool_decide_eq_false_2; [reflexivity|].
    intros ->. apply Hid. apply (bool_decide_unpack _). vm_compute. exact I. }
  split; [reflexivity|]. split; [|split; [|split]].
  - rewrite (canEdit_eq _ _ Hno'), tokens_of_saved, Hget. reflexivity.
  - rewrite (getToken_eq _ _ Hno'), tokens_of_saved, Hget. reflexivity.
  - intros id' Hne. rewrite (getToken_eq _ _ Hno'), (getToken_eq _ _ Hno), tokens_of_saved.
    unfold object_get. rewrite lookup_object_delete.
    rewrite bool_decide_eq_false_2 by congruence. reflexivity.
  - intros key Hkey. cbn [items]. apply lookup_insert_ne. congruence.
Qed.

(** *** Writes that need a token, writes that fail *)

(** When [canEdit] is false for an id, [updateNote] returns null and
    [deleteNote] returns false for it; neither sends a request nor stores
    anything. *)
Theorem no_token_no_request (id : option jvalue) (content imageDataUrl : option string)
    (net : fetch_result) (b : browser) :
  (canEdit arrays id (storage b)).1 = Return false ->
  updateNote arrays id content imageDataUrl net b = (Return JNull, b)
  /\ deleteNote arrays id net b = (Return false, b).
Proof.
  destruct b as [ls log]. cbn [storage]. intros H.
  unfold updateNote, deleteNote, on_storage, getToken. unfold canEdit in H.
  eff_simpl. eff_simpl in H. cbn [storage sent].
  destruct (loadTokens_pure ls) as [t Ht]. rewrite Ht in *.
  destruct (key_of id) as [k|msg]; simpl in H; [|discriminate].
  injection H as H. simpl. rewrite H. simpl. split; reflexivity.
Qed.

(** When the request fails, [createNote] throws after its one POST, and
    the storage is as it was after each of the three writes: a token is
    neither added nor dropped.  [deleteNote] then does not return true,
    and [updateNote] returns no note. *)
Theorem failed_write_keeps_tokens (id : option jvalue) (content imageDataUrl : option string)
    (net : fetch_result) (b : browser) :
  request_fails net ->
  (exists msg,
     createNote arrays content imageDataUrl net b
     = (Throw msg,
        {| storage := storage b;
           sent := sent b ++ [("POST", Some (JObj [("content", content_field content);
                                                   ("imageDataUrl", image_field imageDataUrl)]))] |}))
  /\ storage (updateNote arrays id content imageDataUrl net b).2 = storage b
  /\ storage (deleteNote arrays id net b).2 = storage b
  /\ (forall v, (updateNote arrays id content imageDataUrl net b).1 = Return v -> v = JNull)
  /\ (deleteNote arrays id net b).1 ≠ Return true.
Proof.
  intros Hf.
  assert (Hthrow : forall m body, exists msg, Client.apiRequest m body net = Throw msg)
    by (intros m body; apply ClientFacts.failed_request_throws, Hf).
  split.
  - unfold createNote, apiRequest. eff_simpl.
    destruct (Hthrow "POST" (Some (JObj [("content", content_field content);
                                         ("imageDataUrl", image_field imageDataUrl)])))
      as [msg ->].
    eauto.
  - destruct b as [ls log].
    unfold updateNote, deleteNote, on_storage, getToken, apiRequest. eff_simpl.
    cbn [storage sent].
    destruct (loadTokens_pure ls) as [t ->].
    destruct (key_of id) as [k|msg]; simpl; [|repeat split; intros; discriminate].
    destruct (member_truthy (get_member arrays t k)) eqn:Ht; simpl; rewrite ?Ht; simpl.
    + destruct (Hthrow "PUT" (Some (JObj (id_field id ++ token_field (get_member arrays t k)
                 ++ [("content", content_field content);
                     ("imageDataUrl", image_field imageDataUrl)])))) as [m1 ->].
      destruct (Hthrow "DELETE" (Some (JObj (id_field id
                 ++ token_field (get_member arrays t k))))) as [m2 ->].
      simpl. repeat split; intros; discriminate.
    + repeat split; try discriminate. intros v Hv. congruence.
Qed.

End WithArrays.

Lemma setToken_then_getToken_witness :
  getToken Sample5.no_arrays (Some (JStr "u-2"))
    (setToken Sample5.no_arrays (Some (JStr "u-2")) (JStr "tok2") Sample5.storage1).2
  = (Return (Own (JStr "tok2")),
     (setToken Sample5.no_arrays (Some (JStr "u-2")) (JStr "tok2") Sample5.storage1).2).
Proof.
  destruct (setToken_then_getToken Sample5.no_arrays Sample5.storage1 "u-2" (JStr "tok2"))
    as (_ & H & _).
  - intros l. vm_compute. discriminate.
  - reflexivity.
  - discriminate.
  - exact H.
Defined.

Lemma deleteToken_forgets_witness :
  canEdit Sample5.no_arrays (Some (JStr "u-1"))
    (deleteToken Sample5.no_arrays (Some (JStr "u-1")) Sample5.storage1).2
  = (Return false, (deleteToken Sample5.no_arrays (Some (JStr "u-1")) Sample5.storage1).2).
Proof.
  destruct (deleteToken_forgets Sample5.no_arrays Sample5.storage1 "u-1") as (_ & H & _).
  - intros l. vm_compute. discriminate.
  - reflexivity.
  - apply (bool_decide_unpack _). vm_compute. exact I.
  - exact H.
Defined.

Lemma no_token_no_request_witness :
  updateNote Sample5.no_arrays (Some (JStr "u-1")) (Some "new") None Sample.fetch_ok
    Sample5.browser0 = (Return JNull, Sample5.browser0)
  /\ deleteNote Sample5.no_arrays (Some (JStr "u-1")) Sample.fetch_ok Sample5.browser0
     = (Return false, Sample5.browser0).
Proof.
  apply (no_token_no_request Sample5.no_arrays (Some (JStr "u-1")) (Some "new") None
           Sample.fetch_ok Sample5.browser0).
  vm_compute. reflexivity.
Defined.

Lemma failed_write_keeps_tokens_witness :
  storage (deleteNote Sample5.no_arrays (Some (JStr "u-1")) Sample.fetch_aborted
             Sample5.browser1).2 = Sample5.storage1
  /\ (deleteNote Sample5.no_arrays (Some (JStr "u-1")) Sample.fetch_aborted
        Sample5.browser1).1 ≠ Return true.
Proof.
  destruct (failed_write_keeps_tokens Sample5.no_arrays (Some (JStr "u-1")) None None
              Sample.fetch_aborted Sample5.browser1) as (_ & _ & Hs & _ & Hd).
  - exact I.
  - split; [exact Hs|exact Hd].
Defined.

End TokensMore.

(** ** The client against the token-based function *)

Module Together.
Import Client ClientOps.

(** *** What the client reads from an answer *)

Lemma apiRequest_delivered (m : string) (body : option jvalue) (data : jvalue) :
  Client.apiRequest m body (deliver (Notes.json data 200)) = Return data.
Proof. reflexivity. Qed.

Lemma apiRequest_delivered_error (m : string) (body : option jvalue) (msg : string)
    (code : Z) :
  ok code = false -> msg ≠ "" ->
  Client.apiRequest m body (deliver (Notes.json (Notes.error msg) code)) = Throw msg.
Proof.
  intros Hok Hmsg. unfold Client.apiRequest, deliver. simpl. rewrite Hok. simpl.
  rewrite (bool_decide_eq_false_2 _ Hmsg). reflexivity.
Qed.

(** *** What the function reads from a body of the client *)

Lemma read_content_sent (fs : list (string * jvalue)) (content : option string) :
  JS.lookup_field "content" fs = Some (content_field content) ->
  Notes.read_content (JObj fs) = Return (sent_content content).
Proof. intros H. unfold Notes.read_content. simpl. rewrite H. reflexivity. Qed.

Lemma read_image_sent (fs : list (string * jvalue)) (img : option string) :
  JS.lookup_field "imageDataUrl" fs = Some (image_field img) ->
  Notes.read_image (JObj fs) = Return (sent_image img).
Proof.
  intros H. unfold Notes.read_image. simpl. rewrite H.
  destruct img as [s|]; [|reflexivity]. unfold image_field, sent_image.
  destruct (bool_decide_reflect (s = "")) as [->|Hne]; [reflexivity|].
  simpl. rewrite (bool_decide_eq_false_2 _ Hne). reflexivity.
Qed.

(** *** The error answers *)

Lemma check_fields_message (content : string) (img : option string) (r : response) :
  Notes.check_fields content img = Some r ->
  exists msg, msg ≠ "" /\ r = Notes.json (Notes.error msg) 400.
Proof.
  unfold Notes.check_fields. intros H.
  repeat match type of H with
         | (if ?c then _ else _) = _ => destruct c
         end; inversion H; eexists; (split; [|reflexivity]); discriminate.
Qed.

Lemma error_answers (e : env) (req : request) (st st' : store) (r : response) :
  Notes.handler e req st = (Return r, st') ->
  status r ≠ 200 -> status r ≠ 204 ->
  exists msg, msg ≠ "" /\ r = Notes.json (Notes.error msg) (status r) /\ ok (status r) = false.
Proof.
  intros H H200 H204.
  destruct (NotesFacts.handler_cases e req)
    as [[Hm Hd]|[[Hm Hd]|[[Hm Hd]|[[Hm Hd]|[[Hm Hd]|(_ & _ & _ & _ & Hd)]]]]];
    rewrite Hd in H; clear Hd.
  - unfold lift in H. discriminate H.
  - apply NotesFacts.handler_list_views in H as [notes ->]. contradiction H200. reflexivity.
  - rewrite NotesFacts.handler_create_eq in H.
    destruct (Notes.read_content _) as [c|]; [|discriminate].
    destruct (Notes.read_image _) as [i|]; [|discriminate].
    destruct (Notes.check_fields c i) as [failure|] eqn:Hf.
    + inversion H; subst. apply check_fields_message in Hf as (msg & Hmsg & ->). eauto.
    + inversion H; subst. contradiction H200. reflexivity.
  - rewrite NotesFacts.handler_update_eq in H.
    destruct (Notes.read_string _ "id") as [id|]; [|discriminate].
    destruct (Notes.read_string _ "token") as [token|]; [|discriminate].
    destruct (_ || _); [inversion H; subst; eexists; repeat split; discriminate|].
    destruct (negb _); [inversion H; subst; eexists; repeat split; discriminate|].
    destruct (JS.strict_ne_str _ _); [inversion H; subst; eexists; repeat split; discriminate|].
    destruct (Notes.read_content _) as [c|]; [|discriminate].
    destruct (Notes.read_image _) as [i|]; [|discriminate].
    destruct (Notes.check_fields c i) as [failure|] eqn:Hf.
    + inversion H; subst. apply check_fields_message in Hf as (msg & Hmsg & ->). eauto.
    + inversion H; subst. contradiction H200. reflexivity.
  - rewrite NotesFacts.handler_delete_eq in H.
    destruct (Notes.read_string _ "id") as [id|]; [|discriminate].
    destruct (Notes.read_string _ "token") as [token|]; [|discriminate].
    destruct (_ || _); [inversion H; subst; eexists; repeat split; discriminate|].
    destruct (negb _); [inversion H; subst; contradiction H200; reflexivity|].
    destruct (JS.strict_ne_str _ _); [inversion H; subst; eexists; repeat split; discriminate|].
    inversion H; subst. contradiction H200. reflexivity.
  - inversion H; subst. eexists. repeat split; discriminate.
Qed.

(** An answer of the function other than 200 and 204 carries an error
    message and has written nothing; [apiRequest] throws that very message
    on it, whatever the request was. *)
Theorem server_errors_reach_the_caller (e : env) (req : request) (st st' : store)
    (r : response) :
  Notes.handler e req st = (Return r, st') ->
  status r ≠ 200 -> status r ≠ 204 ->
  st' = st
  /\ exists msg,
       payload r = Some (Notes.error msg)
       /\ forall m body, Client.apiRequest m body (deliver r) = Throw msg.
Proof.
  intros H H200 H204. split.
  - destruct (NotesMore.handler_writes_on_200 e req st) as [Hsame|(r' & Hr & Hs & _)];
      rewrite H in *; cbn [fst snd] in *.
    + exact Hsame.
    + injection Hr as ->. contradiction.
  - destruct (error_answers _ _ _ _ _ H H200 H204) as (msg & Hmsg & Hr & Hok).
    exists msg. rewrite Hr. split; [reflexivity|].
    intros m body. apply apiRequest_delivered_error; assumption.
Qed.

Lemma server_errors_reach_the_caller_witness :
  Client.apiRequest "PUT" None
    (deliver (Notes.json (Notes.error "Forbidden.") 403)) = Throw "Forbidden.".
Proof.
  destruct (server_errors_reach_the_caller Sample.env2 (Sample.put "u-1" "guess" "new")
              Sample.store1 Sample.store1 (Notes.json (Notes.error "Forbidden.") 403))
    as (_ & msg & Hp & Hthrow).
  - vm_compute. reflexivity.
  - discriminate.
  - discriminate.
  - injection Hp as <-. apply Hthrow.
Defined.

(** *** The list *)

(** What the function answers to GET is what [getAllNotes] returns: a list
    of notes without edit token.  The store is as it was.  With room in the
    storage the list is cached, and a [getAllNotes] whose request then fails
    returns it again. *)
Theorem getAllNotes_round_trip (e : env) (req : request) (st st' : store) (r : response)
    (ls : localStorage) :
  method req = "GET" ->
  Notes.handler e req st = (Return r, st') ->
  st' = st
  /\ exists notes,
       payload r = Some (JArr notes)
       /\ Forall public_note notes
       /\ (getAllNotes (deliver r) ls).1 = Return (JArr notes)
       /\ (quota_exceeded ls = false ->
           forall net', request_fails net' ->
             (getAllNotes net' (getAllNotes (deliver r) ls).2).1 = Return (JArr notes)).
Proof.
  intros Hm H. rewrite (NotesFacts.handler_GET _ _ Hm) in H.
  pose proof (NotesFacts.handler_list_state st) as Hst. rewrite H in Hst. cbn [snd] in Hst.
  split; [exact Hst|].
  apply NotesFacts.handler_list_views in H as [notes ->].
  eexists. split; [reflexivity|]. split; [|split].
  - apply Forall_forall. intros x Hx. apply list_elem_of_filter in Hx as [Htr Hx].
    apply list_elem_of_fmap in Hx as [v [-> _]].
    apply NotesFacts.cleanNote_public. apply Is_true_true, Htr.
  - rewrite (ClientFacts.getAllNotes_succeeded _ _ _ (apiRequest_delivered "GET" None _)).
    reflexivity.
  - intros Hq net' Hf.
    rewrite (ClientFacts.getAllNotes_succeeded _ _ _ (apiRequest_delivered "GET" None _)).
    rewrite Hq. cbn [snd].
    destruct (ClientFacts.failed_request_throws "GET" None net' Hf) as [msg Hmsg].
    rewrite (ClientFacts.getAllNotes_failed _ _ _ Hmsg). unfold cached_list. cbn [items fst].
    rewrite lookup_insert_eq. reflexivity.
Qed.

Lemma getAllNotes_round_trip_witness :
  (getAllNotes (deliver (Notes.json (JArr Sample.listed1) 200)) Sample.storage0).1
  = Return (JArr Sample.listed1).
Proof.
  destruct (getAllNotes_round_trip Sample.env2 Sample.get Sample.store1 Sample.store1
              (Notes.json (JArr Sample.listed1) 200) Sample.storage0)
    as (_ & notes & Hp & _ & Hget & _).
  - reflexivity.
  - vm_compute. reflexivity.
  - injection Hp as <-. exact Hget.
Defined.

(** *** The three writes *)

Section WithArrays.

Variable arrays : array_semantics.

(** [createNote] against the function: when the fields that the function
    reads from the body are acceptable, the one POST is answered with the
    stored note, which [createNote] returns without its token; the token is
    then in the token map, under the id of the note, and [canEdit] is true
    for it. *)
Theorem createNote_round_trip (e : env) (st : store) (b : browser)
    (content imageDataUrl : option string) :
  let body := JObj [("content", content_field content);
                    ("imageDataUrl", image_field imageDataUrl)] in
  let id := randomUUID e in
  acceptable (sent_content content) (sent_image imageDataUrl) ->
  tokens_not_array (storage b) ->
  quota_exceeded (storage b) = false ->
  randomUUID e ≠ "__proto__" ->
  randomHex e ≠ "" ->
  exists r st' b',
    Notes.handler e (received "POST" body) st = (Return r, st')
    /\ createNote arrays content imageDataUrl (deliver r) b
       = (Return (public_shape id (sent_content content) (sent_image imageDataUrl)
                    (now e) (now e)), b')
    /\ sent b' = (sent b ++ [("POST", Some body)])%list
    /\ note_record st' id
       = note_shape id (sent_content content) (sent_image imageDataUrl)
           (now e) (now e) (randomHex e)
    /\ getToken arrays (Some (JStr id)) (storage b')
       = (Return (Own (JStr (randomHex e))), storage b')
    /\ canEdit arrays (Some (JStr id)) (storage b') = (Return true, storage b').
Proof.
  intros body id Hok Hno Hq Hid Hhex. subst id.
  rewrite (NotesMore.handler_create_accepted e (received "POST" body) st
             (sent_content content) (sent_image imageDataUrl) eq_refl
             (read_content_sent [("content", content_field content);
                                 ("imageDataUrl", image_field imageDataUrl)] content eq_refl)
             (read_image_sent [("content", content_field content);
                               ("imageDataUrl", image_field imageDataUrl)] imageDataUrl
                eq_refl) Hok).
  do 2 eexists.
  exists {| storage := {| items := <[TOKENS_KEY := JsonText (JObj (object_set
                                      (tokens_of (storage b)) (randomUUID e)
                                      (JStr (randomHex e))))]> (items (storage b));
                          quota_exceeded := quota_exceeded (storage b) |};
            sent := sent b ++ [("POST", Some body)] |}.
  split; [reflexivity|].
  pose proof (TokensMore.tokens_not_array_saved (storage b)
                (object_set (tokens_of (storage b)) (randomUUID e) (JStr (randomHex e))))
    as Hno'.
  assert (Hget : object_get (object_set (tokens_of (storage b)) (randomUUID e)
                               (JStr (randomHex e))) (randomUUID e)
                 = Own (JStr (randomHex e))).
  { apply TokensMore.object_get_own.
    rewrite TokensMore.lookup_object_set by (left; exact Hid).
    rewrite bool_decide_eq_true_2 by reflexivity. reflexivity. }
  split; [|split; [reflexivity|split; [|split]]].
  - unfold createNote, apiRequest, on_storage. eff_simpl.
    rewrite apiRequest_delivered. cbn [JS.prop JS.lookup_field JS.truthy JS.truthy_opt].
    simpl. rewrite (bool_decide_eq_false_2 _ Hhex). simpl.
    rewrite (TokensMore.setToken_eq arrays _ _ _ Hno Hq). reflexivity.
  - rewrite NotesFacts.note_record_insert_index. apply NotesFacts.note_record_insert.
  - cbn [storage]. rewrite (TokensMore.getToken_eq arrays _ _ Hno').
    rewrite TokensMore.tokens_of_saved, Hget. simpl.
    rewrite (bool_decide_eq_false_2 _ Hhex). reflexivity.
  - cbn [storage]. rewrite (TokensMore.canEdit_eq arrays _ _ Hno').
    rewrite TokensMore.tokens_of_saved, Hget. simpl.
    rewrite (bool_decide_eq_false_2 _ Hhex). reflexivity.
Qed.

(** [updateNote] against the function, for a note whose token the browser
    holds: the one PUT carries the id and the token, is accepted when the
    fields are acceptable, and [updateNote] returns the note with the new
    fields, its creation time and the time of the update; the storage of
    the browser is as it was. *)
Theorem updateNote_round_trip (e : env) (st : store) (b : browser) (id token : string)
    (content0 : string) (image0 : option string) (created updated0 : Z)
    (content imageDataUrl : option string) :
  let body := JObj [("id", JStr id); ("token", JStr token);
                    ("content", content_field content);
                    ("imageDataUrl", image_field imageDataUrl)] in
  note_record st id = note_shape id content0 image0 created updated0 token ->
  JS.lookup_field id (tokens_of (storage b)) = Some (JStr token) ->
  tokens_not_array (storage b) ->
  id ≠ "" -> token ≠ "" ->
  acceptable (sent_content content) (sent_image imageDataUrl) ->
  exists r st',
    Notes.handler e (received "PUT" body) st = (Return r, st')
    /\ updateNote arrays (Some (JStr id)) content imageDataUrl (deliver r) b
       = (Return (public_shape id (sent_content content) (sent_image imageDataUrl)
                    created (now e)),
          {| storage := storage b; sent := sent b ++ [("PUT", Some body)] |})
    /\ note_record st' id
       = note_shape id (sent_content content) (sent_image imageDataUrl)
           created (now e) token.
Proof.
  intros body Hrec Htok Hno Hid Ht Hok.
  rewrite (NotesFacts.handler_PUT e (received "PUT" body) eq_refl),
    NotesFacts.handler_update_eq.
  change (Notes.read_string (Notes.readJson (received "PUT" body)) "id") with (Return id).
  change (Notes.read_string (Notes.readJson (received "PUT" body)) "token")
    with (Return token).
  cbv beta iota.
  rewrite (bool_decide_eq_false_2 _ Hid), (bool_decide_eq_false_2 _ Ht), Hrec.
  set (N := note_shape id content0 image0 created updated0 token).
  assert (Htruthy : JS.truthy N = true) by reflexivity.
  assert (Hsame : JS.strict_ne_str (JS.prop N "editToken") token = false)
    by (apply NotesFacts.strict_ne_str_false; reflexivity).
  rewrite Htruthy, Hsame. cbn [orb negb].
  change (Notes.readJson (received "PUT" body)) with body. subst body.
  set (fs := [("id", JStr id); ("token", JStr token);
              ("content", content_field content);
              ("imageDataUrl", image_field imageDataUrl)]).
  rewrite (read_content_sent fs content eq_refl), (read_image_sent fs imageDataUrl eq_refl).
  apply NotesMore.check_fields_passes in Hok. rewrite Hok.
  do 2 eexists. split; [reflexivity|]. split.
  - destruct b as [ls log]. cbn [storage sent] in *.
    assert (Hmt : member_truthy (Own (JStr token)) = true)
      by (simpl; rewrite (bool_decide_eq_false_2 _ Ht); reflexivity).
    unfold updateNote, apiRequest, on_storage. eff_simpl.
    rewrite (TokensMore.getToken_eq arrays _ _ Hno).
    rewrite (TokensMore.object_get_own _ _ _ Htok), !Hmt. cbn [negb storage sent].
    rewrite apiRequest_delivered. reflexivity.
  - apply NotesFacts.note_record_insert.
Qed.

(** [deleteNote] against the function, for a note whose token the browser
    holds: the one DELETE carries the id and the token and is answered
    200; the note is then neither in the store nor in the index, the token
    is dropped from the token map, and [deleteNote] returns true. *)
Theorem deleteNote_round_trip (e : env) (st : store) (b : browser) (id token : string)
    (content0 : string) (image0 : option string) (created updated0 : Z) :
  let body := JObj [("id", JStr id); ("token", JStr token)] in
  note_record st id = note_shape id content0 image0 created updated0 token ->
  JS.lookup_field id (tokens_of (storage b)) = Some (JStr token) ->
  tokens_not_array (storage b) ->
  quota_exceeded (storage b) = false ->
  id ≠ "" -> token ≠ "" ->
  id ∉ object_prototype_names ->
  exists r st' b',
    Notes.handler e (received "DELETE" body) st = (Return r, st')
    /\ deleteNote arrays (Some (JStr id)) (deliver r) b = (Return true, b')
    /\ sent b' = (sent b ++ [("DELETE", Some body)])%list
    /\ note_record st' id = JNull
    /\ (JStr id ∉ index_of st')
    /\ canEdit arrays (Some (JStr id)) (storage b') = (Return false, storage b').
Proof.
  intros body Hrec Htok Hno Hq Hid Ht Hnames.
  rewrite (NotesFacts.handler_DELETE e (received "DELETE" body) eq_refl),
    NotesFacts.handler_delete_eq.
  change (Notes.read_string (Notes.readJson (received "DELETE" body)) "id") with (Return id).
  change (Notes.read_string (Notes.readJson (received "DELETE" body)) "token")
    with (Return token).
  cbv beta iota.
  rewrite (bool_decide_eq_false_2 _ Hid), (bool_decide_eq_false_2 _ Ht), Hrec.
  set (N := note_shape id content0 image0 created updated0 token).
  assert (Htruthy : JS.truthy N = true) by reflexivity.
  assert (Hsame : JS.strict_ne_str (JS.prop N "editToken") token = false)
    by (apply NotesFacts.strict_ne_str_false; reflexivity).
  rewrite Htruthy, Hsame. cbn [orb negb].
  do 2 eexists.
  exists {| storage := {| items := <[TOKENS_KEY := JsonText (JObj (object_delete
                                      (tokens_of (storage b)) id))]> (items (storage b));
                          quota_exceeded := quota_exceeded (storage b) |};
            sent := sent b ++ [("DELETE", Some body)] |}.
  split; [reflexivity|].
  pose proof (TokensMore.tokens_not_array_saved (storage b)
                (object_delete (tokens_of (storage b)) id)) as Hno'.
  split; [|split; [reflexivity|split; [|split]]].
  - destruct b as [ls log]. cbn [storage sent] in *.
    assert (Hmt : member_truthy (Own (JStr token)) = true)
      by (simpl; rewrite (bool_decide_eq_false_2 _ Ht); reflexivity).
    unfold deleteNote, apiRequest, on_storage. eff_simpl.
    rewrite (TokensMore.getToken_eq arrays _ _ Hno).
    rewrite (TokensMore.object_get_own _ _ _ Htok), !Hmt. cbn [negb storage sent].
    rewrite apiRequest_delivered.
    change (JS.truthy (JObj [("ok", JBool true)])
            && JS.truthy_opt (JS.prop (JObj [("ok", JBool true)]) "ok")) with true.
    cbv beta iota.
    rewrite (TokensMore.deleteToken_eq arrays _ _ Hno Hq). reflexivity.
  - rewrite NotesFacts.note_record_insert_index. unfold note_record.
    rewrite lookup_delete_eq. reflexivity.
  - rewrite NotesFacts.index_of_insert_index. apply NotesMore.not_in_filter_other.
  - cbn [storage]. rewrite (TokensMore.canEdit_eq arrays _ _ Hno').
    rewrite TokensMore.tokens_of_saved. unfold object_get.
    rewrite TokensMore.lookup_object_delete, bool_decide_eq_true_2 by reflexivity.
    rewrite (bool_decide_eq_false_2 (id ∈ object_prototype_names)) by exact Hnames.
    rewrite bool_decide_eq_false_2; [reflexivity|].
    intros ->. apply Hnames. apply (bool_decide_unpack _). vm_compute. exact I.
Qed.

End WithArrays.

Lemma createNote_round_trip_witness :
  exists b',
    createNote Sample5.no_arrays (Some "  hi ") None (deliver Sample.created1)
      Sample5.browser0
    = (Return (public_shape "u-1" "hi" None 1000 1000), b')
    /\ canEdit Sample5.no_arrays (Some (JStr "u-1")) (storage b')
       = (Return true, storage b').
Proof.
  destruct (createNote_round_trip Sample5.no_arrays Sample.env1 ∅ Sample5.browser0
              (Some "  hi ") None) as (r & st' & b' & Hh & Hc & _ & _ & _ & He).
  - split; [left; vm_compute; discriminate|]. split; [vm_compute; discriminate|].
    intros s Hs. discriminate Hs.
  - intros l. vm_compute. discriminate.
  - reflexivity.
  - discriminate.
  - discriminate.
  - exists b'. injection Hh as <- _. split; [exact Hc|exact He].
Defined.

Lemma updateNote_round_trip_witness :
  exists r st',
    Notes.handler Sample.env2
      (received "PUT" (JObj [("id", JStr "u-1"); ("token", JStr "tok1");
                             ("content", JStr "bye"); ("imageDataUrl", JNull)]))
      Sample.store1 = (Return r, st')
    /\ updateNote Sample5.no_arrays (Some (JStr "u-1")) (Some "bye") None (deliver r)
         Sample5.browser1
       = (Return (public_shape "u-1" "bye" None 1000 2000),
          {| storage := Sample5.storage1;
             sent := [("PUT", Some (JObj [("id", JStr "u-1"); ("token", JStr "tok1");
                                          ("content", JStr "bye");
                                          ("imageDataUrl", JNull)]))] |}).
Proof.
  destruct (updateNote_round_trip Sample5.no_arrays Sample.env2 Sample.store1
              Sample5.browser1 "u-1" "tok1" "hi" None 1000 1000 (Some "bye") None)
    as (r & st' & Hh & Hu & _).
  - vm_compute. reflexivity.
  - vm_compute. reflexivity.
  - intros l. vm_compute. discriminate.
  - discriminate.
  - discriminate.
  - split; [left; vm_compute; discriminate|]. split; [vm_compute; discriminate|].
    intros s Hs. discriminate Hs.
  - exists r, st'. split; [exact Hh|exact Hu].
Defined.

Lemma deleteNote_round_trip_witness :
  exists r st' b',
    Notes.handler Sample.env2
      (received "DELETE" (JObj [("id", JStr "u-1"); ("token", JStr "tok1")]))
      Sample.store1 = (Return r, st')
    /\ deleteNote Sample5.no_arrays (Some (JStr "u-1")) (deliver r) Sample5.browser1
       = (Return true, b')
    /\ note_record st' "u-1" = JNull
    /\ canEdit Sample5.no_arrays (Some (JStr "u-1")) (storage b')
       = (Return false, storage b').
Proof.
  destruct (deleteNote_round_trip Sample5.no_arrays Sample.env2 Sample.store1
              Sample5.browser1 "u-1" "tok1" "hi" None 1000 1000)
    as (r & st' & b' & Hh & Hd & _ & Hgone & _ & He).
  - vm_compute. reflexivity.
  - vm_compute. reflexivity.
  - intros l. vm_compute. discriminate.
  - reflexivity.
  - discriminate.
  - discriminate.
  - apply (bool_decide_unpack _). vm_compute. exact I.
  - exists r, st', b'. auto.
Defined.

End Together.

(** ** The client of the release *)

Module ReleaseMore.
Import Client.

Lemma getLocalNotes_eq (ls : localStorage) :
  Release.getLocalNotes ls = (Return (local_notes ls), ls).
Proof.
  unfold Release.getLocalNotes, getItem, local_notes. eff_simpl.
  destruct (items ls !! Release.STORAGE_KEY) as [[|v|]|]; try reflexivity.
  destruct v; reflexivity.
Qed.

Lemma saveLocalNotes_eq (ls : localStorage) (notes : list jvalue) :
  quota_exceeded ls = false ->
  Release.saveLocalNotes notes ls
  = (Return tt, {| items := <[Release.STORAGE_KEY := JsonText (JArr notes)]> (items ls);
                   quota_exceeded := quota_exceeded ls |}).
Proof.
  intros Hq. unfold Release.saveLocalNotes, setItem. eff_simpl. rewrite Hq. reflexivity.
Qed.

Lemma local_notes_saved (ls : localStorage) (notes : list jvalue) :
  local_notes {| items := <[Release.STORAGE_KEY := JsonText (JArr notes)]> (items ls);
                 quota_exceeded := quota_exceeded ls |} = notes.
Proof. unfold local_notes. cbn [items]. rewrite lookup_insert_eq. reflexivity. Qed.

Lemma image_or_null_json (img : option string) :
  Release.image_or_null img = Notes.image_json (sent_image img).
Proof.
  destruct img as [s|]; [|reflexivity]. unfold Release.image_or_null, sent_image.
  destruct (bool_decide (s = "")); reflexivity.
Qed.

Section WithPlatform.

Variable raw : text -> string.
Variable encodeURIComponent : string -> outcome string.

Lemma requestJson_unavailable (path method : string) (body : option jvalue)
    (net : fetch_result) :
  unavailable net -> exists msg, Release.requestJson raw path method body net = Throw msg.
Proof.
  destruct net as [msg|status body_text]; simpl; [eauto|].
  intros [Hok|(H204 & Hbody)].
  - rewrite Hok. simpl. destruct body_text as [t|msg]; simpl; eauto.
  - destruct (ok status); simpl; [|destruct body_text as [t|msg]; simpl; eauto].
    rewrite (proj2 (Z.eqb_neq status 204) H204).
    destruct Hbody as [[msg ->]|[->| ->]]; simpl; eauto.
Qed.

Lemma getAllNotes_unavailable (net : fetch_result) (ls : localStorage) :
  unavailable net -> Release.getAllNotes raw net ls = (Return (local_notes ls), ls).
Proof.
  intros Hun. unfold Release.getAllNotes. eff_simpl.
  destruct (requestJson_unavailable "" "GET" None net Hun) as [msg ->].
  apply getLocalNotes_eq.
Qed.

(** *** The list *)

(** [getAllNotes] never throws and writes nothing.  It returns the notes of
    the answer when the answer is an object whose [notes] is an array, and
    the local notes when the shared API is unavailable. *)
Theorem release_getAllNotes (net : fetch_result) (ls : localStorage) :
  (exists notes, Release.getAllNotes raw net ls = (Return notes, ls))
  /\ (unavailable net -> Release.getAllNotes raw net ls = (Return (local_notes ls), ls))
  /\ (forall status fs notes,
        net = Responded status (Return (JsonText (JObj fs))) ->
        ok status = true -> status ≠ 204 ->
        JS.lookup_field "notes" fs = Some (JArr notes) ->
        Release.getAllNotes raw net ls = (Return notes, ls)).
Proof.
  split; [|split].
  - unfold Release.getAllNotes. eff_simpl.
    destruct (Release.requestJson raw "" "GET" None net) as [payload|msg].
    + destruct (JS.truthy payload && _); [eauto|].
      rewrite getLocalNotes_eq. eauto.
    + rewrite getLocalNotes_eq. eauto.
  - apply getAllNotes_unavailable.
  - intros status fs notes -> Hok H204 Hnotes. unfold Release.getAllNotes. eff_simpl.
    simpl. rewrite Hok, (proj2 (Z.eqb_neq status 204) H204). simpl.
    rewrite Hnotes. reflexivity.
Qed.

(** *** Local mode *)

Lemma createNote_local (e : env) (content : string) (imageDataUrl : option string)
    (net : fetch_result) (ls : localStorage) :
  unavailable net ->
  quota_exceeded ls = false ->
  Release.createNote raw e content imageDataUrl net ls
  = (Return (local_note e content imageDataUrl),
     {| items := <[Release.STORAGE_KEY
                   := JsonText (JArr (local_note e content imageDataUrl
                                        :: local_notes ls))]> (items ls);
        quota_exceeded := quota_exceeded ls |}).
Proof.
  intros Hun Hq. unfold Release.createNote. eff_simpl.
  destruct (requestJson_unavailable "" "POST"
              (Some (JObj [("content", JStr (JS.trim content));
                           ("imageDataUrl", Release.image_or_null imageDataUrl)]))
              net Hun) as [msg ->].
  rewrite getLocalNotes_eq, (saveLocalNotes_eq _ _ Hq). reflexivity.
Qed.

(** When the shared API is unavailable (no answer, a status other than
    2xx, a body that is not JSON), [createNote] builds the note itself, with
    the trimmed content and equal creation and update times, puts it before
    the local notes and returns it; [getAllNotes] in local mode then lists
    it first.  No other item of the storage changes. *)
Theorem local_create (e : env) (content : string) (imageDataUrl : option string)
    (net : fetch_result) (ls : localStorage) :
  unavailable net ->
  quota_exceeded ls = false ->
  let ls' := (Release.createNote raw e content imageDataUrl net ls).2 in
  Release.createNote raw e content imageDataUrl net ls
  = (Return (local_note e content imageDataUrl), ls')
  /\ local_notes ls' = local_note e content imageDataUrl :: local_notes ls
  /\ (forall net', unavailable net' ->
        Release.getAllNotes raw net' ls'
        = (Return (local_note e content imageDataUrl :: local_notes ls), ls'))
  /\ (forall key, key ≠ Release.STORAGE_KEY -> items ls' !! key = items ls !! key).
Proof.
  intros Hun Hq ls'. subst ls'. rewrite (createNote_local _ _ _ _ _ Hun Hq). cbn [snd].
  split; [reflexivity|]. split; [apply local_notes_saved|]. split.
  - intros net' Hun'. rewrite (getAllNotes_unavailable _ _ Hun'), local_notes_saved.
    reflexivity.
  - intros key Hkey. cbn [items]. apply lookup_insert_ne. congruence.
Qed.

(** In local mode [updateNote] rewrites the first local note that carries
    the id: the trimmed content, the image and the time of the update are
    new; the id, the creation time and every other field stay, and so do
    the other notes and their order.  It returns the rewritten note. *)
Theorem local_update (e : env) (id content : string) (imageDataUrl : option string)
    (net : fetch_result) (ls : localStorage) (index : nat) :
  unavailable net ->
  quota_exceeded ls = false ->
  PathNotes.findIndex id (local_notes ls) = Return (Some index) ->
  exists old updated,
    local_notes ls !! index = Some (JObj old)
    /\ (forall j n, (j < index)%nat -> local_notes ls !! j = Some n ->
                    PathNotes.id_is id n = Return false)
    /\ Release.updateNote raw encodeURIComponent e id content imageDataUrl net ls
       = (Return updated,
          (Release.updateNote raw encodeURIComponent e id content imageDataUrl net ls).2)
    /\ local_notes
         (Release.updateNote raw encodeURIComponent e id content imageDataUrl net ls).2
       = <[index := updated]> (local_notes ls)
    /\ JS.prop updated "id" = Some (JStr id)
    /\ JS.prop updated "content" = Some (JStr (JS.trim content))
    /\ JS.prop updated "imageDataUrl" = Some (Release.image_or_null imageDataUrl)
    /\ JS.prop updated "updatedAt" = Some (JNum (now e))
    /\ (forall k, k ≠ "content" -> k ≠ "imageDataUrl" -> k ≠ "updatedAt" ->
                  JS.prop updated k = JS.lookup_field k old).
Proof.
  intros Hun Hq Hfind.
  destruct (PathMore.findIndex_spec _ _ _ Hfind) as [(old & Hold & Hhit) Hbefore].
  destruct (PathMore.id_is_true_object _ _ Hhit) as (fs & -> & Hfs).
  exists fs, (Notes.updated_note (JObj fs) (JS.trim content) (sent_image imageDataUrl)
                (now e)).
  split; [exact Hold|]. split; [exact Hbefore|].
  assert (Hu : Release.updateNote raw encodeURIComponent e id content imageDataUrl net ls
               = (Return (Notes.updated_note (JObj fs) (JS.trim content)
                            (sent_image imageDataUrl) (now e)),
                  {| items := <[Release.STORAGE_KEY
                                := JsonText (JArr (<[index := Notes.updated_note (JObj fs)
                                                        (JS.trim content)
                                                        (sent_image imageDataUrl) (now e)]>
                                                     (local_notes ls)))]> (items ls);
                     quota_exceeded := quota_exceeded ls |})).
  { unfold Release.updateNote. eff_simpl.
    destruct (encodeURIComponent id) as [encoded|msg].
    - destruct (requestJson_unavailable ("/" +:+ encoded) "PUT"
                  (Some (JObj [("content", JStr (JS.trim content));
                               ("imageDataUrl", Release.image_or_null imageDataUrl)]))
                  net Hun) as [msg ->].
      rewrite getLocalNotes_eq, Hfind. cbv beta iota zeta.
      rewrite Hold, (saveLocalNotes_eq _ _ Hq), image_or_null_json. reflexivity.
    - rewrite getLocalNotes_eq, Hfind. cbv beta iota zeta.
      rewrite Hold, (saveLocalNotes_eq _ _ Hq), image_or_null_json. reflexivity. }
  rewrite Hu. cbn [snd].
  split; [reflexivity|]. split; [apply local_notes_saved|].
  rewrite !NotesFacts.prop_updated_note. cbn [bool_decide decide_rel].
  split; [exact Hfs|]. split; [reflexivity|].
  split; [rewrite image_or_null_json; reflexivity|]. split; [reflexivity|].
  intros k H1 H2 H3. rewrite NotesFacts.prop_updated_note.
  rewrite !bool_decide_eq_false_2 by congruence. reflexivity.
Qed.

(** In local mode [deleteNote] removes every local note that carries the
    id, keeps the others in their order, and returns true. *)
Theorem local_delete (id : string) (net : fetch_result) (ls : localStorage)
    (kept : list jvalue) :
  unavailable net ->
  quota_exceeded ls = false ->
  PathNotes.filter_out id (local_notes ls) = Return kept ->
  List.length kept ≠ List.length (local_notes ls) ->
  let ls' := (Release.deleteNote raw encodeURIComponent id net ls).2 in
  Release.deleteNote raw encodeURIComponent id net ls = (Return true, ls')
  /\ local_notes ls' = kept
  /\ Forall (fun n => PathNotes.id_is id n = Return false) kept
  /\ kept `sublist_of` local_notes ls
  /\ (forall n, n ∈ local_notes ls -> PathNotes.id_is id n = Return false -> n ∈ kept).
Proof.
  intros Hun Hq Hf Hlen ls'.
  assert (Hd : Release.deleteNote raw encodeURIComponent id net ls
               = (Return true,
                  {| items := <[Release.STORAGE_KEY := JsonText (JArr kept)]> (items ls);
                     quota_exceeded := quota_exceeded ls |})).
  { unfold Release.deleteNote. eff_simpl.
    destruct (encodeURIComponent id) as [encoded|msg].
    - destruct (requestJson_unavailable ("/" +:+ encoded) "DELETE" None net Hun)
        as [msg ->].
      rewrite getLocalNotes_eq, Hf. cbv beta iota zeta.
      rewrite (bool_decide_eq_false_2 _ Hlen), (saveLocalNotes_eq _ _ Hq). reflexivity.
    - rewrite getLocalNotes_eq, Hf. cbv beta iota zeta.
      rewrite (bool_decide_eq_false_2 _ Hlen), (saveLocalNotes_eq _ _ Hq). reflexivity. }
  subst ls'. rewrite Hd. cbn [snd].
  split; [reflexivity|]. split; [apply local_notes_saved|].
  apply PathMore.filter_out_spec, Hf.
Qed.

(** In local mode, for an id that no local note carries, [updateNote]
    returns null and [deleteNote] returns false, and neither writes. *)
Theorem local_missing (e : env) (id content : string) (imageDataUrl : option string)
    (net : fetch_result) (ls : localStorage) :
  unavailable net ->
  Forall (fun n => PathNotes.id_is id n = Return false) (local_notes ls) ->
  Release.updateNote raw encodeURIComponent e id content imageDataUrl net ls
  = (Return JNull, ls)
  /\ Release.deleteNote raw encodeURIComponent id net ls = (Return false, ls).
Proof.
  intros Hun Hnone.
  assert (Hfind : PathNotes.findIndex id (local_notes ls) = Return None).
  { induction Hnone as [|n notes Hn _ IH]; simpl; [reflexivity|].
    rewrite Hn. simpl. rewrite IH. reflexivity. }
  pose proof (VariantFacts.filter_out_none id _ Hnone) as Hf.
  unfold Release.updateNote, Release.deleteNote. eff_simpl.
  destruct (encodeURIComponent id) as [encoded|msg].
  - destruct (requestJson_unavailable ("/" +:+ encoded) "PUT"
                (Some (JObj [("content", JStr (JS.trim content));
                             ("imageDataUrl", Release.image_or_null imageDataUrl)]))
                net Hun) as [m1 ->].
    destruct (requestJson_unavailable ("/" +:+ encoded) "DELETE" None net Hun) as [m2 ->].
    rewrite getLocalNotes_eq, Hfind, Hf. cbv beta iota zeta.
    rewrite bool_decide_eq_true_2 by reflexivity. split; reflexivity.
  - rewrite getLocalNotes_eq, Hfind, Hf. cbv beta iota zeta.
    rewrite bool_decide_eq_true_2 by reflexivity. split; reflexivity.
Qed.

(** *** Shared mode *)

(** When the shared API answers 2xx with an object that carries a note,
    [createNote] and [updateNote] return that note; [deleteNote] returns
    true on any 2xx answer that can be read, and on 204 without reading it.
    None of them writes to the storage. *)
Theorem shared_writes_leave_storage (e : env) (id encoded content : string)
    (imageDataUrl : option string) (status : Z) (result note : jvalue)
    (body_text : outcome text) (ls : localStorage) :
  ok status = true ->
  status ≠ 204 ->
  encodeURIComponent id = Return encoded ->
  Release.note_in result = Some note ->
  let net := Responded status (Return (JsonText result)) in
  Release.createNote raw e content imageDataUrl net ls = (Return note, ls)
  /\ Release.updateNote raw encodeURIComponent e id content imageDataUrl net ls
     = (Return note, ls)
  /\ Release.deleteNote raw encodeURIComponent id net ls = (Return true, ls)
  /\ Release.deleteNote raw encodeURIComponent id (Responded 204 body_text) ls
     = (Return true, ls).
Proof.
  intros Hok H204 Henc Hnote net. subst net.
  unfold Release.createNote, Release.updateNote, Release.deleteNote. eff_simpl.
  rewrite Henc. simpl. rewrite Hok, (proj2 (Z.eqb_neq status 204) H204). simpl.
  rewrite Hnote. repeat split; reflexivity.
Qed.

(** *** The release against the id-in-path function *)

Variable decodeURIComponent : string -> outcome string.

(** What the id-in-path function answers to GET is an error, 500, so
    [getAllNotes] lists the local notes; neither the store nor the storage
    is touched. *)
Theorem release_list_against_function (e : env) (req : request) (st : store)
    (ls : localStorage) :
  method req = "GET" ->
  exists r,
    PathNotes.handler decodeURIComponent e req st = (Return r, st)
    /\ status r = 500
    /\ Release.getAllNotes raw (deliver r) ls = (Return (local_notes ls), ls).
Proof.
  intros Hm. exists store_unreadable.
  split; [apply (PathMore.path_GET_eq decodeURIComponent), Hm|].
  split; [reflexivity|]. apply getAllNotes_unavailable. left. reflexivity.
Qed.

(** [createNote] against the id-in-path function.  The function answers
    every POST with 500 and stores nothing, whether it refuses the body or
    accepts it, so [createNote] goes to local mode each time: it builds a
    note of its own, puts it before the local notes in the storage, and
    returns it. *)
Theorem release_create_against_function (e e' : env) (req : request) (st : store)
    (content : string) (imageDataUrl : option string) (ls : localStorage) :
  method req = "POST" ->
  quota_exceeded ls = false ->
  exists r,
    PathNotes.handler decodeURIComponent e req st = (Return r, st)
    /\ status r = 500
    /\ (Release.createNote raw e' content imageDataUrl (deliver r) ls).1
       = Return (local_note e' content imageDataUrl)
    /\ local_notes (Release.createNote raw e' content imageDataUrl (deliver r) ls).2
       = local_note e' content imageDataUrl :: local_notes ls.
Proof.
  intros Hm Hq.
  assert (H : exists msg,
            PathNotes.handler decodeURIComponent e req st = (Return (failure_500 msg), st)).
  { rewrite (PathMore.path_POST_eq decodeURIComponent _ _ _ Hm).
    destruct (outcome_bind (body req) PathNotes.normalizePayload) as [p|msg]; eauto. }
  destruct H as [msg ->]. exists (failure_500 msg).
  split; [reflexivity|]. split; [reflexivity|].
  rewrite (createNote_local e' content imageDataUrl (deliver (failure_500 msg)) ls);
    [|left; reflexivity|exact Hq].
  cbn [fst snd]. split; [reflexivity|apply local_notes_saved].
Qed.

End WithPlatform.

Lemma release_list_against_function_witness :
  exists r,
    PathNotes.handler Sample.decode_plain Sample.env2 Sample.get ∅ = (Return r, ∅)
    /\ status r = 500
    /\ Release.getAllNotes Sample6.raw_unread (deliver r) Sample6.storage_ab
       = (Return [Sample6.note_a; Sample6.note_b], Sample6.storage_ab).
Proof.
  destruct (release_list_against_function Sample6.raw_unread Sample.decode_plain
              Sample.env2 Sample.get ∅ Sample6.storage_ab) as (r & Hh & Hs & Hg).
  - reflexivity.
  - exists r. split; [exact Hh|]. split; [exact Hs|exact Hg].
Defined.

Lemma release_create_against_function_witness :
  exists r,
    PathNotes.handler Sample.decode_plain Sample.env1
      (mkRequest "POST" Release.API_BASE
         (Return (JObj [("content", JStr "hi"); ("imageDataUrl", JNull)]))) ∅
    = (Return r, ∅)
    /\ status r = 500
    /\ local_notes (Release.createNote Sample6.raw_unread Sample.env2 "  hi " None
                      (deliver r) Sample.storage0).2
       = [local_note Sample.env2 "  hi " None].
Proof.
  destruct (release_create_against_function Sample6.raw_unread Sample.decode_plain
              Sample.env1 Sample.env2
              (mkRequest "POST" Release.API_BASE
                 (Return (JObj [("content", JStr "hi"); ("imageDataUrl", JNull)])))
              ∅ "  hi " None Sample.storage0) as (r & Hh & Hs & _ & Hl).
  - reflexivity.
  - reflexivity.
  - exists r. split; [exact Hh|]. split; [exact Hs|exact Hl].
Defined.

Lemma release_getAllNotes_witness :
  Release.getAllNotes Sample6.raw_unread Sample.fetch_aborted Sample6.storage_ab
  = (Return [Sample6.note_a; Sample6.note_b], Sample6.storage_ab).
Proof.
  destruct (release_getAllNotes Sample6.raw_unread Sample.fetch_aborted Sample6.storage_ab)
    as (_ & H & _).
  apply H. exact I.
Defined.

Lemma local_create_witness :
  (Release.createNote Sample6.raw_unread Sample.env1 "  hi " None Sample.fetch_aborted
     Sample6.storage_ab).1
  = Return (JObj [("id", JStr "note_1000_abcdefghi"); ("content", JStr "hi");
                  ("imageDataUrl", JNull); ("createdAt", JNum 1000);
                  ("updatedAt", JNum 1000)])
  /\ local_notes (Release.createNote Sample6.raw_unread Sample.env1 "  hi " None
                    Sample.fetch_aborted Sample6.storage_ab).2
     = [local_note Sample.env1 "  hi " None; Sample6.note_a; Sample6.note_b].
Proof.
  destruct (local_create Sample6.raw_unread Sample.env1 "  hi " None Sample.fetch_aborted
              Sample6.storage_ab) as (Hc & Hl & _).
  - exact I.
  - reflexivity.
  - split; [rewrite Hc; vm_compute; reflexivity|exact Hl].
Defined.

Lemma local_update_witness :
  exists old updated,
    local_notes Sample6.storage_ab !! 1%nat = Some (JObj old)
    /\ (Release.updateNote Sample6.raw_unread Sample6.encode_plain Sample.env2 "b" " new "
          None (Responded 404 (Return Empty)) Sample6.storage_ab).1 = Return updated
    /\ JS.prop updated "content" = Some (JStr "new")
    /\ JS.prop updated "createdAt" = Some (JNum 20)
    /\ JS.prop updated "updatedAt" = Some (JNum 2000).
Proof.
  destruct (local_update Sample6.raw_unread Sample6.encode_plain Sample.env2 "b" " new "
              None (Responded 404 (Return Empty)) Sample6.storage_ab 1)
    as (old & updated & Hold & _ & Hu & _ & _ & Hc & _ & Ht & Hrest).
  - left. reflexivity.
  - reflexivity.
  - vm_compute. reflexivity.
  - exists old, updated. split; [exact Hold|]. split; [rewrite Hu; reflexivity|].
    split; [exact Hc|]. split; [|exact Ht].
    rewrite (Hrest "createdAt") by discriminate.
    vm_compute in Hold. injection Hold as <-. reflexivity.
Defined.

Lemma local_delete_witness :
  Release.deleteNote Sample6.raw_unread Sample6.encode_plain "a" Sample.fetch_aborted
    Sample6.storage_ab
  = (Return true,
     (Release.deleteNote Sample6.raw_unread Sample6.encode_plain "a" Sample.fetch_aborted
        Sample6.storage_ab).2)
  /\ local_notes (Release.deleteNote Sample6.raw_unread Sample6.encode_plain "a"
                    Sample.fetch_aborted Sample6.storage_ab).2 = [Sample6.note_b].
Proof.
  destruct (local_delete Sample6.raw_unread Sample6.encode_plain "a" Sample.fetch_aborted
              Sample6.storage_ab [Sample6.note_b]) as (Hd & Hl & _).
  - exact I.
  - reflexivity.
  - vm_compute. reflexivity.
  - vm_compute. discriminate.
  - split; [exact Hd|exact Hl].
Defined.

Lemma local_missing_witness :
  Release.updateNote Sample6.raw_unread Sample6.encode_plain Sample.env2 "zz" "new" None
    Sample.fetch_aborted Sample6.storage_ab = (Return JNull, Sample6.storage_ab)
  /\ Release.deleteNote Sample6.raw_unread Sample6.encode_plain "zz" Sample.fetch_aborted
       Sample6.storage_ab = (Return false, Sample6.storage_ab).
Proof.
  apply (local_missing Sample6.raw_unread Sample6.encode_plain Sample.env2 "zz" "new" None
           Sample.fetch_aborted Sample6.storage_ab).
  - exact I.
  - vm_compute. repeat constructor.
Defined.

Lemma shared_writes_leave_storage_witness :
  Release.updateNote Sample6.raw_unread Sample6.encode_plain Sample.env2 "a" "new" None
    (Responded 200 (Return (JsonText (JObj [("note", Sample6.note_a)]))))
    Sample.storage0 = (Return Sample6.note_a, Sample.storage0)
  /\ Release.deleteNote Sample6.raw_unread Sample6.encode_plain "a"
       (Responded 204 (Return Empty)) Sample.storage0 = (Return true, Sample.storage0).
Proof.
  destruct (shared_writes_leave_storage Sample6.raw_unread Sample6.encode_plain Sample.env2
              "a" "a" "new" None 200 (JObj [("note", Sample6.note_a)]) Sample6.note_a
              (Return Empty) Sample.storage0) as (_ & Hu & _ & Hd).
  - reflexivity.
  - discriminate.
  - reflexivity.
  - reflexivity.
  - split; [exact Hu|exact Hd].
Defined.

End ReleaseMore.
